(** * Wallet Gen: the wallet generator component

    A shallow embedding of [src/components/WalletGenerator.tsx]: the React
    component that keeps a recovery phrase, a chain selection and a list of
    derived wallets, together with the npm packages it calls (bip39,
    ed25519-hd-key, tweetnacl, @solana/web3.js, bs58, ethers).

    Layout of the development:
    - [Buffer]: byte buffers and their hexadecimal rendering;
    - [SHA512], [HMAC], [PBKDF2], [Keccak], [Fp], [Secp256k1], [Ed25519],
      [Base58]: the primitives behind the packages, executable on real
      inputs;
    - [JS]: the few JavaScript string and array operations the component uses;
    - [Npm]: the record [Libs] of the package functions the component
      imports, which the component is parameterised by, and the published
      packages as one instance of it;
    - [Bip32]: the derivation the specification names for the secp256k1
      chain, for comparison;
    - [Component]: state, persistence, notifications and the event handlers;
    - [View]: what the component renders: the controls each state offers,
      the handler behind each control, the texts of a wallet card and the
      clipboard;
    - lemmas on the handlers and on the packages, then one section per claim
      of the specification;
    - further properties of the handlers, of loading and of the page driven
      through its controls;
    - the registry operations as the page offers them: the claims on add,
      remove, failures and generate-then-add. *)

From Stdlib Require Import ZArith List Ascii String Uint63 Lia Bool DecimalString
  DecimalNat.
From Stdlib.Strings Require Import Byte.
From Bignums Require Import BigZ.BigZ.
From stdpp Require Import gmap strings.
Import ListNotations.

Set Default Proof Using "Type".

(** ** Byte buffers *)

Module Buffer.

(** A Node [Buffer] / [Uint8Array]. *)
Definition t : Type := list byte.

Definition to_int (b : byte) : int := Uint63.of_Z (Z.of_N (Byte.to_N b)).

Definition of_Z (z : Z) : byte :=
  match Byte.of_N (Z.to_N (Z.land z 255)) with
  | Some b => b
  | None => x00
  end.

Definition of_int (i : int) : byte := of_Z (Uint63.to_Z i).

Definition to_Z (b : byte) : Z := Z.of_N (Byte.to_N b).

(** [Buffer.from(s, "utf8")]: strings are kept as their UTF-8 bytes. *)
Definition from_string (s : string) : t := list_byte_of_string s.

Definition hex_digit (n : N) : ascii :=
  ascii_of_N (if (n <? 10)%N then 48 + n else 87 + n).

(** [buf.toString("hex")]: two lowercase digits per byte. *)
Fixpoint toString_hex (buf : t) : string :=
  match buf with
  | [] => EmptyString
  | b :: rest =>
      let n := Byte.to_N b in
      String (hex_digit (n / 16)) (String (hex_digit (n mod 16)) (toString_hex rest))
  end.

Definition hex_value (c : ascii) : option N :=
  let n := N_of_ascii c in
  if ((48 <=? n) && (n <=? 57))%N then Some (n - 48)%N
  else if ((97 <=? n) && (n <=? 102))%N then Some (n - 87)%N
  else if ((65 <=? n) && (n <=? 70))%N then Some (n - 55)%N
  else None.

(** [Buffer.from(s, "hex")]: decodes pairs of digits and stops at the first
    pair that is not hexadecimal (a trailing single digit is dropped). *)
Fixpoint from_hex (s : string) : t :=
  match s with
  | String hi (String lo rest) =>
      match hex_value hi, hex_value lo with
      | Some h, Some l => of_Z (Z.of_N (16 * h + l)) :: from_hex rest
      | _, _ => []
      end
  | _ => []
  end.

(** Big-endian value of a buffer. *)
Definition be_value (buf : t) : Z :=
  fold_left (fun acc b => (256 * acc + to_Z b)%Z) buf 0%Z.

(** Little-endian value of a buffer. *)
Definition le_value (buf : t) : Z :=
  fold_right (fun b acc => (to_Z b + 256 * acc)%Z) 0%Z buf.

(** The [n] low bytes of [z], most significant first. *)
Fixpoint be_bytes (n : nat) (z : Z) : t :=
  match n with
  | O => []
  | S n' => of_Z (Z.shiftr z (8 * Z.of_nat n')) :: be_bytes n' z
  end.

(** The [n] low bytes of [z], least significant first. *)
Fixpoint le_bytes (n : nat) (z : Z) : t :=
  match n with
  | O => []
  | S n' => of_Z z :: le_bytes n' (Z.shiftr z 8)
  end.

End Buffer.

(** ** SHA-512

    The hash under bip39's PBKDF2 and ed25519-hd-key's HMAC.  As in the
    JavaScript implementations, a 64-bit word is a pair of 32-bit halves
    (high, low) held in machine integers, and every operation masks its
    result back to 32 bits. *)

Module SHA512.
Local Open Scope uint63_scope.

Definition w64 : Type := (int * int)%type.

Definition m32 : int := 0xffffffff.

Definition add64 (x y : w64) : w64 :=
  let lo := snd x + snd y in
  ((fst x + fst y + (lo >> 32)) land m32, lo land m32).

Definition xor64 (x y : w64) : w64 := (fst x lxor fst y, snd x lxor snd y).
Definition and64 (x y : w64) : w64 := (fst x land fst y, snd x land snd y).
Definition not64 (x : w64) : w64 := (fst x lxor m32, snd x lxor m32).

(** Right rotation by [n] with [0 < n < 32]. *)
Definition rotrS (n : int) (x : w64) : w64 :=
  (((fst x >> n) lor (snd x << (32 - n))) land m32,
   ((snd x >> n) lor (fst x << (32 - n))) land m32).

(** Right rotation by [32 + n] with [0 < n < 32]: the halves swap first. *)
Definition rotrB (n : int) (x : w64) : w64 := rotrS n (snd x, fst x).

(** Right shift by [n] with [0 < n < 32]. *)
Definition shrS (n : int) (x : w64) : w64 :=
  (fst x >> n, ((snd x >> n) lor (fst x << (32 - n))) land m32).

Definition Ch (x y z : w64) : w64 := xor64 (and64 x y) (and64 (not64 x) z).
Definition Maj (x y z : w64) : w64 :=
  xor64 (xor64 (and64 x y) (and64 x z)) (and64 y z).
Definition Sigma0 (x : w64) : w64 := xor64 (xor64 (rotrS 28 x) (rotrB 2 x)) (rotrB 7 x).
Definition Sigma1 (x : w64) : w64 := xor64 (xor64 (rotrS 14 x) (rotrS 18 x)) (rotrB 9 x).
Definition sigma0 (x : w64) : w64 := xor64 (xor64 (rotrS 1 x) (rotrS 8 x)) (shrS 7 x).
Definition sigma1 (x : w64) : w64 := xor64 (xor64 (rotrS 19 x) (rotrB 29 x)) (shrS 6 x).

(** Round constants: the fractional parts of the cube roots of the first
    eighty primes. *)
Definition K : list w64 :=
  [ (0x428a2f98, 0xd728ae22); (0x71374491, 0x23ef65cd); (0xb5c0fbcf, 0xec4d3b2f);
    (0xe9b5dba5, 0x8189dbbc); (0x3956c25b, 0xf348b538); (0x59f111f1, 0xb605d019);
    (0x923f82a4, 0xaf194f9b); (0xab1c5ed5, 0xda6d8118); (0xd807aa98, 0xa3030242);
    (0x12835b01, 0x45706fbe); (0x243185be, 0x4ee4b28c); (0x550c7dc3, 0xd5ffb4e2);
    (0x72be5d74, 0xf27b896f); (0x80deb1fe, 0x3b1696b1); (0x9bdc06a7, 0x25c71235);
    (0xc19bf174, 0xcf692694); (0xe49b69c1, 0x9ef14ad2); (0xefbe4786, 0x384f25e3);
    (0x0fc19dc6, 0x8b8cd5b5); (0x240ca1cc, 0x77ac9c65); (0x2de92c6f, 0x592b0275);
    (0x4a7484aa, 0x6ea6e483); (0x5cb0a9dc, 0xbd41fbd4); (0x76f988da, 0x831153b5);
    (0x983e5152, 0xee66dfab); (0xa831c66d, 0x2db43210); (0xb00327c8, 0x98fb213f);
    (0xbf597fc7, 0xbeef0ee4); (0xc6e00bf3, 0x3da88fc2); (0xd5a79147, 0x930aa725);
    (0x06ca6351, 0xe003826f); (0x14292967, 0x0a0e6e70); (0x27b70a85, 0x46d22ffc);
    (0x2e1b2138, 0x5c26c926); (0x4d2c6dfc, 0x5ac42aed); (0x53380d13, 0x9d95b3df);
    (0x650a7354, 0x8baf63de); (0x766a0abb, 0x3c77b2a8); (0x81c2c92e, 0x47edaee6);
    (0x92722c85, 0x1482353b); (0xa2bfe8a1, 0x4cf10364); (0xa81a664b, 0xbc423001);
    (0xc24b8b70, 0xd0f89791); (0xc76c51a3, 0x0654be30); (0xd192e819, 0xd6ef5218);
    (0xd6990624, 0x5565a910); (0xf40e3585, 0x5771202a); (0x106aa070, 0x32bbd1b8);
    (0x19a4c116, 0xb8d2d0c8); (0x1e376c08, 0x5141ab53); (0x2748774c, 0xdf8eeb99);
    (0x34b0bcb5, 0xe19b48a8); (0x391c0cb3, 0xc5c95a63); (0x4ed8aa4a, 0xe3418acb);
    (0x5b9cca4f, 0x7763e373); (0x682e6ff3, 0xd6b2b8a3); (0x748f82ee, 0x5defb2fc);
    (0x78a5636f, 0x43172f60); (0x84c87814, 0xa1f0ab72); (0x8cc70208, 0x1a6439ec);
    (0x90befffa, 0x23631e28); (0xa4506ceb, 0xde82bde9); (0xbef9a3f7, 0xb2c67915);
    (0xc67178f2, 0xe372532b); (0xca273ece, 0xea26619c); (0xd186b8c7, 0x21c0c207);
    (0xeada7dd6, 0xcde0eb1e); (0xf57d4f7f, 0xee6ed178); (0x06f067aa, 0x72176fba);
    (0x0a637dc5, 0xa2c898a6); (0x113f9804, 0xbef90dae); (0x1b710b35, 0x131c471b);
    (0x28db77f5, 0x23047d84); (0x32caab7b, 0x40c72493); (0x3c9ebe0a, 0x15c9bebc);
    (0x431d67c4, 0x9c100d4c); (0x4cc5d4be, 0xcb3e42b6); (0x597f299c, 0xfc657e2a);
    (0x5fcb6fab, 0x3ad6faec); (0x6c44198c, 0x4a475817) ].

(** Initial hash value: the fractional parts of the square roots of the
    first eight primes. *)
Definition H0 : list w64 :=
  [ (0x6a09e667, 0xf3bcc908); (0xbb67ae85, 0x84caa73b); (0x3c6ef372, 0xfe94f82b);
    (0xa54ff53a, 0x5f1d36f1); (0x510e527f, 0xade682d1); (0x9b05688c, 0x2b3e6c1f);
    (0x1f83d9ab, 0xfb41bd6b); (0x5be0cd19, 0x137e2179) ].

Definition z64 : w64 := (0, 0).

(** Message schedule: [w] holds the sixteen most recent words, oldest first. *)
Fixpoint schedule (n : nat) (w : list w64) : list w64 :=
  match n with
  | O => []
  | S n' =>
      let x := add64 (add64 (sigma1 (nth 14 w z64)) (nth 9 w z64))
                     (add64 (sigma0 (nth 1 w z64)) (nth 0 w z64)) in
      x :: schedule n' (tl w ++ [x])
  end.

Definition round (s : list w64) (kw : w64 * w64) : list w64 :=
  match s with
  | [a; b; c; d; e; f; g; h] =>
      let t1 := add64 (add64 (add64 h (Sigma1 e)) (add64 (Ch e f g) (fst kw))) (snd kw) in
      let t2 := add64 (Sigma0 a) (Maj a b c) in
      [add64 t1 t2; a; b; c; add64 d t1; e; f; g]
  | _ => s
  end.

Definition compress (h : list w64) (block : list w64) : list w64 :=
  let w := block ++ schedule 64 block in
  let s := fold_left round (combine K w) h in
  map (fun p => add64 (fst p) (snd p)) (combine h s).

Fixpoint be_of_bytes (bs : list int) (acc : int) : int :=
  match bs with
  | [] => acc
  | b :: r => be_of_bytes r ((acc << 8) lor b)
  end.

Fixpoint words (fuel : nat) (bs : list int) : list w64 :=
  match fuel with
  | O => []
  | S f =>
      match bs with
      | [] => []
      | _ => (be_of_bytes (firstn 4 bs) 0, be_of_bytes (firstn 4 (skipn 4 bs)) 0)
             :: words f (skipn 8 bs)
      end
  end.

Fixpoint blocks (fuel : nat) (ws : list w64) (h : list w64) : list w64 :=
  match fuel with
  | O => h
  | S f =>
      match ws with
      | [] => h
      | _ => blocks f (skipn 16 ws) (compress h (firstn 16 ws))
      end
  end.

Definition be4 (x : int) : list int :=
  [(x >> 24) land 255; (x >> 16) land 255; (x >> 8) land 255; x land 255].

Definition be_bytes64 (x : w64) : list int := be4 (fst x) ++ be4 (snd x).

(** Padding: a one bit, zeros, and the bit length on 128 bits, up to a
    multiple of 128 bytes. *)
Definition pad (msg : list int) : list int :=
  let l := length msg in
  let k := ((128 - (l + 17) mod 128) mod 128)%nat in
  let bits := Uint63.of_Z (8 * Z.of_nat l) in
  msg ++ [128] ++ repeat 0 (k + 8) ++ be_bytes64 (bits >> 32, bits land m32).

(** The digest as the eight state words (the form the length lemma uses). *)
Definition digest_words (msg : list int) : list w64 :=
  let p := pad msg in
  let ws := words (length p) p in
  blocks (length ws) ws H0.

Definition hash_ints (msg : list int) : list int :=
  flat_map be_bytes64 (digest_words msg).

Definition hash (msg : Buffer.t) : Buffer.t :=
  map Buffer.of_int (hash_ints (map Buffer.to_int msg)).

End SHA512.

(** ** HMAC-SHA512 and PBKDF2 *)

Module HMAC.
Local Open Scope uint63_scope.

Definition xor_pad (c : int) (k : list int) : list int :=
  map (fun b => c lxor b) (k ++ repeat 0 (128 - length k)%nat).

(** [createHmac("sha512", key).update(msg).digest()] on integer bytes. *)
Definition sha512_ints (key msg : list int) : list int :=
  let k := if (128 <? length key)%nat then SHA512.hash_ints key else key in
  SHA512.hash_ints (xor_pad 0x5c k ++ SHA512.hash_ints (xor_pad 0x36 k ++ msg)).

Definition sha512 (key msg : Buffer.t) : Buffer.t :=
  map Buffer.of_int (sha512_ints (map Buffer.to_int key) (map Buffer.to_int msg)).

End HMAC.

Module PBKDF2.
Local Open Scope uint63_scope.

Fixpoint rounds (n : nat) (key u acc : list int) : list int :=
  match n with
  | O => acc
  | S n' =>
      let u' := HMAC.sha512_ints key u in
      rounds n' key u' (map (fun p => fst p lxor snd p) (combine acc u'))
  end.

(** PBKDF2-HMAC-SHA512 with [c] iterations and a 64-byte output (a single
    block, numbered 1). *)
Definition sha512_64 (c : nat) (password salt : Buffer.t) : Buffer.t :=
  let pw := map Buffer.to_int password in
  let u1 := HMAC.sha512_ints pw (map Buffer.to_int salt ++ [0; 0; 0; 1]) in
  map Buffer.of_int (rounds (c - 1) pw u1 u1).

End PBKDF2.

(** ** Keccak-256

    The hash behind ethers' addresses.  A lane is a 64-bit integer in [Z];
    the state is the list of its 25 lanes, lane [(x, y)] at index
    [x + 5 * y]. *)

Module Keccak.
Local Open Scope Z_scope.

Definition mask64 : Z := 0xffffffffffffffff.

Definition rol (x n : Z) : Z :=
  Z.lor (Z.land (Z.shiftl x n) mask64) (Z.shiftr x (64 - n)).

Definition lane (a : list Z) (i : nat) : Z := nth i a 0.

Definition RC : list Z :=
  [ 0x0000000000000001; 0x0000000000008082; 0x800000000000808a; 0x8000000080008000;
    0x000000000000808b; 0x0000000080000001; 0x8000000080008081; 0x8000000000008009;
    0x000000000000008a; 0x0000000000000088; 0x0000000080008009; 0x000000008000000a;
    0x000000008000808b; 0x800000000000008b; 0x8000000000008089; 0x8000000000008003;
    0x8000000000008002; 0x8000000000000080; 0x000000000000800a; 0x800000008000000a;
    0x8000000080008081; 0x8000000000008080; 0x0000000080000001; 0x8000000080008008 ].

(** Rho and pi together: the lane at each index of the result is the lane
    of the argument at the paired index, rotated left by the paired
    amount. *)
Definition rho_pi : list (nat * Z) :=
  [ (0%nat, 0); (6%nat, 44); (12%nat, 43); (18%nat, 21); (24%nat, 14);
    (3%nat, 28); (9%nat, 20); (10%nat, 3); (16%nat, 45); (22%nat, 61);
    (1%nat, 1); (7%nat, 6); (13%nat, 25); (19%nat, 8); (20%nat, 18);
    (4%nat, 27); (5%nat, 36); (11%nat, 10); (17%nat, 15); (23%nat, 56);
    (2%nat, 62); (8%nat, 55); (14%nat, 39); (15%nat, 41); (21%nat, 2) ].

Definition theta (a : list Z) : list Z :=
  let c := map (fun x => Z.lxor (Z.lxor (Z.lxor (Z.lxor (lane a x) (lane a (x + 5)))
                                                (lane a (x + 10))) (lane a (x + 15)))
                                (lane a (x + 20))) (seq 0 5) in
  let d := map (fun x => Z.lxor (lane c ((x + 4) mod 5)) (rol (lane c ((x + 1) mod 5)) 1))
               (seq 0 5) in
  map (fun i => Z.lxor (lane a i) (lane d (i mod 5))) (seq 0 25).

Definition chi (b : list Z) : list Z :=
  map (fun i =>
         let x := (i mod 5)%nat in
         let y := (i / 5)%nat in
         Z.lxor (lane b i)
                (Z.land (Z.lxor (lane b ((x + 1) mod 5 + 5 * y)) mask64)
                        (lane b ((x + 2) mod 5 + 5 * y))))
      (seq 0 25).

Definition iota (rc : Z) (a : list Z) : list Z :=
  match a with
  | [] => []
  | a0 :: rest => Z.lxor a0 rc :: rest
  end.

Definition round (a : list Z) (rc : Z) : list Z :=
  let b := map (fun p => rol (lane (theta a) (fst p)) (snd p)) rho_pi in
  iota rc (chi b).

Definition f1600 (a : list Z) : list Z := fold_left round RC a.

(** The rate of Keccak-256: 136 bytes, 17 lanes. *)
Definition rate : nat := 136.

Fixpoint lanes_of (fuel : nat) (bs : Buffer.t) : list Z :=
  match fuel with
  | O => []
  | S f =>
      match bs with
      | [] => []
      | _ => Buffer.le_value (firstn 8 bs) :: lanes_of f (skipn 8 bs)
      end
  end.

Fixpoint xor_into (a : list Z) (ls : list Z) : list Z :=
  match a, ls with
  | x :: a', l :: ls' => Z.lxor x l :: xor_into a' ls'
  | _, _ => a
  end.

Fixpoint absorb (fuel : nat) (bs : Buffer.t) (a : list Z) : list Z :=
  match fuel with
  | O => a
  | S f =>
      match bs with
      | [] => a
      | _ => absorb f (skipn rate bs)
                    (f1600 (xor_into a (lanes_of rate (firstn rate bs))))
      end
  end.

(** Padding of the original Keccak (domain byte 0x01, final bit 0x80). *)
Definition pad (msg : Buffer.t) : Buffer.t :=
  let k := (rate - 1 - length msg mod rate)%nat in
  match k with
  | O => msg ++ [x81]
  | S k' => msg ++ [x01] ++ repeat x00 k' ++ [x80]
  end.

Definition keccak256 (msg : Buffer.t) : Buffer.t :=
  let p := pad msg in
  let a := absorb (length p) p (repeat 0 25) in
  flat_map (Buffer.le_bytes 8) (firstn 4 a).

End Keccak.

(** ** Modular arithmetic on big integers *)

Module Fp.
Local Open Scope bigZ_scope.

Fixpoint pow (m : bigZ) (b : bigZ) (e : positive) : bigZ :=
  match e with
  | xH => b mod m
  | xO e' => let r := pow m b e' in (r * r) mod m
  | xI e' => let r := pow m b e' in (((r * r) mod m) * b) mod m
  end.

(** Inverse modulo a prime [m], by Fermat: [b ^ (m - 2)]. *)
Definition inv (m : bigZ) (b : bigZ) : bigZ :=
  match BigZ.to_Z (m - 2) with
  | Zpos e => pow m b e
  | _ => 0
  end.

End Fp.

(** ** secp256k1: the public point of a private scalar *)

Module Secp256k1.
Local Open Scope bigZ_scope.

Definition p : bigZ :=
  BigZ.of_Z 0xFFFFFFFFFFFFFFFFFFFFFFFFFFFFFFFFFFFFFFFFFFFFFFFFFFFFFFFEFFFFFC2F.
(** The order of the group. *)
Definition n : Z :=
  0xFFFFFFFFFFFFFFFFFFFFFFFFFFFFFFFEBAAEDCE6AF48A03BBFD25E8CD0364141.
Definition Gx : bigZ :=
  BigZ.of_Z 0x79BE667EF9DCBBAC55A06295CE870B07029BFCDB2DCE28D959F2815B16F81798.
Definition Gy : bigZ :=
  BigZ.of_Z 0x483ADA7726A3C4655DA4FBFC0E1108A8FD17B448A68554199C47D08FFB10D4B8.

(** A point in Jacobian coordinates [(px, py, pz)], standing for the affine
    point [(px / pz^2, py / pz^3)]; [pz = 0] is the point at infinity. *)
Record point := mkPoint { px : bigZ; py : bigZ; pz : bigZ }.

Definition infinity : point := mkPoint 1 1 0.

Definition double (a : point) : point :=
  if BigZ.eqb (pz a) 0 then infinity
  else
    let yy := (py a * py a) mod p in
    let s := (4 * px a * yy) mod p in
    let m := (3 * px a * px a) mod p in
    let x3 := (m * m - 2 * s) mod p in
    let y3 := (m * (s - x3) - 8 * yy * yy) mod p in
    let z3 := (2 * py a * pz a) mod p in
    mkPoint x3 y3 z3.

Definition add (a b : point) : point :=
  if BigZ.eqb (pz a) 0 then b
  else if BigZ.eqb (pz b) 0 then a
  else
    let z1z1 := (pz a * pz a) mod p in
    let z2z2 := (pz b * pz b) mod p in
    let u1 := (px a * z2z2) mod p in
    let u2 := (px b * z1z1) mod p in
    let s1 := (py a * pz b * z2z2) mod p in
    let s2 := (py b * pz a * z1z1) mod p in
    if BigZ.eqb u1 u2 then
      if BigZ.eqb s1 s2 then double a else infinity
    else
      let h := (u2 - u1) mod p in
      let r := (s2 - s1) mod p in
      let hh := (h * h) mod p in
      let hhh := (h * hh) mod p in
      let v := (u1 * hh) mod p in
      let x3 := (r * r - hhh - 2 * v) mod p in
      let y3 := (r * (v - x3) - s1 * hhh) mod p in
      let z3 := (h * pz a * pz b) mod p in
      mkPoint x3 y3 z3.

Fixpoint mul (k : positive) (a : point) : point :=
  match k with
  | xH => a
  | xO k' => double (mul k' a)
  | xI k' => add (double (mul k' a)) a
  end.

(** The affine coordinates of [k * G] for a scalar [0 < k < n]. *)
Definition public_point (k : Z) : option (Z * Z) :=
  match k with
  | Zpos k' =>
      if (k <? n)%Z then
        let q := mul k' (mkPoint Gx Gy 1) in
        let zi := Fp.inv p (pz q) in
        let zi2 := (zi * zi) mod p in
        Some (BigZ.to_Z ((px q * zi2) mod p), BigZ.to_Z ((py q * zi2 * zi) mod p))
      else None
  | _ => None
  end.

End Secp256k1.

(** ** Ed25519: the public key of a 32-byte seed *)

Module Ed25519.
Local Open Scope bigZ_scope.

Definition q : bigZ := BigZ.of_Z (2 ^ 255 - 19).
Definition d : bigZ :=
  BigZ.of_Z 37095705934669439343138083508754565189542113879843219016388785533085940283555.
Definition Bx : bigZ :=
  BigZ.of_Z 15112221349535400772501151409588531511454012693041857206046113283949847762202.
Definition By : bigZ :=
  BigZ.of_Z 46316835694926478169428394003475163141307993866256225615783033603165251855960.

(** A point in projective coordinates [(px : py : pz)] of the twisted Edwards
    curve [-x^2 + y^2 = 1 + d x^2 y^2]. *)
Record point := mkPoint { px : bigZ; py : bigZ; pz : bigZ }.

Definition zero : point := mkPoint 0 1 1.

(** The complete addition law (it also doubles). *)
Definition add (a b : point) : point :=
  let A := (pz a * pz b) mod q in
  let B := (A * A) mod q in
  let C := (px a * px b) mod q in
  let D := (py a * py b) mod q in
  let E := (d * C * D) mod q in
  let F := (B - E) mod q in
  let G := (B + E) mod q in
  let x3 := (A * F * ((px a + py a) * (px b + py b) - C - D)) mod q in
  let y3 := (A * G * (D + C)) mod q in
  let z3 := (F * G) mod q in
  mkPoint x3 y3 z3.

Fixpoint mul (k : positive) (a : point) : point :=
  match k with
  | xH => a
  | xO k' => let r := mul k' a in add r r
  | xI k' => let r := mul k' a in add (add r r) a
  end.

(** Clamping of the low half of the seed's hash: clear the three low bits
    and bit 255, set bit 254. *)
Definition clamp (h : Buffer.t) : Z :=
  let a := Buffer.le_value (firstn 32 h) in
  Z.lor (Z.land a (2 ^ 254 - 8)) (2 ^ 254).

(** The encoded point: [y] on 255 bits, little-endian, with the parity of
    [x] in the top bit. *)
Definition encode (a : point) : Buffer.t :=
  let zi := Fp.inv q (pz a) in
  let x := BigZ.to_Z ((px a * zi) mod q) in
  let y := BigZ.to_Z ((py a * zi) mod q) in
  Buffer.le_bytes 32 (Z.lor y (Z.shiftl (Z.land x 1) 255)).

Definition public_key (seed : Buffer.t) : Buffer.t :=
  match clamp (SHA512.hash seed) with
  | Zpos k => encode (mul k (mkPoint Bx By 1))
  | _ => encode zero
  end.

End Ed25519.

(** ** Base58 (the Bitcoin alphabet, no checksum) *)

Module Base58.
Local Open Scope Z_scope.

Definition alphabet : string :=
  "123456789ABCDEFGHJKLMNPQRSTUVWXYZabcdefghijkmnopqrstuvwxyz".

Definition digit (v : Z) : ascii :=
  match String.get (Z.to_nat v) alphabet with
  | Some c => c
  | None => "1"%char
  end.

Fixpoint digits (fuel : nat) (v : Z) (acc : string) : string :=
  match fuel with
  | O => acc
  | S f => if v =? 0 then acc else digits f (v / 58) (String (digit (v mod 58)) acc)
  end.

Fixpoint leading_zeros (buf : Buffer.t) : string :=
  match buf with
  | x00 :: rest => String "1" (leading_zeros rest)
  | _ => EmptyString
  end.

(** Each leading zero byte gives a ["1"]; the rest is the big-endian value
    of the buffer written in base 58. *)
Definition encode (buf : Buffer.t) : string :=
  String.append (leading_zeros buf)
                (digits (2 * length buf) (Buffer.be_value buf) EmptyString).

End Base58.

(** ** The JavaScript operations the component relies on

    A JavaScript string is a sequence of UTF-16 code units.  It is modelled
    by the bytes of its UTF-8 encoding, the bytes [Buffer.from(s, "utf8")]
    gives: a character outside ASCII takes two to four bytes, and a string
    with an unpaired surrogate is outside the model. *)

Module JS.

(** [s.split(sep)] for a one-character separator: the empty string splits
    into one empty piece, and adjacent separators give empty pieces. *)
Fixpoint split (sep : ascii) (s : string) : list string :=
  match s with
  | EmptyString => [EmptyString]
  | String c rest =>
      if Ascii.eqb c sep then EmptyString :: split sep rest
      else
        match split sep rest with
        | w :: ws => String c w :: ws
        | [] => [String c EmptyString]
        end
  end.

(** [a.join(sep)]. *)
Definition join (sep : string) (a : list string) : string := String.concat sep a.

(** The white space [trim] strips: the code points [WhiteSpace] and
    [LineTerminator] of ECMAScript, which are U+0009 to U+000D, U+0020,
    U+00A0, U+1680, U+2000 to U+200A, U+2028, U+2029, U+202F, U+205F, U+3000
    and U+FEFF.  [white_space s] is the number of bytes of the white space
    code point the UTF-8 text [s] starts with, and 0 when it starts with
    none. *)
Definition byte_at (i : nat) (s : string) : nat :=
  match String.get i s with
  | Some c => nat_of_ascii c
  | None => 256
  end.

Definition white_space (s : string) : nat :=
  let b0 := byte_at 0 s in
  let b1 := byte_at 1 s in
  let b2 := byte_at 2 s in
  if Nat.eqb b0 32 || (Nat.leb 9 b0 && Nat.leb b0 13) then 1
  else if Nat.eqb b0 194 && Nat.eqb b1 160 then 2
  else if Nat.eqb b0 225 && Nat.eqb b1 154 && Nat.eqb b2 128 then 3
  else if Nat.eqb b0 226 && Nat.eqb b1 128
          && ((Nat.leb 128 b2 && Nat.leb b2 138)
              || Nat.eqb b2 168 || Nat.eqb b2 169 || Nat.eqb b2 175) then 3
  else if Nat.eqb b0 226 && Nat.eqb b1 129 && Nat.eqb b2 159 then 3
  else if Nat.eqb b0 227 && Nat.eqb b1 128 && Nat.eqb b2 128 then 3
  else if Nat.eqb b0 239 && Nat.eqb b1 187 && Nat.eqb b2 191 then 3
  else 0.

(** [s.trimStart()]: the text after its leading white space. *)
Fixpoint trimStart (s : string) : string :=
  match s with
  | EmptyString => EmptyString
  | String _ rest1 =>
      match white_space s with
      | 0 => s
      | 1 => trimStart rest1
      | 2 =>
          match rest1 with
          | String _ rest2 => trimStart rest2
          | EmptyString => s
          end
      | _ =>
          match rest1 with
          | String _ (String _ rest3) => trimStart rest3
          | _ => s
          end
      end
  end.

(** Whether a text is white space only. *)
Definition blank (s : string) : bool :=
  match trimStart s with
  | EmptyString => true
  | String _ _ => false
  end.

(** [s.trimEnd()]: the text before its trailing white space, which is the
    longest end of [s] that is white space only. *)
Fixpoint trimEnd (s : string) : string :=
  match s with
  | EmptyString => EmptyString
  | String c rest => if blank s then EmptyString else String c (trimEnd rest)
  end.

(** [s.trim()]. *)
Definition trim (s : string) : string := trimEnd (trimStart s).

(** Truth value of a string in a condition: only the empty string is falsy. *)
Definition truthy_string (s : string) : bool :=
  match s with
  | EmptyString => false
  | String _ _ => true
  end.

(** Truth value of an array in a condition: every object is truthy, the
    empty array included. *)
Definition truthy_array {A : Type} (a : list A) : bool := true.

(** A non-negative integer interpolated in a template literal: its decimal
    digits. *)
Definition string_of_number (n : nat) : string :=
  NilEmpty.string_of_uint (Nat.to_uint n).

(** A [string | undefined] value interpolated in a template literal. *)
Definition string_of_optional (v : option string) : string :=
  match v with
  | Some s => s
  | None => "undefined"
  end.

(** [v === s] for a [string | undefined] value [v]. *)
Definition strict_eq (v : option string) (s : string) : bool :=
  match v with
  | Some s' => String.eqb s' s
  | None => false
  end.

Definition is_digit (c : ascii) : bool :=
  let n := nat_of_ascii c in Nat.leb 48 n && Nat.leb n 57.

(** [parseInt(s, 10)] on a string of decimal digits. *)
Definition parseInt (s : string) : Z :=
  fold_left (fun acc c => (10 * acc + Z.of_nat (nat_of_ascii c - 48))%Z)
            (list_ascii_of_string s) 0%Z.

(** [a.filter((_, i) => keep i)]: the elements whose index passes. *)
Fixpoint filter_index_from {A : Type} (keep : nat -> bool) (i : nat) (a : list A) : list A :=
  match a with
  | [] => []
  | x :: rest =>
      if keep i then x :: filter_index_from keep (S i) rest
      else filter_index_from keep (S i) rest
  end.

Definition filter_index {A : Type} (keep : nat -> bool) (a : list A) : list A :=
  filter_index_from keep 0 a.

(** [a.map((x, i) => f x i)]. *)
Fixpoint map_index_from {A B : Type} (f : A -> nat -> B) (i : nat) (a : list A) : list B :=
  match a with
  | [] => []
  | x :: rest => f x i :: map_index_from f (S i) rest
  end.

Definition map_index {A B : Type} (f : A -> nat -> B) (a : list A) : list B :=
  map_index_from f 0 a.

(** The UTF-16 code units a byte of UTF-8 text accounts for: none for a
    continuation byte, two for the first byte of a four-byte sequence (a
    code point above U+FFFF is a surrogate pair), one otherwise. *)
Definition code_units (c : ascii) : nat :=
  let n := nat_of_ascii c in
  if Nat.leb 128 n && Nat.ltb n 192 then 0
  else if Nat.leb 240 n then 2
  else 1.

(** [s.length]: the number of UTF-16 code units of [s]. *)
Fixpoint length (s : string) : nat :=
  match s with
  | EmptyString => 0
  | String c rest => code_units c + length rest
  end.

End JS.

(** ** The npm packages

    The component imports these functions from packages that are not part of
    the repository.  The component is verified against the record [Libs] of
    their signatures, for every implementation; the instance [packages] below
    gives the behaviour of the published packages so that the component can
    be run on concrete inputs. *)

Module Npm.

(** The imports of the component.  A function that can throw returns
    [None] for the exception. *)
Record Libs := mkLibs {
  (** bip39 *)
  validateMnemonic : string -> bool;
  mnemonicToSeedSync : string -> Buffer.t;
  (** ed25519-hd-key: [derivePath(path, seedHex).key] *)
  derivePath : string -> string -> option Buffer.t;
  (** tweetnacl: [nacl.sign.keyPair.fromSeed(seed).secretKey] *)
  nacl_sign_keyPair_fromSeed : Buffer.t -> option Buffer.t;
  (** @solana/web3.js: [Keypair.fromSecretKey(secretKey).publicKey] *)
  Keypair_fromSecretKey : Buffer.t -> option Buffer.t;
  (** @solana/web3.js: [publicKey.toBase58()] *)
  PublicKey_toBase58 : Buffer.t -> string;
  (** bs58 *)
  bs58_encode : Buffer.t -> string;
  (** ethers: [new ethers.Wallet(privateKey).address] *)
  ethers_Wallet : string -> option string
}.

(** *** bip39 *)

(** Modelled from the spec: bip39's [mnemonicToSeedSync] (package code, not
    in the repository): PBKDF2-HMAC-SHA512 over the UTF-8 bytes of the
    normalised phrase, with the salt ["mnemonic"] followed by the normalised
    passphrase (none is passed: the empty string), 2048 rounds, 64 bytes.
    The phrase is not validated here.  [normalize] is
    [String.prototype.normalize("NFKD")], whose tables belong to the Unicode
    standard and are not in the repository: it is a parameter. *)
Definition mnemonicToSeedSync_NFKD (normalize : string -> string) (mnemonic : string)
  : Buffer.t :=
  PBKDF2.sha512_64 2048 (Buffer.from_string (normalize mnemonic))
                   (Buffer.from_string ("mnemonic" +:+ normalize "")).

(** The normalisation on ASCII text, which it leaves as it is (no ASCII
    character has a decomposition). *)
Definition NFKD_ascii : string -> string := fun s => s.

(** [mnemonicToSeedSync] on a phrase of ASCII characters, as the phrases of
    bip39's English word list are. *)
Definition bip39_mnemonicToSeedSync (mnemonic : string) : Buffer.t :=
  mnemonicToSeedSync_NFKD NFKD_ascii mnemonic.

(** *** ed25519-hd-key *)

Definition HARDENED_OFFSET : Z := 0x80000000.

(** A path segment accepted by the package's pattern [[0-9]+']: one or more
    digits and a closing apostrophe. *)
Fixpoint hardened_segment (s : string) : bool :=
  match s with
  | String c (String "'" EmptyString) => JS.is_digit c
  | String c rest => JS.is_digit c && hardened_segment rest
  | EmptyString => false
  end.

(** The package's [isValidPath]: the pattern [^m(\/[0-9]+')+$]. *)
Definition isValidPath (path : string) : bool :=
  match JS.split "/" path with
  | m :: seg :: segs => String.eqb m "m" && forallb hardened_segment (seg :: segs)
  | _ => false
  end.

(** The package's [replaceDerive]: drops the first apostrophe. *)
Fixpoint replaceDerive (s : string) : string :=
  match s with
  | EmptyString => EmptyString
  | String c rest => if Ascii.eqb c "'" then rest else String c (replaceDerive rest)
  end.

Definition Keys : Type := (Buffer.t * Buffer.t)%type.

Definition getMasterKeyFromSeed (seed : string) : Keys :=
  let I := HMAC.sha512 (Buffer.from_string "ed25519 seed") (Buffer.from_hex seed) in
  (firstn 32 I, skipn 32 I).

(** [CKDPriv]: the index is written as an unsigned 32-bit integer, which
    throws when it does not fit. *)
Definition CKDPriv (parent : Keys) (index : Z) : option Keys :=
  if (index <=? 0xffffffff)%Z then
    let data := [x00] ++ fst parent ++ Buffer.be_bytes 4 index in
    let I := HMAC.sha512 (snd parent) data in
    Some (firstn 32 I, skipn 32 I)
  else None.

Definition derive_segments (segments : list Z) (master : Keys) : option Keys :=
  fold_left
    (fun parent segment =>
       match parent with
       | Some keys => CKDPriv keys (segment + HARDENED_OFFSET)%Z
       | None => None
       end)
    segments (Some master).

(** Modelled from the spec: ed25519-hd-key's [derivePath] (package code, not
    in the repository): hardened-only child key derivation, HMAC-SHA512
    chained per path segment from the Ed25519-style master key (HMAC key
    ["ed25519 seed"]).  A path that does not match the package's pattern
    throws. *)
Definition ed25519_hd_key_derivePath (path seed : string) : option Buffer.t :=
  if isValidPath path then
    let segments := map (fun el => JS.parseInt (replaceDerive el)) (tl (JS.split "/" path)) in
    option_map fst (derive_segments segments (getMasterKeyFromSeed seed))
  else None.

(** *** tweetnacl and @solana/web3.js *)

(** Modelled from the spec: tweetnacl's [nacl.sign.keyPair.fromSeed]
    (package code, not in the repository): the 64-byte secret key is the
    32-byte seed followed by the 32-byte public key; a seed of another
    length throws. *)
Definition tweetnacl_fromSeed (seed : Buffer.t) : option Buffer.t :=
  if Nat.eqb (length seed) 32 then Some (seed ++ Ed25519.public_key seed) else None.

Definition buffer_eqb (a b : Buffer.t) : bool :=
  Z.eqb (Buffer.be_value a) (Buffer.be_value b) && Nat.eqb (length a) (length b).

(** Modelled from the spec: @solana/web3.js's [Keypair.fromSecretKey]
    (package code, not in the repository): the public key is the second
    half of the secret key, accepted when it is the key of the first
    half; another length or a mismatch throws. *)
Definition web3_fromSecretKey (secretKey : Buffer.t) : option Buffer.t :=
  if Nat.eqb (length secretKey) 64 then
    let publicKey := skipn 32 secretKey in
    if buffer_eqb publicKey (Ed25519.public_key (firstn 32 secretKey))
    then Some publicKey else None
  else None.

(** *** ethers *)

Definition upper_hex (c : ascii) : ascii :=
  let n := nat_of_ascii c in
  if Nat.leb 97 n && Nat.leb n 102 then ascii_of_nat (n - 32) else c.

Fixpoint checksum_case (chars hashed : string) : string :=
  match chars, hashed with
  | String c cs, String h hs =>
      let c' := match Buffer.hex_value h with
                | Some v => if (8 <=? v)%N then upper_hex c else c
                | None => c
                end in
      String c' (checksum_case cs hs)
  | _, _ => chars
  end.

(** The checksummed address of an uncompressed public point. *)
Definition computeAddress (point : Z * Z) : string :=
  let pub := Buffer.be_bytes 32 (fst point) ++ Buffer.be_bytes 32 (snd point) in
  let chars := Buffer.toString_hex (skipn 12 (Keccak.keccak256 pub)) in
  let hashed := Buffer.toString_hex (Keccak.keccak256 (Buffer.from_string chars)) in
  String.append "0x" (checksum_case chars hashed).

Definition is_hex (s : string) : bool :=
  forallb (fun c => match Buffer.hex_value c with Some _ => true | None => false end)
          (list_ascii_of_string s).

(** Modelled from the spec: ethers' [Wallet] (package code, not in the
    repository): the private key is 64 hexadecimal digits, a scalar that
    must lie strictly between zero and the group order (anything else
    throws); the address is the last 20 bytes of the Keccak-256 hash of
    the uncompressed public point, in hexadecimal with the [0x] prefix and
    the mixed-case checksum. *)
Definition ethers_Wallet_address (privateKey : string) : option string :=
  if Nat.eqb (String.length privateKey) 64 && is_hex privateKey then
    option_map computeAddress
               (Secp256k1.public_point (Buffer.be_value (Buffer.from_hex privateKey)))
  else None.

(** The published packages.  bip39's [validateMnemonic] checks the phrase
    against the 2048-entry word list shipped with the package, a table that
    is not in the repository: it stays a parameter, as the normalisation
    does. *)
Definition packages (validate : string -> bool) (normalize : string -> string) : Libs :=
  {| validateMnemonic := validate;
     mnemonicToSeedSync := mnemonicToSeedSync_NFKD normalize;
     derivePath := ed25519_hd_key_derivePath;
     nacl_sign_keyPair_fromSeed := tweetnacl_fromSeed;
     Keypair_fromSecretKey := web3_fromSecretKey;
     PublicKey_toBase58 := Base58.encode;
     bs58_encode := Base58.encode;
     ethers_Wallet := ethers_Wallet_address |}.

End Npm.

(** ** BIP-32 on secp256k1: the reference derivation of the specification *)

Module Bip32.

(** Modelled from the spec: [deriveSubSeed] for the secp256k1 chain,
    "standard secp256k1 HD derivation" (BIP-32), which the component does
    not contain: the master key is the HMAC-SHA512 of the seed under the
    key ["Bitcoin seed"]; a child key is the parent key plus the left half
    of the HMAC-SHA512, under the parent chain code, of the parent key
    (hardened index) or of the parent's compressed public point (normal
    index), followed by the index.  It is the reference the component's
    derivation is compared with. *)
Definition master (seed : Buffer.t) : Z * Buffer.t :=
  let I := HMAC.sha512 (Buffer.from_string "Bitcoin seed") seed in
  (Buffer.be_value (firstn 32 I), skipn 32 I).

Definition serP (k : Z) : option Buffer.t :=
  option_map (fun point => Buffer.of_Z (2 + Z.land (snd point) 1)
                           :: Buffer.be_bytes 32 (fst point))
             (Secp256k1.public_point k).

Definition CKDpriv (parent : Z * Buffer.t) (index : Z) : option (Z * Buffer.t) :=
  let (k, c) := parent in
  match (if (0x80000000 <=? index)%Z then Some (x00 :: Buffer.be_bytes 32 k) else serP k) with
  | Some data =>
      let I := HMAC.sha512 c (data ++ Buffer.be_bytes 4 index) in
      let IL := Buffer.be_value (firstn 32 I) in
      let child := ((IL + k) mod Secp256k1.n)%Z in
      if ((IL <? Secp256k1.n) && negb (child =? 0))%Z then Some (child, skipn 32 I) else None
  | None => None
  end.

(** The private key at the end of a path of indices (a hardened index is
    the index plus [0x80000000]). *)
Definition derive_private_key (seed : Buffer.t) (indices : list Z) : option Buffer.t :=
  option_map (fun keys => Buffer.be_bytes 32 (fst keys))
             (fold_left (fun parent index =>
                           match parent with
                           | Some keys => CKDpriv keys index
                           | None => None
                           end)
                        indices (Some (master seed))).

End Bip32.

(** ** The component *)

Module Component.
Import Npm.

(** *** Data *)

(** [interface Wallet]. *)
Record Wallet := mkWallet {
  publicKey : string;
  privateKey : string;
  mnemonic : string;
  path : string
}.

(** The state variables of [WalletGenerator] (one [useState] each). *)
Record State := mkState {
  mnemonicWords : list string;
  pathTypes : list string;
  wallets : list Wallet;
  showMnemonic : bool;
  mnemonicInput : string;
  visiblePrivateKeys : list bool;
  visiblePhrases : list bool;
  gridView : bool
}.

(** The values of the first render: twelve one-space words, everything
    else empty or off. *)
Definition initial_state : State :=
  {| mnemonicWords := repeat " " 12;
     pathTypes := [];
     wallets := [];
     showMnemonic := false;
     mnemonicInput := "";
     visiblePrivateKeys := [];
     visiblePhrases := [];
     gridView := false |}.

(** A JSON document.  [localStorage] keeps text; the model keeps the
    document the text stands for ([JSON.parse] after [JSON.stringify]).
    [JLiteral] is a number, [true], [false] or [null], as written: the
    component stores none of them. *)
#[local] Unset Elimination Schemes.
Inductive json :=
| JString (s : string)
| JArray (items : list json)
| JObject (properties : list (string * json))
| JLiteral (text : string).
#[local] Set Elimination Schemes.

(** [JSON.stringify] of a [string[]]. *)
Definition JSON_of_strings (a : list string) : json := JArray (map JString a).

(** [JSON.stringify] of a [Wallet]: the properties in the order of the
    object literal that built it. *)
Definition JSON_of_wallet (w : Wallet) : json :=
  JObject [("publicKey", JString (publicKey w));
           ("privateKey", JString (privateKey w));
           ("mnemonic", JString (mnemonic w));
           ("path", JString (path w))].

Definition JSON_of_wallets (a : list Wallet) : json := JArray (map JSON_of_wallet a).

Definition string_of_JSON (j : json) : option string :=
  match j with
  | JString s => Some s
  | _ => None
  end.

(** [JSON.parse] read back at the type [string[]]. *)
Definition strings_of_JSON (j : json) : option (list string) :=
  match j with
  | JArray items => mapM string_of_JSON items
  | _ => None
  end.

(** [object[key]] on a parsed object: of two properties of one name
    [JSON.parse] keeps the later. *)
Fixpoint property (key : string) (properties : list (string * json)) : option json :=
  match properties with
  | [] => None
  | (k, v) :: rest =>
      match property key rest with
      | Some later => Some later
      | None => if String.eqb k key then Some v else None
      end
  end.

(** A parsed object read at the type [Wallet]: the component reads the four
    properties by name, in whatever order the text has them, and never looks
    at any other property. *)
Definition wallet_of_JSON (j : json) : option Wallet :=
  match j with
  | JObject properties =>
      publicKey ← property "publicKey" properties ≫= string_of_JSON;
      privateKey ← property "privateKey" properties ≫= string_of_JSON;
      mnemonic ← property "mnemonic" properties ≫= string_of_JSON;
      path ← property "path" properties ≫= string_of_JSON;
      Some (mkWallet publicKey privateKey mnemonic path)
  | _ => None
  end.

(** [JSON.parse] read back at the type [Wallet[]]. *)
Definition wallets_of_JSON (j : json) : option (list Wallet) :=
  match j with
  | JArray items => mapM wallet_of_JSON items
  | _ => None
  end.

(** A notification of the [sonner] toaster. *)
Inductive toast :=
| toast_success (message : string)
| toast_error (message : string).

(** What a handler can read and write: the component state, the browser's
    [localStorage] and the notifications shown so far (oldest first). *)
Record World := mkWorld {
  state : State;
  localStorage : gmap string json;
  toasts : list toast
}.

(** *** Effects *)

(** A computation that returns a value and changes the world. *)
Definition Eff (A : Type) : Type := World -> A * World.

#[export] Instance Eff_ret : MRet Eff := fun A a w => (a, w).
#[export] Instance Eff_bind : MBind Eff :=
  fun A B k m w => let r := m w in k (fst r) (snd r).

Definition set_state (f : State -> State) : Eff unit :=
  fun w => (tt, mkWorld (f (state w)) (localStorage w) (toasts w)).

Definition setMnemonicWords (v : list string) : Eff unit :=
  set_state (fun s => mkState v (pathTypes s) (wallets s) (showMnemonic s)
                              (mnemonicInput s) (visiblePrivateKeys s) (visiblePhrases s)
                              (gridView s)).
Definition setPathTypes (v : list string) : Eff unit :=
  set_state (fun s => mkState (mnemonicWords s) v (wallets s) (showMnemonic s)
                              (mnemonicInput s) (visiblePrivateKeys s) (visiblePhrases s)
                              (gridView s)).
Definition setWallets (v : list Wallet) : Eff unit :=
  set_state (fun s => mkState (mnemonicWords s) (pathTypes s) v (showMnemonic s)
                              (mnemonicInput s) (visiblePrivateKeys s) (visiblePhrases s)
                              (gridView s)).
Definition setShowMnemonic (v : bool) : Eff unit :=
  set_state (fun s => mkState (mnemonicWords s) (pathTypes s) (wallets s) v
                              (mnemonicInput s) (visiblePrivateKeys s) (visiblePhrases s)
                              (gridView s)).
Definition setMnemonicInput (v : string) : Eff unit :=
  set_state (fun s => mkState (mnemonicWords s) (pathTypes s) (wallets s) (showMnemonic s)
                              v (visiblePrivateKeys s) (visiblePhrases s) (gridView s)).
Definition setVisiblePrivateKeys (v : list bool) : Eff unit :=
  set_state (fun s => mkState (mnemonicWords s) (pathTypes s) (wallets s) (showMnemonic s)
                              (mnemonicInput s) v (visiblePhrases s) (gridView s)).
Definition setVisiblePhrases (v : list bool) : Eff unit :=
  set_state (fun s => mkState (mnemonicWords s) (pathTypes s) (wallets s) (showMnemonic s)
                              (mnemonicInput s) (visiblePrivateKeys s) v (gridView s)).
Definition setGridView (v : bool) : Eff unit :=
  set_state (fun s => mkState (mnemonicWords s) (pathTypes s) (wallets s) (showMnemonic s)
                              (mnemonicInput s) (visiblePrivateKeys s) (visiblePhrases s) v).

Definition localStorage_setItem (key : string) (value : json) : Eff unit :=
  fun w => (tt, mkWorld (state w) (<[key := value]> (localStorage w)) (toasts w)).

Definition localStorage_removeItem (key : string) : Eff unit :=
  fun w => (tt, mkWorld (state w) (delete key (localStorage w)) (toasts w)).

Definition show_toast (t : toast) : Eff unit :=
  fun w => (tt, mkWorld (state w) (localStorage w) (toasts w ++ [t])).

(** An event handler: it reads the state variables of the render it was
    created in (its closure), and its writes take effect together when it
    returns. *)
Definition handler (body : State -> Eff unit) (w : World) : World :=
  snd (body (state w) w).

(** *** Loading at mount: the [useEffect] with no dependencies *)

(** [None] when a stored document does not have the shape of the state
    variable it is assigned to: the component casts without checking, and
    such a run leaves the typed model. *)
Definition useEffect_load (w : World) : option World :=
  match localStorage w !! "wallets", localStorage w !! "mnemonics",
        localStorage w !! "paths" with
  | Some storedWallets, Some storedMnemonic, Some storedPathTypes =>
      words ← strings_of_JSON storedMnemonic;
      parsedWallets ← wallets_of_JSON storedWallets;
      parsedPathTypes ← strings_of_JSON storedPathTypes;
      Some (snd ((setMnemonicWords words;;
                  setWallets parsedWallets;;
                  setPathTypes parsedPathTypes;;
                  setVisiblePrivateKeys (map (fun _ => false) parsedWallets);;
                  setVisiblePhrases (map (fun _ => false) parsedWallets)) w))
  | _, _, _ => Some w
  end.

(** A page load over a given store: first render, then the load effect. *)
Definition mount (store : gmap string json) : option World :=
  useEffect_load (mkWorld initial_state store []).

(** *** Handlers that need no package *)

Definition handleDeleteWallet (index : nat) : World -> World :=
  handler (fun s =>
    let updatedWallets := JS.filter_index (fun i => negb (Nat.eqb i index)) (wallets s) in
    let updatedPathTypes := JS.filter_index (fun i => negb (Nat.eqb i index)) (pathTypes s) in
    setWallets updatedWallets;;
    setPathTypes updatedPathTypes;;
    localStorage_setItem "wallets" (JSON_of_wallets updatedWallets);;
    localStorage_setItem "paths" (JSON_of_strings updatedPathTypes);;
    setVisiblePrivateKeys
      (JS.filter_index (fun i => negb (Nat.eqb i index)) (visiblePrivateKeys s));;
    setVisiblePhrases
      (JS.filter_index (fun i => negb (Nat.eqb i index)) (visiblePhrases s));;
    show_toast (toast_success "Wallet deleted successfully!")).

Definition handleClearWallets : World -> World :=
  handler (fun _ =>
    localStorage_removeItem "wallets";;
    localStorage_removeItem "mnemonics";;
    localStorage_removeItem "paths";;
    setWallets [];;
    setMnemonicWords [];;
    setPathTypes [];;
    setVisiblePrivateKeys [];;
    setVisiblePhrases [];;
    show_toast (toast_success "All wallets cleared.")).

Definition togglePrivateKeyVisibility (index : nat) : World -> World :=
  handler (fun s =>
    let newVisiblePrivateKeys :=
      JS.map_index (fun visible i => if Nat.eqb i index then negb visible else visible)
                   (visiblePrivateKeys s) in
    setVisiblePrivateKeys newVisiblePrivateKeys).

Definition togglePhraseVisibility (index : nat) : World -> World :=
  handler (fun s =>
    let newVisiblePhrases :=
      JS.map_index (fun visible i => if Nat.eqb i index then negb visible else visible)
                   (visiblePhrases s) in
    setVisiblePhrases newVisiblePhrases).

(** The two chain buttons ([pathType] is ["501"] for Solana, ["60"] for
    Ethereum). *)
Definition selectChain (pathType : string) : World -> World :=
  handler (fun _ =>
    setPathTypes [pathType];;
    show_toast (toast_success "Wallet selected. Please generate a wallet to continue.")).

(** Typing in the phrase box. *)
Definition onChange_mnemonicInput (value : string) : World -> World :=
  handler (fun _ => setMnemonicInput value).

(** A fresh page over an empty store. *)
Definition fresh_world : World := mkWorld initial_state ∅ [].

(** A world with one more notification. *)
Definition add_toast (t : toast) (w : World) : World :=
  mkWorld (state w) (localStorage w) (toasts w ++ [t]).

(** The state after a wallet is appended (its two visibility flags off) and
    the phrase words are set. *)
Definition appended (s : State) (wallet : Wallet) (words : list string) : State :=
  mkState words (pathTypes s) (wallets s ++ [wallet]) (showMnemonic s) (mnemonicInput s)
          (visiblePrivateKeys s ++ [false]) (visiblePhrases s ++ [false]) (gridView s).

Definition with_words (s : State) (words : list string) : State :=
  mkState words (pathTypes s) (wallets s) (showMnemonic s) (mnemonicInput s)
          (visiblePrivateKeys s) (visiblePhrases s) (gridView s).

(** The operations of the wallet registry, as the buttons trigger them. *)
Inductive operation :=
| SelectChain (pathType : string)
| Generate (generateMnemonic : string)
| AddFromExistingPhrase
| Remove (index : nat)
| Clear.

Section WithPackages.
Variable L : Libs.

(** *** Derivation *)

(** The derivation path of a wallet. *)
Definition derivation_path (pathType : option string) (accountIndex : nat) : string :=
  "m/44'/" +:+ JS.string_of_optional pathType +:+ "'/0'/"
           +:+ JS.string_of_number accountIndex +:+ "'".

(** The [try] block of [generateWalletFromMnemonic]: [None] when a package
    call throws, otherwise what the block does next. *)
Definition generateWalletFromMnemonic_try
    (pathType : option string) (mnemonic : string) (accountIndex : nat)
    : option (Eff (option Wallet)) :=
  let seedBuffer := mnemonicToSeedSync L mnemonic in
  let path := derivation_path pathType accountIndex in
  derivedSeed ← derivePath L path (Buffer.toString_hex seedBuffer);
  if JS.strict_eq pathType "501" then
    secretKey ← nacl_sign_keyPair_fromSeed L derivedSeed;
    keypair_publicKey ← Keypair_fromSecretKey L secretKey;
    let privateKeyEncoded := bs58_encode L secretKey in
    let publicKeyEncoded := PublicKey_toBase58 L keypair_publicKey in
    Some (mret (Some (mkWallet publicKeyEncoded privateKeyEncoded mnemonic path)))
  else if JS.strict_eq pathType "60" then
    let privateKey := Buffer.toString_hex derivedSeed in
    let privateKeyEncoded := privateKey in
    address ← ethers_Wallet L privateKey;
    let publicKeyEncoded := address in
    Some (mret (Some (mkWallet publicKeyEncoded privateKeyEncoded mnemonic path)))
  else
    Some (show_toast (toast_error "Unsupported path type.");; mret None).

Definition generateWalletFromMnemonic
    (pathType : option string) (mnemonic : string) (accountIndex : nat)
    : Eff (option Wallet) :=
  match generateWalletFromMnemonic_try pathType mnemonic accountIndex with
  | Some continue => continue
  | None =>
      show_toast (toast_error "Failed to generate wallet. Please try again.");;
      mret None
  end.

(** The wallet a call returns, apart from its notifications. *)
Definition derive (pathType : option string) (mnemonic : string) (accountIndex : nat)
    : option Wallet :=
  fst (generateWalletFromMnemonic pathType mnemonic accountIndex fresh_world).

(** The message of a call that returns [null]. *)
Definition failure_message (pathType : option string) (mnemonic : string)
    (accountIndex : nat) : string :=
  match generateWalletFromMnemonic_try pathType mnemonic accountIndex with
  | Some _ => "Unsupported path type."
  | None => "Failed to generate wallet. Please try again."
  end.


(** *** The two wallet buttons *)

(** The phrase a click on the generate button works with, if it gets past
    validation. *)
Definition chosen_phrase (s : State) (generateMnemonic : string) : option string :=
  let typed := JS.trim (mnemonicInput s) in
  if JS.truthy_string typed then
    if validateMnemonic L typed then Some typed else None
  else Some generateMnemonic.

(** [generateMnemonic] is what bip39's random generator returns if the
    handler calls it (it does when the phrase box is blank). *)
Definition handleGenerateWallet (generateMnemonic : string) : World -> World :=
  handler (fun s =>
    let continue (mnemonic : string) : Eff unit :=
      let words := JS.split " " mnemonic in
      setMnemonicWords words;;
      wallet ← generateWalletFromMnemonic (head (pathTypes s)) mnemonic
                                          (length (wallets s));
      match wallet with
      | Some wallet =>
          let updatedWallets := wallets s ++ [wallet] in
          setWallets updatedWallets;;
          localStorage_setItem "mnemonics" (JSON_of_strings words);;
          localStorage_setItem "paths" (JSON_of_strings (pathTypes s));;
          setVisiblePrivateKeys (visiblePrivateKeys s ++ [false]);;
          setVisiblePhrases (visiblePhrases s ++ [false]);;
          show_toast (toast_success "Wallet generated successfully!")
      | None => mret tt
      end in
    let mnemonic := JS.trim (mnemonicInput s) in
    if JS.truthy_string mnemonic then
      if negb (validateMnemonic L mnemonic) then
        show_toast (toast_error "Invalid recovery phrase. Please try again.")
      else continue mnemonic
    else continue generateMnemonic).

Definition handleAddWallet : World -> World :=
  handler (fun s =>
    if negb (JS.truthy_array (mnemonicWords s)) then
      show_toast (toast_error "No mnemonic found. Please generate a wallet first.")
    else
      wallet ← generateWalletFromMnemonic (head (pathTypes s))
                                          (JS.join " " (mnemonicWords s))
                                          (length (wallets s));
      match wallet with
      | Some wallet =>
          let updatedWallets := wallets s ++ [wallet] in
          let updatedPathType := [pathTypes s; pathTypes s] in
          setVisiblePrivateKeys (visiblePrivateKeys s ++ [false]);;
          setVisiblePhrases (visiblePhrases s ++ [false]);;
          setWallets updatedWallets;;
          localStorage_setItem "wallets" (JSON_of_wallets updatedWallets);;
          localStorage_setItem "pathTypes" (JArray (map JSON_of_strings updatedPathType));;
          show_toast (toast_success "Wallet generated successfully!")
      | None => mret tt
      end).

(** *** Sessions *)

Definition perform (w : World) (o : operation) : World :=
  match o with
  | SelectChain pathType => selectChain pathType w
  | Generate generateMnemonic => handleGenerateWallet generateMnemonic w
  | AddFromExistingPhrase => handleAddWallet w
  | Remove index => handleDeleteWallet index w
  | Clear => handleClearWallets w
  end.

Definition session (os : list operation) (w : World) : World :=
  fold_left perform os w.

End WithPackages.

End Component.

(** ** The rendered page

    What [WalletGenerator] returns: which controls a render offers, what a
    click on each of them runs, the heading and the private key line of a
    wallet card, and the clipboard the copy handler writes to. *)

Module View.
Import Npm Component.

(** [pathTypeNames]: the own properties of the object literal. *)
Definition pathTypeNames : gmap string string :=
  <["501" := "Solana"]> (<["60" := "Ethereum"]> ∅).

(** The property names an object literal inherits from [Object.prototype];
    their values are functions (an object for [__proto__]), not strings. *)
Definition Object_prototype : list string :=
  ["constructor"; "__proto__"; "hasOwnProperty"; "isPrototypeOf"; "propertyIsEnumerable";
   "toLocaleString"; "toString"; "valueOf"; "__defineGetter__"; "__defineSetter__";
   "__lookupGetter__"; "__lookupSetter__"].

(** [pathTypeNames[pathTypes[0]] || ""]: the key [undefined] is looked up as
    the property name ["undefined"].  [None] stands for a value that is not a
    string (the key names an inherited property). *)
Definition pathTypeName (s : State) : option string :=
  let key := JS.string_of_optional (head (pathTypes s)) in
  match pathTypeNames !! key with
  | Some name => Some (if JS.truthy_string name then name else "")
  | None => if bool_decide (key ∈ Object_prototype) then None else Some ""
  end.

(** The label of the button beside the phrase box. *)
Definition generateButtonLabel (s : State) : string :=
  if JS.truthy_string (mnemonicInput s) then "Add Wallet" else "Generate Wallet".

(** A text of a wallet card: a string of the wallet, or a run of bullets
    (["•".repeat(n)]). *)
Inductive text :=
| Plain (s : string)
| Bullets (n : nat).

(** The private key line of the card of [wallet], the wallet at [index]:
    [visiblePrivateKeys[index] ? wallet.privateKey
     : "•".repeat(wallet.mnemonic.length)]; a missing flag is [undefined],
    which is falsy. *)
Definition privateKeyText (s : State) (index : nat) (wallet : Wallet) : text :=
  if default false (visiblePrivateKeys s !! index) then Plain (privateKey wallet)
  else Bullets (JS.length (mnemonic wallet)).

(** What [navigator.clipboard] is on the page: absent ([undefined], as on an
    origin that is not secure), or present, without or with the permission to
    write. *)
Inductive clipboard_api :=
| Unavailable
| Denied
| Granted.

(** The page: the component's world and the system clipboard. *)
Record Page := mkPage {
  world : World;
  clipboard : string;
  navigator_clipboard : clipboard_api
}.

(** [navigator.clipboard.writeText(content)]: [None] when the call throws
    (there is no [navigator.clipboard] to call it on); a write that is
    refused only rejects the promise the call returns. *)
Definition navigator_clipboard_writeText (content : string) (p : Page) : option Page :=
  match navigator_clipboard p with
  | Unavailable => None
  | Denied => Some p
  | Granted => Some (mkPage (world p) content (navigator_clipboard p))
  end.

(** [copyToClipboard]: the promise of [writeText] is neither awaited nor
    caught, so the notification follows whenever the call returned; when the
    call throws, the handler ends there. *)
Definition copyToClipboard (content : string) (p : Page) : Page :=
  match navigator_clipboard_writeText content p with
  | Some p' =>
      mkPage (snd (show_toast (toast_success "Copied to clipboard!") (world p')))
             (clipboard p') (navigator_clipboard p')
  | None => p
  end.

(** A handler of the component, on the page. *)
Definition on_world (f : World -> World) (p : Page) : Page :=
  mkPage (f (world p)) (clipboard p) (navigator_clipboard p).

(** The two inline toggles: [setShowMnemonic(!showMnemonic)] on the header
    of the phrase panel (and on the chevron button inside it), and
    [setGridView(!gridView)]. *)
Definition onClick_showMnemonic : World -> World :=
  handler (fun s => setShowMnemonic (negb (showMnemonic s))).

Definition onClick_gridView : World -> World :=
  handler (fun s => setGridView (negb (gridView s))).

(** What the user can do on the page.  [ClickGenerate] carries the phrase
    bip39's generator returns if the handler draws one; the two [Confirm]
    events are the action buttons of the alert dialogs. *)
Inductive event :=
| ClickSolana
| ClickEthereum
| TypePhrase (value : string)
| ClickGenerate (generateMnemonic : string)
| ClickPhraseHeader
| ClickPhrase
| ClickGridView
| ClickAddWallet
| ConfirmClear
| ConfirmDelete (index : nat)
| ClickPublicKey (index : nat)
| ClickPrivateKey (index : nat)
| ClickEye (index : nat).

(** Whether the render of state [s] contains the control of an event: the
    conditions of the JSX around it. *)
Definition offered (s : State) (e : event) : bool :=
  let n := length (wallets s) in
  match e with
  | ClickSolana | ClickEthereum =>
      Nat.eqb n 0 && Nat.eqb (length (pathTypes s)) 0
  | TypePhrase _ | ClickGenerate _ =>
      Nat.eqb n 0 && negb (Nat.eqb (length (pathTypes s)) 0)
  | ClickPhraseHeader =>
      JS.truthy_array (mnemonicWords s) && Nat.ltb 0 n
  | ClickPhrase =>
      JS.truthy_array (mnemonicWords s) && Nat.ltb 0 n && showMnemonic s
  | ClickGridView =>
      Nat.ltb 0 n && Nat.ltb 1 n
  | ClickAddWallet | ConfirmClear =>
      Nat.ltb 0 n
  | ConfirmDelete index | ClickPublicKey index | ClickPrivateKey index | ClickEye index =>
      Nat.ltb 0 n && Nat.ltb index n
  end.

Section WithPackages.
Variable L : Libs.

(** The handler behind each control.  A card that does not exist has no
    control to click. *)
Definition dispatch (p : Page) (e : event) : Page :=
  let s := state (world p) in
  match e with
  | ClickSolana => on_world (selectChain "501") p
  | ClickEthereum => on_world (selectChain "60") p
  | TypePhrase value => on_world (onChange_mnemonicInput value) p
  | ClickGenerate generateMnemonic => on_world (handleGenerateWallet L generateMnemonic) p
  | ClickPhraseHeader => on_world onClick_showMnemonic p
  | ClickPhrase => copyToClipboard (JS.join " " (mnemonicWords s)) p
  | ClickGridView => on_world onClick_gridView p
  | ClickAddWallet => on_world (handleAddWallet L) p
  | ConfirmClear => on_world handleClearWallets p
  | ConfirmDelete index => on_world (handleDeleteWallet index) p
  | ClickPublicKey index =>
      match wallets s !! index with
      | Some wallet => copyToClipboard (publicKey wallet) p
      | None => p
      end
  | ClickPrivateKey index =>
      match wallets s !! index with
      | Some wallet => copyToClipboard (privateKey wallet) p
      | None => p
      end
  | ClickEye index => on_world (togglePrivateKeyVisibility index) p
  end.

(** The page after a sequence of events. *)
Definition events (es : list event) (p : Page) : Page :=
  fold_left dispatch es p.

(** Whether each event of a sequence is offered by the render it happens
    on. *)
Fixpoint offered_all (es : list event) (p : Page) : bool :=
  match es with
  | [] => true
  | e :: es => offered (state (world p)) e && offered_all es (dispatch p e)
  end.




End WithPackages.

(** A fresh page over an empty store. *)
Definition fresh_page : Page := mkPage fresh_world "" Granted.

End View.

(** ** Reference values

    The phrases, packages and worlds the concrete runs below start from. *)

Import Npm Component View.

(** A path the package accepts and whose hardened indices fit on 32 bits. *)
Definition derivable (path : string) : bool :=
  isValidPath path
  && forallb (fun el => (JS.parseInt (replaceDerive el) + HARDENED_OFFSET <=? 0xffffffff)%Z)
             (tl (JS.split "/" path)).

(** The key the package derives along a path (empty when it throws). *)
Definition hd_key (path seed : string) : Buffer.t :=
  default [] (ed25519_hd_key_derivePath path seed).

(** The wallet the published packages derive on the Solana path, under a
    normalisation of the phrase. *)
Definition solana_wallet_NFKD (normalize : string -> string)
    (mnemonic : string) (accountIndex : nat) : Wallet :=
  let path := derivation_path (Some "501") accountIndex in
  let key := hd_key path (Buffer.toString_hex (mnemonicToSeedSync_NFKD normalize mnemonic)) in
  mkWallet (Base58.encode (Ed25519.public_key key))
           (Base58.encode (key ++ Ed25519.public_key key))
           mnemonic path.

(** The same for a phrase of ASCII characters. *)
Definition solana_wallet (mnemonic : string) (accountIndex : nat) : Wallet :=
  let path := derivation_path (Some "501") accountIndex in
  let key := hd_key path (Buffer.toString_hex (bip39_mnemonicToSeedSync mnemonic)) in
  mkWallet (Base58.encode (Ed25519.public_key key))
           (Base58.encode (key ++ Ed25519.public_key key))
           mnemonic path.

(** The canonical test phrase of BIP-39 (all-zero entropy). *)
Definition abandon : string :=
  "abandon abandon abandon abandon abandon abandon abandon abandon abandon abandon abandon about".

(** A second phrase of the BIP-39 test vectors. *)
Definition legal : string :=
  "legal winner thank year wave sausage worth useful legal winner thank yellow".

(** In the concrete runs below the phrase box stays blank, so the component
    never calls [validateMnemonic] and the runs are the same for every
    validator; they are stated with the one that accepts no typed phrase.
    Their phrases are ASCII text. *)
Definition no_typed_phrase : string -> bool := fun _ => false.

Definition published : Libs := packages no_typed_phrase NFKD_ascii.

(** The Ethereum wallet of the canonical phrase at account index 0. *)
Definition ethereum_abandon_0 : Wallet :=
  mkWallet "0x2759A6Ad812b8A7B73A63a243816D66F5b72A0A7"
           "bca443f5149618b5dbe6e80b5c096ad4280d5a2e8bc0ce3ebc71c9c0878ba5de"
           abandon "m/44'/60'/0'/0'".

(** The world right after the Solana button on a fresh page. *)
Definition solana_selected : World := selectChain "501" fresh_world.

(** A registry with three wallets (the keys are placeholders). *)
Definition three_wallets : World :=
  mkWorld (mkState ["abandon"; "about"] ["501"]
                   [mkWallet "A" "a" "abandon about" "m/44'/501'/0'/0'";
                    mkWallet "B" "b" "abandon about" "m/44'/501'/0'/1'";
                    mkWallet "C" "c" "abandon about" "m/44'/501'/0'/2'"]
                   false "" [false; true; false] [false; false; false] false)
          ∅ [].

(** What the store and the phrase words have to do with the wallet list on
    a page that was only ever driven through its controls: every wallet
    carries the phrase the words spell; while a wallet is listed, the stored
    phrase and chain selection are the ones in memory; and from two wallets
    on, so is the stored wallet list. *)
Definition consistent (w : World) : Prop :=
  let s := state w in
  Forall (fun wallet => mnemonic wallet = JS.join " " (mnemonicWords s)) (wallets s)
  /\ (wallets s <> [] ->
      localStorage w !! "mnemonics" = Some (JSON_of_strings (mnemonicWords s))
      /\ localStorage w !! "paths" = Some (JSON_of_strings (pathTypes s)))
  /\ (2 <= length (wallets s) ->
      localStorage w !! "wallets" = Some (JSON_of_wallets (wallets s))).

(** The clicks of a short visit: Solana, generate, add. *)
Definition first_visit : list event := [ClickSolana; ClickGenerate abandon; ClickAddWallet].

(** The page right after the Solana button on a fresh page. *)
Definition solana_page : Page := mkPage solana_selected "" Granted.

(** A page over the registry of three wallets, on which writes to the
    clipboard are refused. *)
Definition three_wallets_page : Page := mkPage three_wallets "" Denied.

(** A page with the Solana chain selected and a text typed in the phrase
    box that is no recovery phrase. *)
Definition typed_world : World := onChange_mnemonicInput " not a phrase " solana_selected.


(** A fresh page of a site whose store already holds an entry of another
    component. *)
Definition themed_page : Page :=
  mkPage (mkWorld initial_state (<["theme" := JString "dark"]> ∅) []) "" Granted.

(** A store that another program wrote: the properties of its one wallet
    come in another order, among two properties the component does not
    know. *)
Definition foreign_store : gmap string json :=
  <["wallets" := JArray [JObject [("path", JString "m/44'/501'/0'/0'");
                                  ("label", JString "savings");
                                  ("account", JLiteral "0");
                                  ("mnemonic", JString "abandon about");
                                  ("privateKey", JString "a");
                                  ("publicKey", JString "A")]]]>
    (<["mnemonics" := JSON_of_strings ["abandon"; "about"]]>
       (<["paths" := JSON_of_strings ["501"]]> ∅)).

(** A no-break space (U+00A0) and an ideographic space (U+3000), in
    UTF-8. *)
Definition no_break_space : string :=
  String (ascii_of_nat 194) (String (ascii_of_nat 160) "").

Definition ideographic_space : string :=
  String (ascii_of_nat 227) (String (ascii_of_nat 128) (String (ascii_of_nat 128) "")).

(** A page with the Solana chain selected and nothing but white space in
    the phrase box: a space, a no-break space and an ideographic space. *)
Definition white_world : World :=
  onChange_mnemonicInput (" " +:+ no_break_space +:+ ideographic_space) solana_selected.

(** The wallets of a list all lie on the chain of one path type: each was
    derived along the path of that path type, at some account index. *)
Definition on_chain (pathType : string) (ws : list Wallet) : Prop :=
  Forall (fun wallet =>
            exists accountIndex, path wallet = derivation_path (Some pathType) accountIndex)
         ws.

(** What the chain selection has to do with the wallet list on a page that
    was only ever driven through its controls. *)
Definition one_chain (s : State) : Prop :=
  exists pathType,
    (pathType = "501" \/ pathType = "60")
    /\ on_chain pathType (wallets s)
    /\ (wallets s <> [] -> pathTypes s = [] \/ pathTypes s = [pathType]).

(** * Properties of the component *)

(** ** JavaScript arrays and strings *)

Lemma filter_index_from_all {A : Type} (keep : nat -> bool) (j : nat) (a : list A) :
  (forall i, j <= i -> keep i = true) -> JS.filter_index_from keep j a = a.
Proof.
  revert j; induction a as [|x a IH]; intros j H; cbn [JS.filter_index_from]; [done|].
  rewrite (H j) by lia. f_equal. apply IH. intros i Hi. apply H. lia.
Qed.

Lemma filter_index_from_delete {A : Type} (k j : nat) (a : list A) :
  JS.filter_index_from (fun i => negb (Nat.eqb i (j + k))) j a = delete k a.
Proof.
  revert k j; induction a as [|x a IH]; intros k j; cbn [JS.filter_index_from].
  - by destruct k.
  - destruct k as [|k].
    + rewrite Nat.add_0_r, Nat.eqb_refl. cbn [negb delete list_delete].
      apply filter_index_from_all. intros i Hi.
      apply negb_true_iff, Nat.eqb_neq. lia.
    + replace (Nat.eqb j (j + S k)) with false
        by (symmetry; apply Nat.eqb_neq; lia).
      cbn [negb delete list_delete]. f_equal.
      replace (j + S k) with (S j + k) by lia. apply IH.
Qed.

(** [a.filter((_, i) => i !== index)] removes the element at [index], if any. *)
Lemma filter_index_delete {A : Type} (index : nat) (a : list A) :
  JS.filter_index (fun i => negb (Nat.eqb i index)) a = delete index a.
Proof. exact (filter_index_from_delete index 0 a). Qed.

Lemma delete_past_end {A : Type} (index : nat) (a : list A) :
  length a <= index -> delete index a = a.
Proof.
  revert index; induction a as [|x a IH]; intros [|index] H; simpl in *; try done; try lia.
  f_equal. apply IH. lia.
Qed.

Lemma length_delete_le {A : Type} (index : nat) (a : list A) :
  length (delete index a) <= length a.
Proof.
  revert index; induction a as [|x a IH]; intros [|index]; simpl; try lia.
  specialize (IH index). lia.
Qed.

(** Joining the pieces of a split gives the string back. *)
Lemma join_split (c : ascii) (s : string) :
  JS.join (String c EmptyString) (JS.split c s) = s.
Proof.
  induction s as [|a s IH]; [done|].
  simpl. destruct (Ascii.eqb_spec a c) as [->|Hne].
  - unfold JS.join in *. simpl.
    destruct (JS.split c s) as [|w ws] eqn:E; simpl in *.
    + destruct s; simpl in E; [done|]. destruct (Ascii.eqb a c); [done|].
      by destruct (JS.split c s).
    + by rewrite IH.
  - unfold JS.join in *.
    destruct (JS.split c s) as [|w ws] eqn:E; simpl in *.
    + by rewrite <- IH.
    + destruct ws; simpl in *; by rewrite <- IH.
Qed.

(** [trim] strips the white space of Unicode at both ends and keeps the one
    inside; [length] counts UTF-16 code units: one for a no-break space (two
    bytes), two for a character outside the basic plane (four bytes). *)
Lemma trim_strips_unicode_white_space :
  JS.trim (no_break_space +:+ " abandon" +:+ ideographic_space +:+ "about "
           +:+ no_break_space +:+ ideographic_space)
  = "abandon" +:+ ideographic_space +:+ "about".
Proof. reflexivity. Qed.

Lemma white_space_bytes (s : string) : JS.white_space s <= String.length s.
Proof.
  assert (Hsome : forall i s, JS.byte_at i s <> 256 -> i < String.length s).
  { induction i as [|i IH]; intros [|c rest]; unfold JS.byte_at; cbn [String.get String.length];
      try done; [lia|].
    intros H. apply IH in H. lia. }
  unfold JS.white_space.
  repeat match goal with
         | |- context [if ?c then _ else _] => destruct c eqn:?
         end; try lia.
  all: repeat match goal with
              | H : _ && _ = true |- _ => apply andb_true_iff in H as [? ?]
              | H : _ || _ = true |- _ => apply orb_true_iff in H as [?|?]
              | H : Nat.eqb _ _ = true |- _ => apply Nat.eqb_eq in H
              | H : Nat.leb _ _ = true |- _ => apply Nat.leb_le in H
              end.
  all: try (assert (2 < String.length s) by (apply Hsome; lia); lia).
  all: try (assert (1 < String.length s) by (apply Hsome; lia); lia).
  all: try (assert (0 < String.length s) by (apply Hsome; lia); lia).
Qed.

Lemma trimStart_leaves_no_white_space (s : string) :
  JS.white_space (JS.trimStart s) = 0.
Proof.
  assert (H : forall n s, String.length s <= n -> JS.white_space (JS.trimStart s) = 0).
  { clear s. induction n as [|n IH]; intros s Hn.
    - destruct s; [reflexivity|cbn [String.length] in Hn; lia].
    - destruct s as [|c1 rest1]; [reflexivity|].
      cbn [String.length] in Hn. cbn [JS.trimStart].
      destruct (JS.white_space (String c1 rest1)) as [|[|[|k]]] eqn:Hw.
      + exact Hw.
      + apply IH. lia.
      + pose proof (white_space_bytes (String c1 rest1)) as Hb. rewrite Hw in Hb.
        destruct rest1 as [|c2 rest2]; cbn [String.length] in Hb, Hn; [lia|].
        apply IH. lia.
      + pose proof (white_space_bytes (String c1 rest1)) as Hb. rewrite Hw in Hb.
        assert (Hk : k = 0).
        { revert Hw. unfold JS.white_space.
          repeat match goal with
                 | |- context [if ?c then _ else _] => destruct c
                 end; intros [=]; lia. }
        subst k.
        destruct rest1 as [|c2 [|c3 rest3]]; cbn [String.length] in Hb, Hn; [lia|lia|].
        apply IH. lia. }
  by apply (H (String.length s)).
Qed.

Lemma length_counts_code_units :
  JS.length ("abandon" +:+ no_break_space +:+ "about") = 13
  /\ String.length ("abandon" +:+ no_break_space +:+ "about") = 14
  /\ JS.length (String (ascii_of_nat 240) (String (ascii_of_nat 159)
                   (String (ascii_of_nat 152) (String (ascii_of_nat 128) "")))) = 2.
Proof. repeat split. Qed.

(** ** Round trip of the stored documents *)

Lemma strings_of_JSON_of_strings (a : list string) :
  strings_of_JSON (JSON_of_strings a) = Some a.
Proof.
  unfold strings_of_JSON, JSON_of_strings.
  induction a as [|x a IH]; [done|].
  cbn. cbn in IH. by rewrite IH.
Qed.

Lemma wallets_of_JSON_of_wallets (a : list Wallet) :
  wallets_of_JSON (JSON_of_wallets a) = Some a.
Proof.
  unfold wallets_of_JSON, JSON_of_wallets.
  induction a as [|[pk sk m p] a IH]; [done|].
  cbn. cbn in IH. by rewrite IH.
Qed.

(** ** Derivation *)

Section Derivation.
Variable L : Libs.

Lemma generateWalletFromMnemonic_eq pathType mnemonic accountIndex (w : World) :
  generateWalletFromMnemonic L pathType mnemonic accountIndex w =
  match derive L pathType mnemonic accountIndex with
  | Some wallet => (Some wallet, w)
  | None => (None, add_toast (toast_error (failure_message L pathType mnemonic accountIndex)) w)
  end.
Proof.
  unfold derive, failure_message, generateWalletFromMnemonic, generateWalletFromMnemonic_try.
  destruct (derivePath L _ _) as [derivedSeed|]; simpl; [|done].
  destruct (JS.strict_eq pathType "501").
  - destruct (nacl_sign_keyPair_fromSeed L derivedSeed) as [secretKey|]; simpl; [|done].
    destruct (Keypair_fromSecretKey L secretKey); simpl; by destruct w.
  - destruct (JS.strict_eq pathType "60"); [|done].
    destruct (ethers_Wallet L _); simpl; by destruct w.
Qed.

(** A derived wallet records the phrase and the path it was derived along. *)
Lemma derive_Some pathType mnemonic_ accountIndex wallet :
  derive L pathType mnemonic_ accountIndex = Some wallet ->
  mnemonic wallet = mnemonic_ /\ path wallet = derivation_path pathType accountIndex.
Proof.
  unfold derive, generateWalletFromMnemonic, generateWalletFromMnemonic_try.
  destruct (derivePath L _ _) as [derivedSeed|]; simpl; [|done].
  destruct (JS.strict_eq pathType "501").
  - destruct (nacl_sign_keyPair_fromSeed L derivedSeed) as [secretKey|]; simpl; [|done].
    destruct (Keypair_fromSecretKey L secretKey); simpl; [|done].
    by intros [= <-].
  - destruct (JS.strict_eq pathType "60"); [|done].
    destruct (ethers_Wallet L _); simpl; [|done].
    by intros [= <-].
Qed.


(** With no chain selected ([pathTypes[0]] is [undefined]) no wallet is
    derived. *)
Lemma derive_undefined mnemonic accountIndex :
  derive L None mnemonic accountIndex = None.
Proof.
  unfold derive, generateWalletFromMnemonic, generateWalletFromMnemonic_try.
  by destruct (derivePath L _ _).
Qed.

(** *** What the two wallet buttons do *)

Lemma handleAddWallet_eq (w : World) :
  handleAddWallet L w =
  let s := state w in
  match derive L (head (pathTypes s)) (JS.join " " (mnemonicWords s)) (length (wallets s)) with
  | Some wallet =>
      mkWorld (appended s wallet (mnemonicWords s))
              (<["pathTypes" := JArray [JSON_of_strings (pathTypes s);
                                        JSON_of_strings (pathTypes s)]]>
                 (<["wallets" := JSON_of_wallets (wallets s ++ [wallet])]>
                    (localStorage w)))
              (toasts w ++ [toast_success "Wallet generated successfully!"])
  | None =>
      add_toast (toast_error (failure_message L (head (pathTypes s))
                                              (JS.join " " (mnemonicWords s))
                                              (length (wallets s)))) w
  end.
Proof.
  unfold handleAddWallet, handler. simpl.
  unfold mbind, Eff_bind at 1.
  rewrite generateWalletFromMnemonic_eq.
  destruct (derive _ _ _ _); destruct w as [[] ? ?]; reflexivity.
Qed.

Lemma handleGenerateWallet_eq (generateMnemonic : string) (w : World) :
  handleGenerateWallet L generateMnemonic w =
  let s := state w in
  match chosen_phrase L s generateMnemonic with
  | None => add_toast (toast_error "Invalid recovery phrase. Please try again.") w
  | Some phrase =>
      let words := JS.split " " phrase in
      match derive L (head (pathTypes s)) phrase (length (wallets s)) with
      | Some wallet =>
          mkWorld (appended s wallet words)
                  (<["paths" := JSON_of_strings (pathTypes s)]>
                     (<["mnemonics" := JSON_of_strings words]> (localStorage w)))
                  (toasts w ++ [toast_success "Wallet generated successfully!"])
      | None =>
          mkWorld (with_words s words) (localStorage w)
                  (toasts w ++ [toast_error (failure_message L (head (pathTypes s)) phrase
                                                             (length (wallets s)))])
      end
  end.
Proof.
  unfold handleGenerateWallet, handler, chosen_phrase. simpl.
  destruct (JS.truthy_string (JS.trim (mnemonicInput (state w)))).
  - destruct (validateMnemonic L _); simpl; [|by destruct w].
    unfold mbind, Eff_bind at 1. unfold mbind, Eff_bind at 1.
    rewrite generateWalletFromMnemonic_eq.
    destruct (derive _ _ _ _); destruct w as [[] ? ?]; reflexivity.
  - unfold mbind, Eff_bind at 1. unfold mbind, Eff_bind at 1.
    rewrite generateWalletFromMnemonic_eq.
    destruct (derive _ _ _ _); destruct w as [[] ? ?]; reflexivity.
Qed.

End Derivation.

Lemma handleDeleteWallet_eq (index : nat) (w : World) :
  handleDeleteWallet index w =
  let s := state w in
  mkWorld (mkState (mnemonicWords s) (delete index (pathTypes s)) (delete index (wallets s))
                   (showMnemonic s) (mnemonicInput s)
                   (delete index (visiblePrivateKeys s)) (delete index (visiblePhrases s))
                   (gridView s))
          (<["paths" := JSON_of_strings (delete index (pathTypes s))]>
             (<["wallets" := JSON_of_wallets (delete index (wallets s))]> (localStorage w)))
          (toasts w ++ [toast_success "Wallet deleted successfully!"]).
Proof.
  unfold handleDeleteWallet, handler. simpl.
  rewrite !filter_index_delete. by destruct w as [[] ? ?].
Qed.

Lemma selectChain_eq (pathType : string) (w : World) :
  selectChain pathType w =
  let s := state w in
  mkWorld (mkState (mnemonicWords s) [pathType] (wallets s) (showMnemonic s) (mnemonicInput s)
                   (visiblePrivateKeys s) (visiblePhrases s) (gridView s))
          (localStorage w)
          (toasts w ++ [toast_success "Wallet selected. Please generate a wallet to continue."]).
Proof. unfold selectChain, handler. by destruct w as [[] ? ?]. Qed.

Lemma handleClearWallets_eq (w : World) :
  handleClearWallets w =
  let s := state w in
  mkWorld (mkState [] [] [] (showMnemonic s) (mnemonicInput s) [] [] (gridView s))
          (delete "paths" (delete "mnemonics" (delete "wallets" (localStorage w))))
          (toasts w ++ [toast_success "All wallets cleared."]).
Proof. unfold handleClearWallets, handler. by destruct w as [[] ? ?]. Qed.

(** ** The published packages *)

(** *** Sizes of the digests and keys *)

Lemma SHA512_round_length (s : list SHA512.w64) (kw : SHA512.w64 * SHA512.w64) :
  length s = 8 -> length (SHA512.round s kw) = 8.
Proof.
  intros H. do 9 (destruct s as [|? s]; try discriminate H). reflexivity.
Qed.

Lemma SHA512_rounds_length (kws : list (SHA512.w64 * SHA512.w64)) (s : list SHA512.w64) :
  length s = 8 -> length (fold_left SHA512.round kws s) = 8.
Proof.
  revert s; induction kws as [|kw kws IH]; intros s H; [exact H|].
  cbn [fold_left]. apply IH, SHA512_round_length, H.
Qed.

Lemma SHA512_compress_length (h block : list SHA512.w64) :
  length h = 8 -> length (SHA512.compress h block) = 8.
Proof.
  intros H. unfold SHA512.compress.
  rewrite length_map, length_combine, SHA512_rounds_length by exact H. lia.
Qed.

Lemma SHA512_blocks_length (fuel : nat) (ws h : list SHA512.w64) :
  length h = 8 -> length (SHA512.blocks fuel ws h) = 8.
Proof.
  revert ws h; induction fuel as [|fuel IH]; intros ws h H; [exact H|].
  cbn [SHA512.blocks]. destruct ws; [exact H|].
  apply IH, SHA512_compress_length, H.
Qed.

Lemma SHA512_hash_ints_length (msg : list int) : length (SHA512.hash_ints msg) = 64.
Proof.
  unfold SHA512.hash_ints, SHA512.digest_words.
  pose proof (SHA512_blocks_length
                (length (SHA512.words (length (SHA512.pad msg)) (SHA512.pad msg)))
                (SHA512.words (length (SHA512.pad msg)) (SHA512.pad msg))
                SHA512.H0 eq_refl) as H.
  destruct (SHA512.blocks _ _ _) as [|? l]; [discriminate H|].
  do 8 (destruct l as [|? l]; try discriminate H). reflexivity.
Qed.

Lemma HMAC_sha512_length (key msg : Buffer.t) : length (HMAC.sha512 key msg) = 64.
Proof.
  unfold HMAC.sha512, HMAC.sha512_ints.
  by rewrite length_map, SHA512_hash_ints_length.
Qed.

Lemma le_bytes_length (n : nat) (z : Z) : length (Buffer.le_bytes n z) = n.
Proof. revert z; induction n as [|n IH]; intros z; simpl; [done|]. by rewrite IH. Qed.

Lemma Ed25519_public_key_length (seed : Buffer.t) :
  length (Ed25519.public_key seed) = 32.
Proof.
  unfold Ed25519.public_key, Ed25519.encode.
  destruct (Ed25519.clamp _); apply le_bytes_length.
Qed.

(** *** ed25519-hd-key *)

Lemma derive_segments_Some (segments : list Z) (master : Keys) :
  forallb (fun s => (s + HARDENED_OFFSET <=? 0xffffffff)%Z) segments = true ->
  length (fst master) = 32 ->
  exists keys, derive_segments segments master = Some keys /\ length (fst keys) = 32.
Proof.
  unfold derive_segments.
  revert master; induction segments as [|s segments IH]; intros master Hs Hm.
  - by exists master.
  - cbn [forallb] in Hs. apply andb_true_iff in Hs as [Hs1 Hs2].
    cbn [fold_left]. unfold CKDPriv at 2. rewrite Hs1.
    apply IH; [exact Hs2|].
    cbn [fst]. rewrite length_take, HMAC_sha512_length. reflexivity.
Qed.

Lemma derivePath_derivable (path seed : string) :
  derivable path = true ->
  ed25519_hd_key_derivePath path seed = Some (hd_key path seed)
  /\ length (hd_key path seed) = 32.
Proof.
  unfold derivable, hd_key, ed25519_hd_key_derivePath.
  intros [Hv Hs]%andb_true_iff. rewrite Hv.
  rewrite forallb_forall in Hs.
  destruct (derive_segments_Some
              (map (fun el => JS.parseInt (replaceDerive el)) (tl (JS.split "/" path)))
              (getMasterKeyFromSeed seed)) as (keys & -> & Hlen).
  - apply forallb_forall. intros s (el & <- & Hel)%in_map_iff. by apply Hs.
  - unfold getMasterKeyFromSeed. cbn [fst].
    rewrite length_take, HMAC_sha512_length. reflexivity.
  - done.
Qed.

(** A path outside the package's pattern throws. *)
Lemma derivePath_invalid (path seed : string) :
  isValidPath path = false -> ed25519_hd_key_derivePath path seed = None.
Proof. unfold ed25519_hd_key_derivePath. by intros ->. Qed.

(** *** Solana wallets *)

Lemma buffer_eqb_refl (a : Buffer.t) : buffer_eqb a a = true.
Proof. unfold buffer_eqb. by rewrite Z.eqb_refl, Nat.eqb_refl. Qed.

(** On the Solana path every package call succeeds, whatever the phrase. *)
Lemma derive_solana (validate : string -> bool) (normalize : string -> string)
    (mnemonic : string) (accountIndex : nat) :
  derivable (derivation_path (Some "501") accountIndex) = true ->
  derive (packages validate normalize) (Some "501") mnemonic accountIndex
  = Some (solana_wallet_NFKD normalize mnemonic accountIndex).
Proof.
  intros H.
  unfold derive, generateWalletFromMnemonic, generateWalletFromMnemonic_try, solana_wallet_NFKD.
  cbn [packages mnemonicToSeedSync derivePath nacl_sign_keyPair_fromSeed
       Keypair_fromSecretKey PublicKey_toBase58 bs58_encode].
  destruct (derivePath_derivable _ (Buffer.toString_hex
                                      (mnemonicToSeedSync_NFKD normalize mnemonic)) H)
    as [-> Hlen].
  set (key := hd_key _ _) in *.
  cbn [mbind option_bind].
  change (JS.strict_eq (Some "501") "501") with true. cbn iota.
  unfold tweetnacl_fromSeed. rewrite Hlen. cbn [Nat.eqb mbind option_bind].
  unfold web3_fromSecretKey.
  rewrite length_app, Hlen, Ed25519_public_key_length. cbn [Nat.add Nat.eqb].
  rewrite drop_app_length' by (symmetry; exact Hlen).
  rewrite take_app_length' by (symmetry; exact Hlen).
  rewrite buffer_eqb_refl. reflexivity.
Qed.

(** With no chain selected the path is outside the package's pattern. *)
Lemma derivePath_undefined (accountIndex : nat) (seed : string) :
  ed25519_hd_key_derivePath (derivation_path None accountIndex) seed = None.
Proof. apply derivePath_invalid. reflexivity. Qed.

(** *** Test vectors of the primitives *)

(** SHA-512 of ["abc"] (FIPS 180-4). *)
Example sha512_abc :
  Buffer.toString_hex (SHA512.hash (Buffer.from_string "abc"))
  = "ddaf35a193617abacc417349ae20413112e6fa4e89a97ea20a9eeee64b55d39a2192992a274fc1a836ba3c23a3feebbd454d4423643ce80e2a9ac94fa54ca49f".
Proof. vm_compute. reflexivity. Qed.

(** Keccak-256 of the empty message. *)
Example keccak256_empty :
  Buffer.toString_hex (Keccak.keccak256 [])
  = "c5d2460186f7233c927e7db2dcc703c0e500b653ca82273b7bfad8045d85a470".
Proof. vm_compute. reflexivity. Qed.

(** The first key pair of RFC 8032. *)
Example ed25519_rfc8032 :
  Buffer.toString_hex
    (Ed25519.public_key
       (Buffer.from_hex "9d61b19deffd5a60ba844af492ec2cc44449c5697b326919703bac031cae7f60"))
  = "d75a980182b10ab7d54bfed3c964073a0ee172f3daa62325af021a68f707511a".
Proof. vm_compute. reflexivity. Qed.

(** The first test vector of SLIP-0010 for Ed25519: the master key and the
    key at the end of the chain [m/0'/1'/2'/2'/1000000000']. *)
Example slip10_ed25519_vector :
  Buffer.toString_hex (fst (getMasterKeyFromSeed "000102030405060708090a0b0c0d0e0f"))
  = "2b4be7f19ee27bbf30c667b642d5f4aa69fd169872f8fc3059c08ebae2eb19e7"
  /\ option_map Buffer.toString_hex
       (ed25519_hd_key_derivePath "m/0'/1'/2'/2'/1000000000'"
                                  "000102030405060708090a0b0c0d0e0f")
     = Some "8f94d394a8e8fd6b1bc2f3f49f5c47e385281d5c17e65324b0f62483e37e8793".
Proof. split; vm_compute; reflexivity. Qed.

(** Base58 keeps one ["1"] per leading zero byte. *)
Example base58_leading_zeros : Base58.encode (Buffer.from_hex "0000ff") = "115Q".
Proof. vm_compute. reflexivity. Qed.

(** ** Loading *)

Lemma useEffect_load_missing (w : World) :
  localStorage w !! "wallets" = None -> useEffect_load w = Some w.
Proof. unfold useEffect_load. by intros ->. Qed.

Lemma useEffect_load_stored (w : World) (ws : list Wallet) (words pts : list string) :
  localStorage w !! "wallets" = Some (JSON_of_wallets ws) ->
  localStorage w !! "mnemonics" = Some (JSON_of_strings words) ->
  localStorage w !! "paths" = Some (JSON_of_strings pts) ->
  useEffect_load w
  = Some (mkWorld (mkState words pts ws (showMnemonic (state w)) (mnemonicInput (state w))
                           (map (fun _ => false) ws) (map (fun _ => false) ws)
                           (gridView (state w)))
                  (localStorage w) (toasts w)).
Proof.
  unfold useEffect_load. intros -> -> ->.
  rewrite strings_of_JSON_of_strings, wallets_of_JSON_of_wallets.
  cbn [mbind option_bind]. rewrite strings_of_JSON_of_strings.
  cbn [mbind option_bind]. by destruct w as [[] ? ?].
Qed.

(** ** Sessions *)

(** No handler ever makes the chain selection longer than one entry. *)
Lemma perform_pathTypes_length (L : Libs) (w : World) (o : operation) :
  length (pathTypes (state w)) <= 1 ->
  length (pathTypes (state (perform L w o))) <= 1.
Proof.
  intros H. destruct o as [pathType|generateMnemonic| |index|]; cbn [perform].
  - rewrite selectChain_eq. cbn. lia.
  - rewrite handleGenerateWallet_eq. cbv zeta.
    destruct (chosen_phrase _ _ _); [|exact H].
    destruct (derive _ _ _ _); exact H.
  - rewrite handleAddWallet_eq. cbv zeta.
    destruct (derive _ _ _ _); exact H.
  - rewrite handleDeleteWallet_eq. cbn [state pathTypes].
    pose proof (length_delete_le index (pathTypes (state w))). lia.
  - rewrite handleClearWallets_eq. cbn. lia.
Qed.

Lemma session_pathTypes_length (L : Libs) (os : list operation) (w : World) :
  length (pathTypes (state w)) <= 1 ->
  length (pathTypes (state (session L os w))) <= 1.
Proof.
  unfold session. revert w; induction os as [|o os IH]; intros w H; [exact H|].
  cbn [fold_left]. apply IH, perform_pathTypes_length, H.
Qed.

(** ** Concrete runs with the published packages *)

Lemma try_ignores_validator (validate1 validate2 : string -> bool)
    (normalize : string -> string)
    (pathType : option string) (mnemonic : string) (accountIndex : nat) :
  generateWalletFromMnemonic_try (packages validate1 normalize) pathType mnemonic accountIndex
  = generateWalletFromMnemonic_try (packages validate2 normalize) pathType mnemonic accountIndex.
Proof.
  unfold generateWalletFromMnemonic_try.
  cbn [packages mnemonicToSeedSync derivePath nacl_sign_keyPair_fromSeed
       Keypair_fromSecretKey PublicKey_toBase58 bs58_encode ethers_Wallet].
  reflexivity.
Qed.

Lemma blank_box_skips_validation (validate1 validate2 : string -> bool)
    (normalize : string -> string) (generateMnemonic : string) (w : World) :
  JS.trim (mnemonicInput (state w)) = "" ->
  handleGenerateWallet (packages validate1 normalize) generateMnemonic w
  = handleGenerateWallet (packages validate2 normalize) generateMnemonic w.
Proof.
  intros H. rewrite !handleGenerateWallet_eq. unfold chosen_phrase. cbv zeta.
  rewrite H. cbn [JS.truthy_string].
  unfold derive, failure_message, generateWalletFromMnemonic.
  by rewrite (try_ignores_validator validate1 validate2 normalize).
Qed.

Lemma derive_solana_published (mnemonic : string) (accountIndex : nat) :
  derivable (derivation_path (Some "501") accountIndex) = true ->
  derive published (Some "501") mnemonic accountIndex
  = Some (solana_wallet mnemonic accountIndex).
Proof. exact (derive_solana no_typed_phrase NFKD_ascii mnemonic accountIndex). Qed.

Lemma mnemonicToSeedSync_published (mnemonic : string) :
  mnemonicToSeedSync published mnemonic = bip39_mnemonicToSeedSync mnemonic.
Proof.
  unfold published, packages, bip39_mnemonicToSeedSync. cbn [mnemonicToSeedSync].
  reflexivity.
Qed.

Lemma failure_message_undefined (mnemonic : string) (accountIndex : nat) :
  failure_message published None mnemonic accountIndex
  = "Failed to generate wallet. Please try again.".
Proof.
  unfold failure_message, generateWalletFromMnemonic_try.
  cbn [published packages mnemonicToSeedSync derivePath].
  by rewrite derivePath_undefined.
Qed.

(** The seed of the canonical phrase (the BIP-39 test vector): the one place
    where the 2048 rounds of PBKDF2 are run. *)
Lemma seed_abandon_bytes :
  bip39_mnemonicToSeedSync abandon
  = Buffer.from_hex "5eb00bbddcf069084889a8ab9155568165f5c453ccb85e70811aaed6f6da5fc19a5ac40b389cd370d086206dec8aa6c43daea6690f20ad3d8d48b2d2ce9e38e4".
Proof. vm_compute. reflexivity. Qed.

Lemma seed_abandon :
  Buffer.toString_hex (bip39_mnemonicToSeedSync abandon)
  = "5eb00bbddcf069084889a8ab9155568165f5c453ccb85e70811aaed6f6da5fc19a5ac40b389cd370d086206dec8aa6c43daea6690f20ad3d8d48b2d2ce9e38e4".
Proof. rewrite seed_abandon_bytes. vm_compute. reflexivity. Qed.

Lemma derive_ethereum_abandon :
  derive published (Some "60") abandon 0 = Some ethereum_abandon_0.
Proof.
  unfold derive, generateWalletFromMnemonic, generateWalletFromMnemonic_try.
  rewrite mnemonicToSeedSync_published.
  cbn [published packages derivePath ethers_Wallet].
  rewrite seed_abandon. vm_compute. reflexivity.
Qed.



(** The reference derivation on the canonical phrase: along the BIP-44 path
    [m/44'/60'/0'/0/0] it gives the well-known test-vector address, and along
    the all-hardened path of the component another one. *)
Lemma bip32_abandon_vector :
  option_map (fun key => ethers_Wallet_address (Buffer.toString_hex key))
             (Bip32.derive_private_key (bip39_mnemonicToSeedSync abandon)
                           [0x8000002c; 0x8000003c; 0x80000000; 0; 0]%Z)
  = Some (Some "0x9858EfFD232B4033E47d90003D41EC34EcaEda94").
Proof. rewrite seed_abandon_bytes. vm_compute. reflexivity. Qed.

Lemma bip32_abandon_hardened :
  option_map Buffer.toString_hex
             (Bip32.derive_private_key (bip39_mnemonicToSeedSync abandon)
                           [0x8000002c; 0x8000003c; 0x80000000; 0x80000000]%Z)
  = Some "43ff9ebfdccfa25e3921d9500db2f946d46a525fa08004af7f98976d9706cd5c".
Proof. rewrite seed_abandon_bytes. vm_compute. reflexivity. Qed.

(** Evaluation of a session, one handler at a time and innermost first (a
    handler is evaluated once the world it starts from is explicit); the
    derived wallets stay folded. *)
Ltac run_step :=
  match goal with
  | |- context [selectChain ?p (mkWorld ?s ?ls ?ts)] =>
      rewrite (selectChain_eq p (mkWorld s ls ts))
  | |- context [handleGenerateWallet ?L ?g (mkWorld ?s ?ls ?ts)] =>
      rewrite (handleGenerateWallet_eq L g (mkWorld s ls ts)); unfold chosen_phrase
  | |- context [handleAddWallet ?L (mkWorld ?s ?ls ?ts)] =>
      rewrite (handleAddWallet_eq L (mkWorld s ls ts))
  | |- context [handleDeleteWallet ?i (mkWorld ?s ?ls ?ts)] =>
      rewrite (handleDeleteWallet_eq i (mkWorld s ls ts))
  | |- context [handleClearWallets (mkWorld ?s ?ls ?ts)] =>
      rewrite (handleClearWallets_eq (mkWorld s ls ts))
  | |- context [derive published (Some "501") ?m ?i] =>
      rewrite (derive_solana_published m i) by reflexivity
  | |- context [derive ?L None ?m ?i] =>
      rewrite (derive_undefined L m i)
  | |- context [failure_message published None ?m ?i] =>
      rewrite (failure_message_undefined m i)
  | |- context [JS.join " " (JS.split " " ?s)] =>
      rewrite (join_split " " s)
  end.

Ltac run_handlers :=
  unfold session, fresh_world;
  repeat
    (first
       [ progress cbn [fold_left perform state localStorage toasts
                       mnemonicWords pathTypes wallets showMnemonic mnemonicInput
                       visiblePrivateKeys visiblePhrases gridView
                       initial_state appended with_words add_toast
                       JS.trim JS.trimStart JS.trimEnd JS.truthy_string
                       head length app delete list_delete]
       | run_step ]).

(** * The claims *)

(** ** C1: the sub-seed of the secp256k1 chain *)

(** C1, as the code has it: for both chains the sub-seed is the key that
    ed25519-hd-key's [derivePath] returns for the all-hardened path
    [m/44'/<pathType>'/0'/<accountIndex>'] over the hexadecimal seed of the
    phrase.  For path type 60 its hexadecimal form is the private key, and
    the public key is the address ethers computes for it; for path type 501
    it is the seed of the Ed25519 key pair.  No secp256k1 (BIP-32) derivation
    takes place. *)
Theorem subseed_comes_from_ed25519_hd_key
    (L : Libs) (pathType phrase : string) (accountIndex : nat)
    (wallet : Wallet) (w w' : World) :
  pathType = "60" \/ pathType = "501" ->
  generateWalletFromMnemonic L (Some pathType) phrase accountIndex w = (Some wallet, w') ->
  exists key : Buffer.t,
    derivePath L ("m/44'/" +:+ pathType +:+ "'/0'/" +:+ JS.string_of_number accountIndex +:+ "'")
               (Buffer.toString_hex (mnemonicToSeedSync L phrase)) = Some key
    /\ (pathType = "60" ->
        privateKey wallet = Buffer.toString_hex key
        /\ ethers_Wallet L (Buffer.toString_hex key) = Some (publicKey wallet))
    /\ (pathType = "501" ->
        exists secretKey keypair_publicKey,
          nacl_sign_keyPair_fromSeed L key = Some secretKey
          /\ Keypair_fromSecretKey L secretKey = Some keypair_publicKey
          /\ privateKey wallet = bs58_encode L secretKey
          /\ publicKey wallet = PublicKey_toBase58 L keypair_publicKey)
    /\ path wallet = "m/44'/" +:+ pathType +:+ "'/0'/" +:+ JS.string_of_number accountIndex +:+ "'"
    /\ mnemonic wallet = phrase.
Proof.
  intros Hpt. unfold generateWalletFromMnemonic, generateWalletFromMnemonic_try.
  change (derivation_path (Some pathType) accountIndex)
    with ("m/44'/" +:+ pathType +:+ "'/0'/" +:+ JS.string_of_number accountIndex +:+ "'").
  destruct (derivePath L _ _) as [key|]; cbn [mbind option_bind]; [|by intros [=]].
  destruct Hpt as [-> | ->].
  - change (JS.strict_eq (Some "60") "501") with false.
    change (JS.strict_eq (Some "60") "60") with true. cbn iota.
    destruct (ethers_Wallet L _) as [address|] eqn:Haddress; cbn [mbind option_bind];
      [|by intros [=]].
    intros [= <- _]. exists key. cbn [privateKey publicKey path mnemonic].
    repeat split; done.
  - change (JS.strict_eq (Some "501") "501") with true. cbn iota.
    destruct (nacl_sign_keyPair_fromSeed L key) as [secretKey|] eqn:Hsk;
      cbn [mbind option_bind]; [|by intros [=]].
    destruct (Keypair_fromSecretKey L secretKey) as [pk|] eqn:Hpk;
      cbn [mbind option_bind]; [|by intros [=]].
    intros [= <- _]. exists key. cbn [privateKey publicKey path mnemonic].
    repeat split; try done. by exists secretKey, pk.
Qed.

Lemma generate_ethereum_abandon :
  generateWalletFromMnemonic published (Some "60") abandon 0 fresh_world
  = (Some ethereum_abandon_0, fresh_world).
Proof. by rewrite generateWalletFromMnemonic_eq, derive_ethereum_abandon. Qed.

(** C1, witness: the canonical phrase at account index 0 on path type 60,
    with the published packages. *)
Lemma subseed_comes_from_ed25519_hd_key_witness :
  ("60" = "60" \/ "60" = "501")
  /\ generateWalletFromMnemonic published (Some "60") abandon 0 fresh_world
     = (Some ethereum_abandon_0, fresh_world)
  /\ exists key : Buffer.t,
       derivePath published ("m/44'/" +:+ "60" +:+ "'/0'/" +:+ JS.string_of_number 0 +:+ "'")
                  (Buffer.toString_hex (mnemonicToSeedSync published abandon)) = Some key
       /\ ("60" = "60" ->
           privateKey ethereum_abandon_0 = Buffer.toString_hex key
           /\ ethers_Wallet published (Buffer.toString_hex key)
              = Some (publicKey ethereum_abandon_0))
       /\ ("60" = "501" ->
           exists secretKey keypair_publicKey,
             nacl_sign_keyPair_fromSeed published key = Some secretKey
             /\ Keypair_fromSecretKey published secretKey = Some keypair_publicKey
             /\ privateKey ethereum_abandon_0 = bs58_encode published secretKey
             /\ publicKey ethereum_abandon_0 = PublicKey_toBase58 published keypair_publicKey)
       /\ path ethereum_abandon_0
          = "m/44'/" +:+ "60" +:+ "'/0'/" +:+ JS.string_of_number 0 +:+ "'"
       /\ mnemonic ethereum_abandon_0 = abandon.
Proof.
  split; [left; reflexivity|].
  split; [exact generate_ethereum_abandon|].
  exact (subseed_comes_from_ed25519_hd_key published "60" abandon 0 ethereum_abandon_0
           fresh_world fresh_world (or_introl eq_refl) generate_ethereum_abandon).
Defined.

(** C1, counterexample: with the published packages, the wallet derived from
    the canonical phrase on path type 60 at account index 0 has the address
    [0x2759...], not the BIP-44 test-vector address [0x9858...]; and its
    private key is not the key that BIP-32 on secp256k1 derives, neither
    along the BIP-44 path nor along the component's all-hardened path. *)
Lemma ethereum_abandon_is_not_the_bip44_vector :
  fst (generateWalletFromMnemonic published (Some "60") abandon 0 fresh_world)
  = Some ethereum_abandon_0
  /\ publicKey ethereum_abandon_0 = "0x2759A6Ad812b8A7B73A63a243816D66F5b72A0A7"
  /\ publicKey ethereum_abandon_0 <> "0x9858EfFD232B4033E47d90003D41EC34EcaEda94"
  /\ option_map Buffer.toString_hex
       (Bip32.derive_private_key (bip39_mnemonicToSeedSync abandon)
                     [0x8000002c; 0x8000003c; 0x80000000; 0x80000000]%Z)
     <> Some (privateKey ethereum_abandon_0).
Proof.
  split; [by rewrite generate_ethereum_abandon|].
  split; [reflexivity|].
  split; [discriminate|].
  rewrite bip32_abandon_hardened. discriminate.
Qed.

(** ** C2: save, then load *)

(** C2, on the code: a page that selects Solana and generates its first
    wallet holds one wallet in memory, but the generate handler stores only
    the phrase and the chain selection, never the wallet list; a reload finds
    no ["wallets"] entry and restores nothing, so the page is back at its
    initial state and the wallet is gone.  The add handler, which does store
    the wallet list, makes the same session reload to the wallets, the phrase
    and the chain selection it had in memory. *)
Theorem generate_then_reload_loses_the_wallet :
  let generated := session published [SelectChain "501"; Generate abandon] fresh_world in
  let added := handleAddWallet published generated in
  wallets (state generated) = [solana_wallet abandon 0]
  /\ localStorage generated !! "wallets" = None
  /\ mount (localStorage generated) = Some (mkWorld initial_state (localStorage generated) [])
  /\ option_map (fun w => (wallets (state w), mnemonicWords (state w), pathTypes (state w)))
                (mount (localStorage added))
     = Some (wallets (state added), mnemonicWords (state added), pathTypes (state added)).
Proof.
  cbv zeta. run_handlers.
  split; [reflexivity|]. split; [|split].
  - by rewrite !lookup_insert_ne, lookup_empty.
  - unfold mount. apply useEffect_load_missing. cbn [localStorage].
    by rewrite !lookup_insert_ne, lookup_empty.
  - unfold mount.
    erewrite useEffect_load_stored; cbn [localStorage].
    + reflexivity.
    + rewrite lookup_insert_ne by done. apply lookup_insert_eq.
    + do 3 (rewrite lookup_insert_ne by done). apply lookup_insert_eq.
    + do 2 (rewrite lookup_insert_ne by done). apply lookup_insert_eq.
Qed.

(** ** C3: account indices after a deletion *)

(** C3, as the code has it: a wallet created by either button is derived at
    the account index equal to the number of wallets in the registry at that
    moment, whatever was created or removed before. *)
Theorem new_wallet_index_is_the_wallet_count (L : Libs) (w : World) (o : operation) :
  (o = AddFromExistingPhrase \/ exists generateMnemonic, o = Generate generateMnemonic) ->
  wallets (state (perform L w o)) = wallets (state w)
  \/ exists wallet,
       wallets (state (perform L w o)) = wallets (state w) ++ [wallet]
       /\ path wallet
          = "m/44'/" +:+ JS.string_of_optional (head (pathTypes (state w))) +:+ "'/0'/"
                     +:+ JS.string_of_number (length (wallets (state w))) +:+ "'".
Proof.
  intros [-> | [generateMnemonic ->]]; cbn [perform].
  - rewrite handleAddWallet_eq. cbv zeta.
    destruct (derive _ _ _ _) as [wallet|] eqn:Hd; [right|by left].
    exists wallet. split; [reflexivity|]. by apply derive_Some in Hd as [_ ->].
  - rewrite handleGenerateWallet_eq. cbv zeta.
    destruct (chosen_phrase _ _ _) as [phrase|]; [|by left].
    destruct (derive _ _ _ _) as [wallet|] eqn:Hd; [right|by left].
    exists wallet. split; [reflexivity|]. by apply derive_Some in Hd as [_ ->].
Qed.

(** C3, witness: the first wallet of a Solana session. *)
Lemma new_wallet_index_is_the_wallet_count_witness :
  (Generate abandon = AddFromExistingPhrase
   \/ exists generateMnemonic, Generate abandon = Generate generateMnemonic)
  /\ (wallets (state (perform published solana_selected (Generate abandon)))
      = wallets (state solana_selected)
      \/ exists wallet,
           wallets (state (perform published solana_selected (Generate abandon)))
           = wallets (state solana_selected) ++ [wallet]
           /\ path wallet
              = "m/44'/" +:+ JS.string_of_optional (head (pathTypes (state solana_selected)))
                         +:+ "'/0'/"
                         +:+ JS.string_of_number (length (wallets (state solana_selected)))
                         +:+ "'").
Proof.
  split.
  - right. exists abandon. reflexivity.
  - apply (new_wallet_index_is_the_wallet_count published solana_selected (Generate abandon)).
    right. exists abandon. reflexivity.
Defined.

(** C3, counterexample: three wallets get the indices 0, 1 and 2; after the
    wallet at position 1 is removed, the next wallet is derived at index 2
    again, an index already assigned (to a wallet that is still listed), not
    one above every index assigned so far. *)
Lemma account_index_reused_after_remove :
  let before :=
    session published [SelectChain "501"; Generate abandon; AddFromExistingPhrase;
                       AddFromExistingPhrase] fresh_world in
  let after := session published [Remove 1; AddFromExistingPhrase] before in
  map path (wallets (state before))
  = ["m/44'/501'/0'/0'"; "m/44'/501'/0'/1'"; "m/44'/501'/0'/2'"]
  /\ map path (wallets (state after))
     = ["m/44'/501'/0'/0'"; "m/44'/501'/0'/2'"; "m/44'/501'/0'/2'"].
Proof.
  cbv zeta. run_handlers. split; reflexivity.
Qed.

(** ** Failures of the two wallet buttons *)

(** What the code does keep on a failure: a failed add changes nothing but
    the notifications; a failed generate changes nothing but the
    notifications and, when the phrase passed validation, the phrase words. *)
Lemma failed_operations_frame (L : Libs) (generateMnemonic : string) (w : World) :
  (length (wallets (state (handleAddWallet L w))) = length (wallets (state w)) ->
   state (handleAddWallet L w) = state w
   /\ localStorage (handleAddWallet L w) = localStorage w)
  /\ (length (wallets (state (handleGenerateWallet L generateMnemonic w)))
      = length (wallets (state w)) ->
      localStorage (handleGenerateWallet L generateMnemonic w) = localStorage w
      /\ exists words,
           state (handleGenerateWallet L generateMnemonic w) = with_words (state w) words
           /\ (chosen_phrase L (state w) generateMnemonic = None ->
               words = mnemonicWords (state w))).
Proof.
  split.
  - rewrite handleAddWallet_eq. cbv zeta.
    destruct (derive _ _ _ _); [|done].
    cbn [state wallets appended]. rewrite length_app. cbn [length]. lia.
  - rewrite handleGenerateWallet_eq. cbv zeta.
    destruct (chosen_phrase _ _ _) as [phrase|].
    + destruct (derive _ _ _ _).
      * cbn [state wallets appended]. rewrite length_app. cbn [length]. lia.
      * intros _. split; [reflexivity|]. exists (JS.split " " phrase).
        split; [reflexivity|discriminate].
    + intros _. split; [reflexivity|]. exists (mnemonicWords (state w)).
      split; [|reflexivity]. cbn [state add_toast]. by destruct (state w).
Qed.

(** ** C8: determinism of the derivation *)

(** C8: a call to the derivation function returns a wallet (or [null]) that
    is determined by the path type, the phrase and the account index alone:
    it is the same in any two worlds, and calling again right after the first
    call returns the same result (all four strings of the wallet). *)
Theorem derivation_is_deterministic
    (L : Libs) (pathType : option string) (phrase : string) (accountIndex : nat)
    (w1 w2 : World) :
  fst (generateWalletFromMnemonic L pathType phrase accountIndex w1)
  = fst (generateWalletFromMnemonic L pathType phrase accountIndex w2)
  /\ (let first := generateWalletFromMnemonic L pathType phrase accountIndex w1 in
      fst (generateWalletFromMnemonic L pathType phrase accountIndex (snd first))
      = fst first).
Proof.
  cbv zeta. rewrite !generateWalletFromMnemonic_eq.
  destruct (derive L pathType phrase accountIndex) eqn:Hd; cbn [fst snd].
  - split; reflexivity.
  - split; reflexivity.
Qed.

(** ** C9: removal keeps the other wallets *)

(** C9: removing the wallet at a valid position [k] leaves every other
    wallet record as it was, all four fields, the path with its account index
    among them; the wallets before [k] keep their position and the wallets
    after [k] move down by one. *)
Theorem remove_keeps_the_remaining_wallets (w : World) (k : nat) :
  k < length (wallets (state w)) ->
  let before := wallets (state w) in
  let after := wallets (state (handleDeleteWallet k w)) in
  length after = length before - 1
  /\ (forall i, i < k -> after !! i = before !! i)
  /\ (forall i, k <= i -> after !! i = before !! S i)
  /\ map path after = delete k (map path before).
Proof.
  intros Hk. cbv zeta. rewrite handleDeleteWallet_eq. cbn [state wallets].
  split; [|split; [|split]].
  - apply length_delete. by apply lookup_lt_is_Some_2.
  - intros i Hi. by apply list_lookup_delete_lt.
  - intros i Hi. by apply list_lookup_delete_ge.
  - clear Hk. revert k. induction (wallets (state w)) as [|x l IH]; intros [|k]; cbn; try done.
    by rewrite IH.
Qed.

(** C9, witness: the middle wallet of three. *)
Lemma remove_keeps_the_remaining_wallets_witness :
  1 < length (wallets (state three_wallets))
  /\ length (wallets (state (handleDeleteWallet 1 three_wallets)))
     = length (wallets (state three_wallets)) - 1
  /\ (forall i, i < 1 ->
      wallets (state (handleDeleteWallet 1 three_wallets)) !! i
      = wallets (state three_wallets) !! i)
  /\ (forall i, 1 <= i ->
      wallets (state (handleDeleteWallet 1 three_wallets)) !! i
      = wallets (state three_wallets) !! S i)
  /\ map path (wallets (state (handleDeleteWallet 1 three_wallets)))
     = delete 1 (map path (wallets (state three_wallets))).
Proof.
  split; [simpl; lia|].
  apply (remove_keeps_the_remaining_wallets three_wallets 1). simpl. lia.
Defined.

(** ** C10: adding after the chain selection was removed *)

(** Once the chain selection is empty, only the chain buttons fill it
    again. *)
Lemma session_keeps_no_chain (L : Libs) (os : list operation) (w : World) :
  Forall (fun o => forall pathType, o <> SelectChain pathType) os ->
  pathTypes (state w) = [] ->
  pathTypes (state (session L os w)) = [].
Proof.
  unfold session. intros Hos. revert w.
  induction Hos as [|o os Ho _ IH]; intros w Hw; [exact Hw|].
  cbn [fold_left]. apply IH.
  destruct o as [pathType|generateMnemonic| |index|]; cbn [perform].
  - by destruct (Ho pathType).
  - rewrite handleGenerateWallet_eq. cbv zeta.
    destruct (chosen_phrase _ _ _); [|exact Hw].
    destruct (derive _ _ _ _); exact Hw.
  - rewrite handleAddWallet_eq. cbv zeta.
    destruct (derive _ _ _ _); exact Hw.
  - rewrite handleDeleteWallet_eq. cbn [state pathTypes]. by rewrite Hw.
  - by rewrite handleClearWallets_eq.
Qed.

(** C10, as the code has it: in a session the chain selection never holds
    more than one entry, and the delete handler removes its entry at the
    index of the removed wallet, so removing at index 0 leaves it empty.
    From then on, until a chain button is used again, every click on add
    derives for the path type [undefined], appends nothing and keeps state
    and store.  When [derivePath] throws on a path outside the package's
    pattern, as ed25519-hd-key does, the error shown is the one of the
    [catch] branch, not the one of the unsupported-path-type branch. *)
Theorem add_after_chain_removed_fails (L : Libs) (os os' : list operation) :
  (forall path seed, isValidPath path = false -> derivePath L path seed = None) ->
  Forall (fun o => forall pathType, o <> SelectChain pathType) os' ->
  let w := session L os fresh_world in
  let removed := handleDeleteWallet 0 w in
  let later := session L os' removed in
  length (pathTypes (state w)) <= 1
  /\ (forall index,
      pathTypes (state (handleDeleteWallet index w)) = delete index (pathTypes (state w)))
  /\ pathTypes (state removed) = []
  /\ pathTypes (state later) = []
  /\ state (handleAddWallet L later) = state later
  /\ localStorage (handleAddWallet L later) = localStorage later
  /\ toasts (handleAddWallet L later)
     = toasts later ++ [toast_error "Failed to generate wallet. Please try again."].
Proof.
  intros Hthrow Hos'. cbv zeta.
  assert (Hlen : length (pathTypes (state (session L os fresh_world))) <= 1).
  { apply session_pathTypes_length. cbn. lia. }
  assert (Hremoved : pathTypes (state (handleDeleteWallet 0 (session L os fresh_world))) = []).
  { rewrite handleDeleteWallet_eq. cbn [state pathTypes].
    destruct (pathTypes (state (session L os fresh_world))) as [|x [|y l]];
      cbn in Hlen |- *; [reflexivity|reflexivity|lia]. }
  pose proof (session_keeps_no_chain L os' _ Hos' Hremoved) as Hlater.
  split; [exact Hlen|]. split; [intros index; by rewrite handleDeleteWallet_eq|].
  split; [exact Hremoved|]. split; [exact Hlater|].
  rewrite handleAddWallet_eq. cbv zeta. rewrite Hlater. cbn [head].
  rewrite derive_undefined. cbn [add_toast state localStorage toasts].
  split; [reflexivity|]. split; [reflexivity|].
  unfold failure_message, generateWalletFromMnemonic_try.
  rewrite Hthrow by reflexivity. reflexivity.
Qed.

(** C10, witness: the published packages; a session that removes the first
    of two wallets, then clicks add twice. *)
Lemma add_after_chain_removed_fails_witness :
  ((forall path seed, isValidPath path = false -> derivePath published path seed = None)
   /\ Forall (fun o => forall pathType, o <> SelectChain pathType) [AddFromExistingPhrase])
  /\ (let w := session published [SelectChain "501"; Generate abandon; AddFromExistingPhrase]
                       fresh_world in
      let removed := handleDeleteWallet 0 w in
      let later := session published [AddFromExistingPhrase] removed in
      length (pathTypes (state w)) <= 1
      /\ (forall index,
          pathTypes (state (handleDeleteWallet index w)) = delete index (pathTypes (state w)))
      /\ pathTypes (state removed) = []
      /\ pathTypes (state later) = []
      /\ state (handleAddWallet published later) = state later
      /\ localStorage (handleAddWallet published later) = localStorage later
      /\ toasts (handleAddWallet published later)
         = toasts later ++ [toast_error "Failed to generate wallet. Please try again."]).
Proof.
  assert (H1 : forall path seed,
             isValidPath path = false -> derivePath published path seed = None)
    by exact derivePath_invalid.
  assert (H2 : Forall (fun o => forall pathType, o <> SelectChain pathType)
                      [AddFromExistingPhrase])
    by (constructor; [discriminate|constructor]).
  split; [split; [exact H1|exact H2]|].
  exact (add_after_chain_removed_fails published
           [SelectChain "501"; Generate abandon; AddFromExistingPhrase]
           [AddFromExistingPhrase] H1 H2).
Defined.

(** C10, counterexample: select Solana, generate, add, remove the wallet at
    index 0.  One wallet remains and the chain selection is empty; the next
    add appends nothing and shows the message of the [catch] branch, not
    "Unsupported path type.": ed25519-hd-key rejects the path
    [m/44'/undefined'/0'/1'] before the path type is looked at. *)
Lemma add_after_chain_removed_takes_the_catch_branch :
  let w := session published [SelectChain "501"; Generate abandon; AddFromExistingPhrase;
                              Remove 0] fresh_world in
  let w' := session published [SelectChain "501"; Generate abandon; AddFromExistingPhrase;
                               Remove 0; AddFromExistingPhrase] fresh_world in
  pathTypes (state w) = []
  /\ map path (wallets (state w)) = ["m/44'/501'/0'/1'"]
  /\ wallets (state w') = wallets (state w)
  /\ toasts w' = toasts w ++ [toast_error "Failed to generate wallet. Please try again."]
  /\ toast_error "Failed to generate wallet. Please try again."
     <> toast_error "Unsupported path type.".
Proof.
  cbv zeta. run_handlers.
  split; [reflexivity|]. split; [reflexivity|]. split; [reflexivity|].
  split; [reflexivity|discriminate].
Qed.

(** * Further properties of the component *)

(** ** The derivation function *)

(** X1: a call of the derivation function never writes the component state or
    the store. When it returns a wallet it shows nothing, and the wallet
    records the phrase and the path of the call; when it returns [null] it
    shows exactly one error, which is one of its two messages. *)
Theorem derivation_only_notifies
    (L : Libs) (pathType : option string) (phrase : string) (accountIndex : nat) (w : World) :
  let r := generateWalletFromMnemonic L pathType phrase accountIndex w in
  state (snd r) = state w
  /\ localStorage (snd r) = localStorage w
  /\ match fst r with
     | Some wallet =>
         toasts (snd r) = toasts w
         /\ mnemonic wallet = phrase
         /\ path wallet = derivation_path pathType accountIndex
     | None =>
         exists message,
           toasts (snd r) = toasts w ++ [toast_error message]
           /\ (message = "Unsupported path type."
               \/ message = "Failed to generate wallet. Please try again.")
     end.
Proof.
  cbv zeta. rewrite generateWalletFromMnemonic_eq.
  destruct (derive L pathType phrase accountIndex) as [wallet|] eqn:Hd; cbn [fst snd].
  - split; [reflexivity|]. split; [reflexivity|]. split; [reflexivity|].
    by apply derive_Some in Hd.
  - split; [reflexivity|]. split; [reflexivity|].
    exists (failure_message L pathType phrase accountIndex). split; [reflexivity|].
    unfold failure_message. destruct (generateWalletFromMnemonic_try _ _ _ _); [by left|by right].
Qed.

(** X2: for a path type other than ["501"] and ["60"] no wallet is derived,
    and the error shown tells whether [derivePath] accepted the path: the
    unsupported-path-type message when it returned a key, the message of the
    [catch] branch when it threw. *)
Theorem unsupported_path_type_is_reported
    (L : Libs) (pathType phrase : string) (accountIndex : nat) (w : World) :
  pathType <> "501" -> pathType <> "60" ->
  generateWalletFromMnemonic L (Some pathType) phrase accountIndex w
  = (None,
     add_toast
       (toast_error
          (match derivePath L (derivation_path (Some pathType) accountIndex)
                            (Buffer.toString_hex (mnemonicToSeedSync L phrase)) with
           | Some _ => "Unsupported path type."
           | None => "Failed to generate wallet. Please try again."
           end)) w).
Proof.
  intros H501 H60.
  unfold generateWalletFromMnemonic, generateWalletFromMnemonic_try.
  destruct (derivePath L _ _) as [key|]; cbn [mbind option_bind]; [|by destruct w].
  unfold JS.strict_eq.
  apply String.eqb_neq in H501, H60. rewrite H501, H60. by destruct w.
Qed.

(** X2, witness: the path type [0] on the published packages: the path is
    accepted, so the unsupported-path-type message is shown. *)
Lemma unsupported_path_type_is_reported_witness :
  ("0" <> "501" /\ "0" <> "60")
  /\ generateWalletFromMnemonic published (Some "0") abandon 0 fresh_world
     = (None,
        add_toast
          (toast_error
             (match derivePath published (derivation_path (Some "0") 0)
                               (Buffer.toString_hex (mnemonicToSeedSync published abandon)) with
              | Some _ => "Unsupported path type."
              | None => "Failed to generate wallet. Please try again."
              end)) fresh_world).
Proof.
  assert (H1 : "0" <> "501") by discriminate.
  assert (H2 : "0" <> "60") by discriminate.
  split; [split; [exact H1|exact H2]|].
  exact (unsupported_path_type_is_reported published "0" abandon 0 fresh_world H1 H2).
Defined.

(** *** Paths and account indices *)

Lemma append_cancel_l (s a b : string) : s +:+ a = s +:+ b -> a = b.
Proof. induction s as [|c s IH]; simpl; [done|]. intros [= H]. by apply IH. Qed.

Lemma append_quote_cancel (a b : string) : a +:+ "'" = b +:+ "'" -> a = b.
Proof.
  revert b; induction a as [|c a IH]; intros [|d b]; simpl; try done.
  - intros [= _ H]. by destruct b.
  - intros [= _ H]. by destruct a.
  - intros [= -> H]. f_equal. by apply IH.
Qed.

Lemma string_of_number_injective (i j : nat) :
  JS.string_of_number i = JS.string_of_number j -> i = j.
Proof.
  unfold JS.string_of_number. intros H.
  apply (f_equal NilEmpty.uint_of_string) in H. rewrite !NilEmpty.usu in H.
  injection H as H. apply (f_equal Nat.of_uint) in H.
  by rewrite !DecimalNat.Unsigned.of_to in H.
Qed.

(** X3: two different account indices never give the same derivation path. *)
Theorem distinct_indices_give_distinct_paths
    (pathType : option string) (i j : nat) :
  i <> j -> derivation_path pathType i <> derivation_path pathType j.
Proof.
  intros Hij H. apply Hij. unfold derivation_path in H.
  apply append_cancel_l, append_cancel_l, append_cancel_l, append_quote_cancel in H.
  by apply string_of_number_injective.
Qed.

(** X3, witness: the account indices 9 and 10 on the Solana path type. *)
Lemma distinct_indices_give_distinct_paths_witness :
  9 <> 10 /\ derivation_path (Some "501") 9 <> derivation_path (Some "501") 10.
Proof.
  assert (H : 9 <> 10) by lia.
  split; [exact H|].
  exact (distinct_indices_give_distinct_paths (Some "501") 9 10 H).
Defined.

(** ** The generate button *)

(** X4: a typed phrase that bip39 rejects stops the handler at once: one error
    is shown; the state (the phrase words included) and the store stay as they
    were, and the generator is not consulted. *)
Theorem invalid_typed_phrase_is_rejected (L : Libs) (generateMnemonic : string) (w : World) :
  JS.trim (mnemonicInput (state w)) <> "" ->
  validateMnemonic L (JS.trim (mnemonicInput (state w))) = false ->
  handleGenerateWallet L generateMnemonic w
  = add_toast (toast_error "Invalid recovery phrase. Please try again.") w.
Proof.
  intros Htyped Hinvalid. rewrite handleGenerateWallet_eq. unfold chosen_phrase. cbv zeta.
  destruct (JS.trim (mnemonicInput (state w))); [done|].
  cbn [JS.truthy_string]. by rewrite Hinvalid.
Qed.

(** X4, witness: a page with the Solana chain selected and a phrase typed in
    the box. *)
Lemma invalid_typed_phrase_is_rejected_witness :
  (JS.trim (mnemonicInput (state typed_world)) <> ""
   /\ validateMnemonic published (JS.trim (mnemonicInput (state typed_world))) = false)
  /\ handleGenerateWallet published abandon typed_world
     = add_toast (toast_error "Invalid recovery phrase. Please try again.") typed_world.
Proof.
  assert (H1 : JS.trim (mnemonicInput (state typed_world)) <> "")
    by (vm_compute; discriminate).
  assert (H2 : validateMnemonic published (JS.trim (mnemonicInput (state typed_world)))
               = false) by reflexivity.
  split; [split; [exact H1|exact H2]|].
  exact (invalid_typed_phrase_is_rejected published abandon typed_world H1 H2).
Defined.

(** X5: with a phrase typed in the box the handler never uses the generator:
    its outcome is the same whatever the generator would return. When the
    typed phrase passes validation, the phrase words become the words of the
    typed text without its surrounding white space. *)
Theorem typed_phrase_overrides_the_generator
    (L : Libs) (generateMnemonic1 generateMnemonic2 : string) (w : World) :
  JS.trim (mnemonicInput (state w)) <> "" ->
  handleGenerateWallet L generateMnemonic1 w = handleGenerateWallet L generateMnemonic2 w
  /\ (validateMnemonic L (JS.trim (mnemonicInput (state w))) = true ->
      mnemonicWords (state (handleGenerateWallet L generateMnemonic1 w))
      = JS.split " " (JS.trim (mnemonicInput (state w)))).
Proof.
  intros Htyped. rewrite !handleGenerateWallet_eq. unfold chosen_phrase. cbv zeta.
  destruct (JS.trim (mnemonicInput (state w))) as [|c typed]; [done|].
  cbn [JS.truthy_string]. split; [reflexivity|].
  intros ->. by destruct (derive _ _ _ _).
Qed.

(** X5, witness: the same page, with two different phrases for the
    generator. *)
Lemma typed_phrase_overrides_the_generator_witness :
  JS.trim (mnemonicInput (state typed_world)) <> ""
  /\ handleGenerateWallet published abandon typed_world
     = handleGenerateWallet published legal typed_world
  /\ (validateMnemonic published (JS.trim (mnemonicInput (state typed_world))) = true ->
      mnemonicWords (state (handleGenerateWallet published abandon typed_world))
      = JS.split " " (JS.trim (mnemonicInput (state typed_world)))).
Proof.
  assert (H1 : JS.trim (mnemonicInput (state typed_world)) <> "")
    by (vm_compute; discriminate).
  split; [exact H1|].
  exact (typed_phrase_overrides_the_generator published abandon legal typed_world H1).
Defined.

(** X6: a phrase box that holds only white space (spaces, tabs, line breaks,
    no-break spaces and the other Unicode spaces [trim] strips) counts as
    blank for the handler, which tests the trimmed text: the phrase words
    become the words of the phrase the generator returns, whether or not the
    derivation then succeeds. The label of the button tests the raw text, so
    on such a box the button reads "Add Wallet" while it generates. *)
Theorem blank_phrase_box_draws_a_phrase (L : Libs) (generateMnemonic : string) (w : World) :
  JS.trim (mnemonicInput (state w)) = "" ->
  mnemonicWords (state (handleGenerateWallet L generateMnemonic w))
  = JS.split " " generateMnemonic
  /\ generateButtonLabel (state w)
     = (if decide (mnemonicInput (state w) = "") then "Generate Wallet" else "Add Wallet").
Proof.
  intros Hblank. rewrite handleGenerateWallet_eq. unfold chosen_phrase. cbv zeta.
  rewrite Hblank. cbn [JS.truthy_string]. split.
  - by destruct (derive _ _ _ _).
  - unfold generateButtonLabel. by destruct (mnemonicInput (state w)).
Qed.

(** X6, witness: a space, a no-break space and an ideographic space in the
    phrase box of a page with the Solana chain selected. *)
Lemma blank_phrase_box_draws_a_phrase_witness :
  JS.trim (mnemonicInput (state white_world)) = ""
  /\ mnemonicWords (state (handleGenerateWallet published abandon white_world))
     = JS.split " " abandon
  /\ generateButtonLabel (state white_world)
     = (if decide (mnemonicInput (state white_world) = "")
        then "Generate Wallet" else "Add Wallet").
Proof.
  assert (H : JS.trim (mnemonicInput (state white_world)) = "") by reflexivity.
  split; [exact H|].
  exact (blank_phrase_box_draws_a_phrase published abandon white_world H).
Defined.

(** ** What the registry operations leave alone *)

(** X7: no registry operation (selecting a chain, generating, adding,
    removing, clearing) writes the phrase box, the open or closed state of the
    phrase panel, or the grid switch: a typed phrase stays in the box after
    the wallets are cleared. *)
Theorem operations_keep_the_phrase_box (L : Libs) (os : list operation) (w : World) :
  mnemonicInput (state (session L os w)) = mnemonicInput (state w)
  /\ showMnemonic (state (session L os w)) = showMnemonic (state w)
  /\ gridView (state (session L os w)) = gridView (state w).
Proof.
  unfold session. revert w; induction os as [|o os IH]; intros w; [done|].
  cbn [fold_left].
  destruct (IH (perform L w o)) as (-> & -> & ->). clear IH.
  destruct o as [pathType|generateMnemonic| |index|]; cbn [perform].
  - by rewrite selectChain_eq.
  - rewrite handleGenerateWallet_eq. cbv zeta.
    destruct (chosen_phrase _ _ _); [|done].
    by destruct (derive _ _ _ _).
  - rewrite handleAddWallet_eq. cbv zeta. by destruct (derive _ _ _ _).
  - by rewrite handleDeleteWallet_eq.
  - by rewrite handleClearWallets_eq.
Qed.

(** X8: removing wallets, in any number and at any indices, never touches the
    phrase: the phrase words in memory and the stored ["mnemonics"] entry are
    what they were, also after the last wallet is gone. *)
Theorem remove_never_forgets_the_phrase (indices : list nat) (w : World) :
  let w' := fold_left (fun w index => handleDeleteWallet index w) indices w in
  mnemonicWords (state w') = mnemonicWords (state w)
  /\ localStorage w' !! "mnemonics" = localStorage w !! "mnemonics".
Proof.
  cbv zeta. revert w; induction indices as [|index indices IH]; intros w; [done|].
  cbn [fold_left]. destruct (IH (handleDeleteWallet index w)) as [-> ->].
  rewrite handleDeleteWallet_eq. cbn [state mnemonicWords localStorage].
  split; [reflexivity|]. by rewrite !lookup_insert_ne.
Qed.

(** X9: after a removal at position [k], the card at each remaining position
    shows the wallet and the private key line (key or bullets) that were at
    that position before, for the positions below [k], or one position higher,
    for the others: every visibility flag stays with its wallet. *)
Theorem remove_keeps_each_flag_with_its_wallet (k : nat) (w : World) (i : nat) (wallet : Wallet) :
  let s := state w in
  let s' := state (handleDeleteWallet k w) in
  let former := if Nat.ltb i k then i else S i in
  wallets s' !! i = wallets s !! former
  /\ visiblePrivateKeys s' !! i = visiblePrivateKeys s !! former
  /\ visiblePhrases s' !! i = visiblePhrases s !! former
  /\ privateKeyText s' i wallet = privateKeyText s former wallet.
Proof.
  cbv zeta. rewrite handleDeleteWallet_eq. unfold privateKeyText.
  cbn [state wallets visiblePrivateKeys visiblePhrases].
  destruct (Nat.ltb_spec i k) as [Hlt|Hge].
  - by rewrite !list_lookup_delete_lt.
  - by rewrite !list_lookup_delete_ge.
Qed.

(** ** Loading and the store *)

(** X10: when one of the three entries the load effect reads is missing, a
    page load restores nothing, whatever the other two hold: the state is the
    one of the first render, and the store is left as it is. *)
Theorem load_needs_all_three_entries (store : gmap string json) :
  store !! "wallets" = None \/ store !! "mnemonics" = None \/ store !! "paths" = None ->
  mount store = Some (mkWorld initial_state store []).
Proof.
  unfold mount, useEffect_load. cbn [localStorage].
  intros [H|[H|H]]; rewrite H.
  - done.
  - by destruct (store !! "wallets").
  - by destruct (store !! "wallets"), (store !! "mnemonics").
Qed.

(** X10, witness: a store with the wallet list and the phrase but no chain
    selection. *)
Lemma load_needs_all_three_entries_witness :
  let store : gmap string json :=
    <["wallets" := JSON_of_wallets (wallets (state three_wallets))]>
      (<["mnemonics" := JSON_of_strings ["abandon"; "about"]]> ∅) in
  (store !! "wallets" = None \/ store !! "mnemonics" = None \/ store !! "paths" = None)
  /\ mount store = Some (mkWorld initial_state store []).
Proof.
  cbv zeta.
  assert (H : (<["wallets" := JSON_of_wallets (wallets (state three_wallets))]>
                 (<["mnemonics" := JSON_of_strings ["abandon"; "about"]]> ∅)
               : gmap string json) !! "paths" = None)
    by (by rewrite !lookup_insert_ne, lookup_empty).
  split; [right; right; exact H|].
  exact (load_needs_all_three_entries _ (or_intror (or_intror H))).
Defined.

(** X11: a page load over a store whose three entries, if it has them, hold
    string arrays and an array of wallets (objects with the four string
    properties, in any order and among any other properties) shows no
    private key: there is one visibility flag per restored wallet, for the
    keys and for the phrases, and all of them are off, so each card shows one
    bullet per UTF-16 code unit of the wallet's phrase; the phrase panel is
    closed, the phrase box empty, and the load itself writes nothing to the
    store and shows no notification. *)
Theorem load_hides_every_key (store : gmap string json) (w : World) :
  mount store = Some w ->
  visiblePrivateKeys (state w) = repeat false (length (wallets (state w)))
  /\ visiblePhrases (state w) = repeat false (length (wallets (state w)))
  /\ (forall index wallet, privateKeyText (state w) index wallet
                           = Bullets (JS.length (mnemonic wallet)))
  /\ showMnemonic (state w) = false
  /\ mnemonicInput (state w) = ""
  /\ localStorage w = store
  /\ toasts w = [].
Proof.
  assert (Hrepeat : forall (ws : list Wallet),
             map (fun _ => false) ws = repeat false (length ws)).
  { induction ws as [|x ws IH]; [done|]. simpl. by rewrite IH. }
  assert (Hhidden : forall n index, default false (repeat false n !! index) = false).
  { induction n as [|n IH]; intros [|index]; simpl; first [done|apply IH]. }
  unfold mount, useEffect_load. cbn [localStorage state].
  intros H.
  assert (Hcases :
            w = mkWorld initial_state store []
            \/ exists words ws pts,
                 w = mkWorld (mkState words pts ws false "" (map (fun _ => false) ws)
                                      (map (fun _ => false) ws) false) store []).
  { destruct (store !! "wallets") as [storedWallets|]; [|left; congruence].
    destruct (store !! "mnemonics") as [storedMnemonic|]; [|left; congruence].
    destruct (store !! "paths") as [storedPathTypes|]; [|left; congruence].
    destruct (strings_of_JSON storedMnemonic) as [words|]; [|discriminate H].
    destruct (wallets_of_JSON storedWallets) as [ws|]; [|discriminate H].
    destruct (strings_of_JSON storedPathTypes) as [pts|]; [|discriminate H].
    right. exists words, ws, pts. cbn [mbind option_bind] in H. injection H as <-. reflexivity. }
  destruct Hcases as [->|(words & ws & pts & ->)];
    cbn [state visiblePrivateKeys visiblePhrases wallets showMnemonic mnemonicInput
         localStorage toasts initial_state length repeat].
  - split; [reflexivity|]. split; [reflexivity|]. split; [|done].
    intros index wallet. unfold privateKeyText. by destruct index.
  - rewrite Hrepeat. split; [reflexivity|]. split; [reflexivity|]. split; [|done].
    intros index wallet. unfold privateKeyText. cbn [state visiblePrivateKeys].
    by rewrite Hhidden.
Qed.

(** X11, witness: a store that another program wrote, with the properties
    of its wallet in another order and one property more. *)
Lemma load_hides_every_key_witness :
  let w := mkWorld (mkState ["abandon"; "about"] ["501"]
                            [mkWallet "A" "a" "abandon about" "m/44'/501'/0'/0'"]
                            false "" [false] [false] false) foreign_store [] in
  mount foreign_store = Some w
  /\ visiblePrivateKeys (state w) = repeat false (length (wallets (state w)))
  /\ visiblePhrases (state w) = repeat false (length (wallets (state w)))
  /\ (forall index wallet, privateKeyText (state w) index wallet
                           = Bullets (JS.length (mnemonic wallet)))
  /\ showMnemonic (state w) = false
  /\ mnemonicInput (state w) = ""
  /\ localStorage w = foreign_store
  /\ toasts w = [].
Proof.
  cbv zeta.
  assert (H : mount foreign_store
              = Some (mkWorld (mkState ["abandon"; "about"] ["501"]
                                       [mkWallet "A" "a" "abandon about" "m/44'/501'/0'/0'"]
                                       false "" [false] [false] false) foreign_store []))
    by reflexivity.
  split; [exact H|].
  exact (load_hides_every_key _ _ H).
Defined.

(** X12: a removal is persisted: over the store it leaves, provided the phrase
    entry is there, a page load shows the wallet list and the chain selection
    without their entries at the removed index, and the stored phrase. *)
Theorem remove_then_reload (k : nat) (w : World) (words : list string) :
  localStorage w !! "mnemonics" = Some (JSON_of_strings words) ->
  let removed := handleDeleteWallet k w in
  exists w',
    mount (localStorage removed) = Some w'
    /\ wallets (state w') = wallets (state removed)
    /\ wallets (state w') = delete k (wallets (state w))
    /\ pathTypes (state w') = pathTypes (state removed)
    /\ pathTypes (state w') = delete k (pathTypes (state w))
    /\ mnemonicWords (state w') = words.
Proof.
  intros Hwords. cbv zeta. rewrite handleDeleteWallet_eq. cbv zeta. cbn [localStorage state].
  eexists. split.
  - unfold mount. eapply useEffect_load_stored; cbn [localStorage].
    + rewrite lookup_insert_ne by done. apply lookup_insert_eq.
    + rewrite !lookup_insert_ne by done. exact Hwords.
    + apply lookup_insert_eq.
  - cbn [state wallets pathTypes mnemonicWords]. repeat split.
Qed.

(** X12, witness: the first of three wallets, over a store that holds the
    phrase. *)
Lemma remove_then_reload_witness :
  let w := mkWorld (state three_wallets)
                   (<["mnemonics" := JSON_of_strings ["abandon"; "about"]]> ∅) [] in
  localStorage w !! "mnemonics" = Some (JSON_of_strings ["abandon"; "about"])
  /\ exists w',
       mount (localStorage (handleDeleteWallet 0 w)) = Some w'
       /\ wallets (state w') = wallets (state (handleDeleteWallet 0 w))
       /\ wallets (state w') = delete 0 (wallets (state w))
       /\ pathTypes (state w') = pathTypes (state (handleDeleteWallet 0 w))
       /\ pathTypes (state w') = delete 0 (pathTypes (state w))
       /\ mnemonicWords (state w') = ["abandon"; "about"].
Proof.
  cbv zeta.
  assert (H : localStorage
                (mkWorld (state three_wallets)
                         (<["mnemonics" := JSON_of_strings ["abandon"; "about"]]> ∅) [])
              !! "mnemonics" = Some (JSON_of_strings ["abandon"; "about"]))
    by apply lookup_insert_eq.
  split; [exact H|].
  exact (remove_then_reload 0 _ _ H).
Defined.

(** X13: clearing removes the three entries the load effect reads and no other
    entry: the ["pathTypes"] entry that the add handler writes stays in the
    store. In memory the phrase words become the empty array; a page load over
    the cleared store starts from the state of the first render, with its
    twelve blank words. *)
Theorem clear_then_reload (w : World) :
  let cleared := handleClearWallets w in
  localStorage cleared !! "wallets" = None
  /\ localStorage cleared !! "mnemonics" = None
  /\ localStorage cleared !! "paths" = None
  /\ (forall key, key <> "wallets" -> key <> "mnemonics" -> key <> "paths" ->
      localStorage cleared !! key = localStorage w !! key)
  /\ localStorage cleared !! "pathTypes" = localStorage w !! "pathTypes"
  /\ mnemonicWords (state cleared) = []
  /\ wallets (state cleared) = []
  /\ pathTypes (state cleared) = []
  /\ mount (localStorage cleared) = Some (mkWorld initial_state (localStorage cleared) []).
Proof.
  cbv zeta. rewrite handleClearWallets_eq. cbv zeta.
  cbn [localStorage state mnemonicWords wallets pathTypes].
  assert (Hw : delete "paths" (delete "mnemonics" (delete "wallets" (localStorage w)))
               !! "wallets" = None).
  { rewrite !lookup_delete_ne by done. apply lookup_delete_eq. }
  split; [exact Hw|].
  split; [rewrite lookup_delete_ne by done; apply lookup_delete_eq|].
  split; [apply lookup_delete_eq|].
  split; [intros key H1 H2 H3; by rewrite !lookup_delete_ne|].
  split; [by rewrite !lookup_delete_ne|].
  do 3 (split; [reflexivity|]).
  unfold mount. apply useEffect_load_missing. exact Hw.
Qed.
(** ** Arrays *)

Lemma length_delete_eq {A B : Type} (index : nat) (a : list A) (b : list B) :
  length a = length b -> length (delete index a) = length (delete index b).
Proof.
  revert index b; induction a as [|x a IH]; intros index [|y b] H; try discriminate H.
  - by destruct index.
  - destruct index as [|index]; simpl in *; [lia|]. f_equal. apply IH. lia.
Qed.

Lemma map_index_from_length {A B : Type} (f : A -> nat -> B) (i : nat) (a : list A) :
  length (JS.map_index_from f i a) = length a.
Proof. revert i; induction a as [|x a IH]; intros i; simpl; [done|]. by rewrite IH. Qed.

Lemma map_index_from_lookup {A B : Type} (f : A -> nat -> B) (i j : nat) (a : list A) :
  JS.map_index_from f i a !! j = (fun x => f x (i + j)) <$> (a !! j).
Proof.
  revert i j; induction a as [|x a IH]; intros i [|j]; simpl; try done.
  - by rewrite Nat.add_0_r.
  - rewrite IH. by replace (S i + j) with (i + S j) by lia.
Qed.

(** The toggles' [map]: the flag at [index] is negated, the others kept. *)
Lemma toggle_lookup (index j : nat) (flags : list bool) :
  JS.map_index (fun visible i => if Nat.eqb i index then negb visible else visible) flags !! j
  = (if Nat.eqb j index then negb else id) <$> (flags !! j).
Proof.
  unfold JS.map_index. rewrite map_index_from_lookup. cbn [Nat.add].
  by destruct (Nat.eqb j index), (flags !! j).
Qed.

Lemma toggle_toggle (index : nat) (flags : list bool) :
  JS.map_index (fun visible i => if Nat.eqb i index then negb visible else visible)
    (JS.map_index (fun visible i => if Nat.eqb i index then negb visible else visible) flags)
  = flags.
Proof.
  apply list_eq. intros j. rewrite !toggle_lookup.
  destruct (Nat.eqb j index), (flags !! j) as [[]|]; reflexivity.
Qed.

Lemma zip_delete {A B : Type} (index : nat) (a : list A) (b : list B) :
  zip (delete index a) (delete index b) = delete index (zip a b).
Proof.
  revert index b; induction a as [|x a IH]; intros [|index] [|y b]; simpl; try done.
  - by destruct a.
  - by rewrite IH.
Qed.

Lemma togglePrivateKeyVisibility_eq (index : nat) (w : World) :
  togglePrivateKeyVisibility index w =
  let s := state w in
  mkWorld (mkState (mnemonicWords s) (pathTypes s) (wallets s) (showMnemonic s) (mnemonicInput s)
                   (JS.map_index (fun visible i => if Nat.eqb i index then negb visible else visible)
                                 (visiblePrivateKeys s))
                   (visiblePhrases s) (gridView s))
          (localStorage w) (toasts w).
Proof. unfold togglePrivateKeyVisibility, handler. by destruct w as [[] ? ?]. Qed.

Lemma togglePhraseVisibility_eq (index : nat) (w : World) :
  togglePhraseVisibility index w =
  let s := state w in
  mkWorld (mkState (mnemonicWords s) (pathTypes s) (wallets s) (showMnemonic s) (mnemonicInput s)
                   (visiblePrivateKeys s)
                   (JS.map_index (fun visible i => if Nat.eqb i index then negb visible else visible)
                                 (visiblePhrases s))
                   (gridView s))
          (localStorage w) (toasts w).
Proof. unfold togglePhraseVisibility, handler. by destruct w as [[] ? ?]. Qed.

(** ** The visibility toggles *)

(** X14: the eye button of a wallet card negates the visibility flag of that
    card and of no other; it changes nothing else: not the wallets, the
    phrase, the chain selection, the store or the notifications. On an index
    with no flag it changes nothing at all. *)
Theorem toggle_flips_one_flag (index : nat) (w : World) :
  let w' := togglePrivateKeyVisibility index w in
  (forall j, visiblePrivateKeys (state w') !! j
             = (if Nat.eqb j index then negb else id) <$> (visiblePrivateKeys (state w) !! j))
  /\ (forall j wallet, j <> index ->
      privateKeyText (state w') j wallet = privateKeyText (state w) j wallet)
  /\ wallets (state w') = wallets (state w)
  /\ mnemonicWords (state w') = mnemonicWords (state w)
  /\ pathTypes (state w') = pathTypes (state w)
  /\ visiblePhrases (state w') = visiblePhrases (state w)
  /\ localStorage w' = localStorage w
  /\ toasts w' = toasts w
  /\ (length (visiblePrivateKeys (state w)) <= index -> w' = w).
Proof.
  cbv zeta. rewrite togglePrivateKeyVisibility_eq. cbv zeta.
  cbn [state visiblePrivateKeys wallets mnemonicWords pathTypes visiblePhrases localStorage toasts].
  split; [intros j; apply toggle_lookup|].
  split.
  { intros j wallet Hj. unfold privateKeyText. cbn [visiblePrivateKeys].
    rewrite toggle_lookup. apply Nat.eqb_neq in Hj. rewrite Hj.
    by destruct (visiblePrivateKeys (state w) !! j). }
  do 6 (split; [reflexivity|]).
  intros Hlen.
  assert (JS.map_index (fun visible i => if Nat.eqb i index then negb visible else visible)
                       (visiblePrivateKeys (state w)) = visiblePrivateKeys (state w)) as ->.
  { apply list_eq. intros j. rewrite toggle_lookup.
    destruct (Nat.eqb_spec j index) as [->|_].
    - by rewrite (lookup_ge_None_2 _ _ Hlen).
    - by destruct (_ !! j). }
  by destruct w as [[] ? ?].
Qed.

(** X15: clicking the same eye button twice gives the world back, for the
    private keys and for the phrases. *)
Theorem toggle_twice_is_identity (index : nat) (w : World) :
  togglePrivateKeyVisibility index (togglePrivateKeyVisibility index w) = w
  /\ togglePhraseVisibility index (togglePhraseVisibility index w) = w.
Proof.
  split.
  - rewrite (togglePrivateKeyVisibility_eq index w). cbv zeta.
    rewrite togglePrivateKeyVisibility_eq. cbv zeta.
    cbn [state visiblePrivateKeys wallets mnemonicWords pathTypes visiblePhrases localStorage
         toasts showMnemonic mnemonicInput gridView].
    rewrite toggle_toggle. by destruct w as [[] ? ?].
  - rewrite (togglePhraseVisibility_eq index w). cbv zeta.
    rewrite togglePhraseVisibility_eq. cbv zeta.
    cbn [state visiblePrivateKeys wallets mnemonicWords pathTypes visiblePhrases localStorage
         toasts showMnemonic mnemonicInput gridView].
    rewrite toggle_toggle. by destruct w as [[] ? ?].
Qed.

(** ** The page and its controls *)

Lemma onChange_mnemonicInput_eq (value : string) (w : World) :
  onChange_mnemonicInput value w =
  let s := state w in
  mkWorld (mkState (mnemonicWords s) (pathTypes s) (wallets s) (showMnemonic s) value
                   (visiblePrivateKeys s) (visiblePhrases s) (gridView s))
          (localStorage w) (toasts w).
Proof. unfold onChange_mnemonicInput, handler. by destruct w as [[] ? ?]. Qed.

Lemma onClick_showMnemonic_eq (w : World) :
  onClick_showMnemonic w =
  let s := state w in
  mkWorld (mkState (mnemonicWords s) (pathTypes s) (wallets s) (negb (showMnemonic s))
                   (mnemonicInput s) (visiblePrivateKeys s) (visiblePhrases s) (gridView s))
          (localStorage w) (toasts w).
Proof. unfold onClick_showMnemonic, handler. by destruct w as [[] ? ?]. Qed.

Lemma onClick_gridView_eq (w : World) :
  onClick_gridView w =
  let s := state w in
  mkWorld (mkState (mnemonicWords s) (pathTypes s) (wallets s) (showMnemonic s)
                   (mnemonicInput s) (visiblePrivateKeys s) (visiblePhrases s)
                   (negb (gridView s)))
          (localStorage w) (toasts w).
Proof. unfold onClick_gridView, handler. by destruct w as [[] ? ?]. Qed.

(** A copy changes no state variable and no entry of the store. *)
Lemma copyToClipboard_state (content : string) (p : Page) :
  state (world (copyToClipboard content p)) = state (world p).
Proof. unfold copyToClipboard, navigator_clipboard_writeText. by destruct (navigator_clipboard p). Qed.

Lemma copyToClipboard_localStorage (content : string) (p : Page) :
  localStorage (world (copyToClipboard content p)) = localStorage (world p).
Proof. unfold copyToClipboard, navigator_clipboard_writeText. by destruct (navigator_clipboard p). Qed.

(** The world after an event, handler by handler. *)
Ltac step_event :=
  cbn [dispatch on_world world];
  rewrite ?copyToClipboard_state, ?copyToClipboard_localStorage;
  rewrite ?selectChain_eq, ?onChange_mnemonicInput_eq, ?handleGenerateWallet_eq,
    ?onClick_showMnemonic_eq, ?onClick_gridView_eq, ?handleAddWallet_eq,
    ?handleClearWallets_eq, ?handleDeleteWallet_eq, ?togglePrivateKeyVisibility_eq;
  cbv zeta.

(** *** One visibility flag per wallet *)

Lemma dispatch_keeps_the_flags_aligned (L : Libs) (p : Page) (e : event) :
  length (visiblePrivateKeys (state (world p))) = length (wallets (state (world p))) ->
  length (visiblePhrases (state (world p))) = length (wallets (state (world p))) ->
  length (visiblePrivateKeys (state (world (dispatch L p e))))
  = length (wallets (state (world (dispatch L p e))))
  /\ length (visiblePhrases (state (world (dispatch L p e))))
     = length (wallets (state (world (dispatch L p e)))).
Proof.
  intros Hk Hp.
  destruct e as [ | |value|generateMnemonic| | | | | |index|index|index|index]; step_event;
    try (split; assumption).
  - destruct (chosen_phrase _ _ _); [|split; assumption].
    destruct (derive _ _ _ _); [|split; assumption].
    cbn [state appended visiblePrivateKeys visiblePhrases wallets].
    rewrite !length_app, Hk, Hp. split; reflexivity.
  - destruct (derive _ _ _ _); [|split; assumption].
    cbn [state appended visiblePrivateKeys visiblePhrases wallets].
    rewrite !length_app, Hk, Hp. split; reflexivity.
  - split; reflexivity.
  - cbn [state visiblePrivateKeys visiblePhrases wallets].
    split; by apply length_delete_eq.
  - destruct (wallets _ !! index); step_event; split; assumption.
  - destruct (wallets _ !! index); step_event; split; assumption.
  - cbn [state visiblePrivateKeys visiblePhrases wallets].
    unfold JS.map_index. rewrite map_index_from_length. split; assumption.
Qed.

(** X16: whatever is clicked or typed, in any order, offered or not, a page
    that has one visibility flag per wallet (for the keys and for the phrases)
    keeps one flag per wallet: a wallet card never reads a flag that is
    missing or that belongs to another wallet's slot. *)
Theorem events_keep_one_flag_per_wallet (L : Libs) (es : list event) (p : Page) :
  length (visiblePrivateKeys (state (world p))) = length (wallets (state (world p))) ->
  length (visiblePhrases (state (world p))) = length (wallets (state (world p))) ->
  length (visiblePrivateKeys (state (world (events L es p))))
  = length (wallets (state (world (events L es p))))
  /\ length (visiblePhrases (state (world (events L es p))))
     = length (wallets (state (world (events L es p)))).
Proof.
  unfold events. revert p; induction es as [|e es IH]; intros p Hk Hp; [by split|].
  cbn [fold_left].
  destruct (dispatch_keeps_the_flags_aligned L p e Hk Hp) as [Hk' Hp'].
  by apply IH.
Qed.

(** X16, witness: the short visit, then the eye button of the second card and
    the removal of the first. *)
Lemma events_keep_one_flag_per_wallet_witness :
  (length (visiblePrivateKeys (state (world fresh_page)))
   = length (wallets (state (world fresh_page)))
   /\ length (visiblePhrases (state (world fresh_page)))
      = length (wallets (state (world fresh_page))))
  /\ length (visiblePrivateKeys
               (state (world (events published (first_visit ++ [ClickEye 1; ConfirmDelete 0])
                                     fresh_page))))
     = length (wallets
                 (state (world (events published (first_visit ++ [ClickEye 1; ConfirmDelete 0])
                                       fresh_page))))
  /\ length (visiblePhrases
               (state (world (events published (first_visit ++ [ClickEye 1; ConfirmDelete 0])
                                     fresh_page))))
     = length (wallets
                 (state (world (events published (first_visit ++ [ClickEye 1; ConfirmDelete 0])
                                       fresh_page)))).
Proof.
  split; [split; reflexivity|].
  exact (events_keep_one_flag_per_wallet published
           (first_visit ++ [ClickEye 1; ConfirmDelete 0]) fresh_page eq_refl eq_refl).
Defined.

(** *** The chain selection and the heading *)

Lemma dispatch_chain (L : Libs) (p : Page) (e : event) :
  pathTypes (state (world p)) = [] \/ pathTypes (state (world p)) = ["501"]
  \/ pathTypes (state (world p)) = ["60"] ->
  pathTypes (state (world (dispatch L p e))) = []
  \/ pathTypes (state (world (dispatch L p e))) = ["501"]
  \/ pathTypes (state (world (dispatch L p e))) = ["60"].
Proof.
  intros H.
  destruct e as [ | |value|generateMnemonic| | | | | |index|index|index|index]; step_event;
    try exact H.
  - right; left; reflexivity.
  - right; right; reflexivity.
  - destruct (chosen_phrase _ _ _); [|exact H]. destruct (derive _ _ _ _); exact H.
  - destruct (derive _ _ _ _); exact H.
  - left; reflexivity.
  - cbn [state pathTypes].
    destruct H as [-> | [-> | ->]]; destruct index as [|[|index]]; cbn; auto.
  - destruct (wallets _ !! index); step_event; exact H.
  - destruct (wallets _ !! index); step_event; exact H.
Qed.

Lemma events_chain (L : Libs) (es : list event) (p : Page) :
  pathTypes (state (world p)) = [] \/ pathTypes (state (world p)) = ["501"]
  \/ pathTypes (state (world p)) = ["60"] ->
  pathTypes (state (world (events L es p))) = []
  \/ pathTypes (state (world (events L es p))) = ["501"]
  \/ pathTypes (state (world (events L es p))) = ["60"].
Proof.
  unfold events. revert p; induction es as [|e es IH]; intros p Hp; [exact Hp|].
  cbn [fold_left]. apply IH, dispatch_chain, Hp.
Qed.

(** X17: on a page that started fresh, whatever is clicked or typed, the chain
    selection is empty or holds the one path type of a chain button, and the
    heading above the wallets names that chain: "Solana", "Ethereum", or
    nothing when the selection is empty. *)
Theorem heading_names_the_selected_chain
    (L : Libs) (es : list event) (clip : string) (api : clipboard_api) :
  let s := state (world (events L es (mkPage fresh_world clip api))) in
  (pathTypes s = [] /\ pathTypeName s = Some "")
  \/ (pathTypes s = ["501"] /\ pathTypeName s = Some "Solana")
  \/ (pathTypes s = ["60"] /\ pathTypeName s = Some "Ethereum").
Proof.
  cbv zeta. unfold pathTypeName.
  destruct (events_chain L es (mkPage fresh_world clip api) (or_introl eq_refl))
    as [-> | [-> | ->]]; [left|right; left|right; right]; (split; [reflexivity|]);
    vm_compute; reflexivity.
Qed.

(** *** Pages driven through their controls *)

Lemma length_zero_nil {A : Type} (a : list A) : Nat.eqb (length a) 0 = true -> a = [].
Proof. by destruct a. Qed.

Lemma length_pos_not_nil {A : Type} (a : list A) : Nat.ltb 0 (length a) = true -> a <> [].
Proof. by destruct a. Qed.

Lemma consistent_no_wallet (s : State) (store : gmap string json) (ts : list toast) :
  wallets s = [] -> consistent (mkWorld s store ts).
Proof.
  intros H. unfold consistent. cbn [state localStorage]. rewrite H.
  split; [constructor|]. split; [done|]. cbn [length]. lia.
Qed.

Lemma consistent_frame (w : World) (s : State) (ts : list toast) :
  mnemonicWords s = mnemonicWords (state w) ->
  pathTypes s = pathTypes (state w) ->
  wallets s = wallets (state w) ->
  consistent w -> consistent (mkWorld s (localStorage w) ts).
Proof.
  unfold consistent. cbn [state localStorage]. by intros -> -> ->.
Qed.

Lemma consistent_same (w w' : World) :
  state w' = state w -> localStorage w' = localStorage w -> consistent w -> consistent w'.
Proof. unfold consistent. by intros -> ->. Qed.

Lemma copyToClipboard_consistent (content : string) (p : Page) :
  consistent (world p) -> consistent (world (copyToClipboard content p)).
Proof.
  apply consistent_same; [apply copyToClipboard_state|apply copyToClipboard_localStorage].
Qed.

Lemma dispatch_consistent (L : Libs) (p : Page) (e : event) :
  offered (state (world p)) e = true ->
  consistent (world p) -> consistent (world (dispatch L p e)).
Proof.
  intros Ho Hc.
  destruct e as [ | |value|generateMnemonic| | | | | |index|index|index|index];
    cbn [offered] in Ho; step_event.
  - apply consistent_no_wallet. cbn [wallets].
    apply andb_true_iff in Ho as [Ho _]. by apply length_zero_nil.
  - apply consistent_no_wallet. cbn [wallets].
    apply andb_true_iff in Ho as [Ho _]. by apply length_zero_nil.
  - by apply consistent_frame.
  - apply andb_true_iff in Ho as [Ho _]. apply length_zero_nil in Ho.
    destruct (chosen_phrase _ _ _) as [phrase|]; [|by apply consistent_frame].
    destruct (derive _ _ _ _) as [wallet|] eqn:Hd; [|by apply consistent_no_wallet].
    apply derive_Some in Hd as [Hm _].
    unfold consistent. cbn [state localStorage appended wallets mnemonicWords pathTypes].
    rewrite Ho, join_split. cbn [app length].
    split; [by repeat constructor|]. split; [|lia].
    intros _. split; [|apply lookup_insert_eq].
    rewrite lookup_insert_ne by done. apply lookup_insert_eq.
  - by apply consistent_frame.
  - by apply copyToClipboard_consistent.
  - by apply consistent_frame.
  - apply length_pos_not_nil in Ho.
    destruct (derive _ _ _ _) as [wallet|] eqn:Hd; [|by apply consistent_frame].
    apply derive_Some in Hd as [Hm _].
    destruct Hc as (Hall & Hstore & _). destruct (Hstore Ho) as [Hwords Hpaths].
    unfold consistent. cbn [state localStorage appended wallets mnemonicWords pathTypes].
    split; [apply Forall_app; split; [exact Hall|by repeat constructor]|].
    split.
    + intros _. by rewrite !lookup_insert_ne.
    + intros _. rewrite lookup_insert_ne by done. apply lookup_insert_eq.
  - by apply consistent_no_wallet.
  - apply andb_true_iff in Ho as [Ho _]. apply length_pos_not_nil in Ho.
    destruct Hc as (Hall & Hstore & _). destruct (Hstore Ho) as [Hwords Hpaths].
    unfold consistent. cbn [state localStorage wallets mnemonicWords pathTypes].
    split; [by apply Forall_delete|]. split.
    + intros _. split; [by rewrite !lookup_insert_ne|apply lookup_insert_eq].
    + intros _. rewrite lookup_insert_ne by done. apply lookup_insert_eq.
  - destruct (wallets _ !! index); [by apply copyToClipboard_consistent|exact Hc].
  - destruct (wallets _ !! index); [by apply copyToClipboard_consistent|exact Hc].
  - by apply consistent_frame.
Qed.

Lemma events_consistent (L : Libs) (es : list event) (p : Page) :
  offered_all L es p = true ->
  consistent (world p) -> consistent (world (events L es p)).
Proof.
  unfold events. revert p; induction es as [|e es IH]; intros p Ho Hc; [exact Hc|].
  cbn [offered_all] in Ho. apply andb_true_iff in Ho as [Ho Hos].
  cbn [fold_left]. apply IH; [exact Hos|]. by apply dispatch_consistent.
Qed.

Lemma fresh_consistent (clip : string) (api : clipboard_api) :
  consistent (world (mkPage fresh_world clip api)).
Proof. by apply consistent_no_wallet. Qed.

(** The short visit on the published packages: its three clicks are offered
    one after the other, and it ends with the two Solana wallets of the
    phrase drawn. *)
Lemma first_visit_offered :
  offered_all published first_visit fresh_page = true.
Proof.
  unfold first_visit, fresh_page, fresh_world.
  cbn [offered_all dispatch on_world world].
  repeat
    (first
       [ progress cbn [state wallets pathTypes mnemonicWords showMnemonic mnemonicInput
                       visiblePrivateKeys visiblePhrases gridView initial_state appended
                       with_words JS.trim JS.trimStart JS.trimEnd JS.truthy_string
                       head length app]
       | run_step ]).
  reflexivity.
Qed.

Lemma first_visit_wallets :
  wallets (state (world (events published first_visit fresh_page)))
  = [solana_wallet abandon 0; solana_wallet abandon 1].
Proof.
  unfold events, first_visit, fresh_page, fresh_world.
  cbn [fold_left dispatch on_world world].
  run_handlers. reflexivity.
Qed.

(** X18: on a page that started fresh and was driven through the controls its
    renders offered, every wallet of the list carries the phrase that the
    phrase panel shows and copies (the phrase words joined by spaces): the
    generate button is offered only while the list is empty, so no second
    phrase is ever drawn beside listed wallets. *)
Theorem listed_wallets_share_the_phrase_shown
    (L : Libs) (es : list event) (clip : string) (api : clipboard_api) :
  offered_all L es (mkPage fresh_world clip api) = true ->
  let s := state (world (events L es (mkPage fresh_world clip api))) in
  Forall (fun wallet => mnemonic wallet = JS.join " " (mnemonicWords s)) (wallets s).
Proof.
  intros Ho. cbv zeta.
  destruct (events_consistent L es _ Ho (fresh_consistent clip api)) as [H _].
  exact H.
Qed.

(** X18, witness: the short visit with the published packages. *)
Lemma listed_wallets_share_the_phrase_shown_witness :
  offered_all published first_visit (mkPage fresh_world "" Granted) = true
  /\ Forall (fun wallet =>
               mnemonic wallet
               = JS.join " " (mnemonicWords
                                (state (world (events published first_visit
                                                      (mkPage fresh_world "" Granted))))))
            (wallets (state (world (events published first_visit
                                           (mkPage fresh_world "" Granted))))).
Proof.
  split; [exact first_visit_offered|].
  exact (listed_wallets_share_the_phrase_shown published first_visit "" Granted
           first_visit_offered).
Defined.

(** X19: on a page that started fresh and was driven through the controls its
    renders offered, a list of two or more wallets survives a reload: a page
    load over the store restores the wallet list, the phrase words and the
    chain selection that are in memory. *)
Theorem two_wallets_survive_a_reload
    (L : Libs) (es : list event) (clip : string) (api : clipboard_api) :
  offered_all L es (mkPage fresh_world clip api) = true ->
  let w := world (events L es (mkPage fresh_world clip api)) in
  2 <= length (wallets (state w)) ->
  exists w',
    mount (localStorage w) = Some w'
    /\ wallets (state w') = wallets (state w)
    /\ mnemonicWords (state w') = mnemonicWords (state w)
    /\ pathTypes (state w') = pathTypes (state w).
Proof.
  intros Ho. cbv zeta. intros Htwo.
  destruct (events_consistent L es _ Ho (fresh_consistent clip api))
    as (_ & Hstore & Hwallets).
  destruct Hstore as [Hwords Hpaths].
  { intros Hnil. rewrite Hnil in Htwo. cbn in Htwo. lia. }
  eexists. split.
  - unfold mount. eapply useEffect_load_stored; cbn [localStorage].
    + exact (Hwallets Htwo).
    + exact Hwords.
    + exact Hpaths.
  - cbn [state wallets mnemonicWords pathTypes]. repeat split.
Qed.

(** X19, witness: the short visit with the published packages, which ends with
    two wallets listed. *)
Lemma two_wallets_survive_a_reload_witness :
  (offered_all published first_visit (mkPage fresh_world "" Granted) = true
   /\ 2 <= length (wallets (state (world (events published first_visit
                                                 (mkPage fresh_world "" Granted))))))
  /\ exists w',
       mount (localStorage (world (events published first_visit (mkPage fresh_world "" Granted))))
       = Some w'
       /\ wallets (state w')
          = wallets (state (world (events published first_visit (mkPage fresh_world "" Granted))))
       /\ mnemonicWords (state w')
          = mnemonicWords (state (world (events published first_visit
                                                (mkPage fresh_world "" Granted))))
       /\ pathTypes (state w')
          = pathTypes (state (world (events published first_visit
                                            (mkPage fresh_world "" Granted)))).
Proof.
  assert (Htwo : 2 <= length (wallets (state (world (events published first_visit
                                                            (mkPage fresh_world "" Granted))))))
    by (change (mkPage fresh_world "" Granted) with fresh_page;
        rewrite first_visit_wallets; cbn [length]; lia).
  split; [split; [exact first_visit_offered|exact Htwo]|].
  exact (two_wallets_survive_a_reload published first_visit "" Granted first_visit_offered Htwo).
Defined.

(** *** One chain per list *)

(** A wallet is only ever derived for one of the two supported path
    types. *)
Lemma derive_Some_chain (L : Libs) (pathType : option string) (phrase : string)
    (accountIndex : nat) (wallet : Wallet) :
  derive L pathType phrase accountIndex = Some wallet ->
  pathType = Some "501" \/ pathType = Some "60".
Proof.
  unfold derive, generateWalletFromMnemonic, generateWalletFromMnemonic_try.
  destruct (derivePath L _ _) as [derivedSeed|]; simpl; [|done].
  destruct pathType as [pathType|]; [|done]. unfold JS.strict_eq.
  destruct (String.eqb_spec pathType "501") as [->|_]; [by left|].
  destruct (String.eqb_spec pathType "60") as [->|_]; [by right|done].
Qed.

Lemma one_chain_no_wallet (s : State) : wallets s = [] -> one_chain s.
Proof.
  intros H. exists "501". unfold on_chain. rewrite H.
  split; [by left|]. split; [constructor|done].
Qed.

Lemma one_chain_frame (s s' : State) :
  wallets s' = wallets s -> pathTypes s' = pathTypes s -> one_chain s -> one_chain s'.
Proof. unfold one_chain. by intros -> ->. Qed.

Lemma one_chain_append (s s' : State) (wallet : Wallet) (phrase : string) (L : Libs) :
  derive L (head (pathTypes s)) phrase (length (wallets s)) = Some wallet ->
  wallets s' = wallets s ++ [wallet] -> pathTypes s' = pathTypes s ->
  (pathTypes s = [] \/ pathTypes s = ["501"] \/ pathTypes s = ["60"]) ->
  one_chain s -> one_chain s'.
Proof.
  intros Hd Hw Hp Hvalues (pathType & Hsupported & Hall & Hsel).
  destruct (derive_Some_chain L _ _ _ _ Hd) as [Hhead|Hhead];
    apply derive_Some in Hd as [_ Hpath]; rewrite Hhead in Hpath.
  - assert (Hpts : pathTypes s = ["501"]).
    { destruct Hvalues as [H|[H|H]]; rewrite H in Hhead; by try discriminate Hhead. }
    exists "501". unfold on_chain. rewrite Hw, Hp, Hpts.
    split; [by left|]. split; [|by right].
    apply Forall_app. split; [|by repeat econstructor].
    destruct (wallets s) as [|first rest] eqn:Hws; [constructor|].
    destruct Hsel as [Hnil|Hone]; [done|congruence|].
    rewrite Hpts in Hone. injection Hone as <-. exact Hall.
  - assert (Hpts : pathTypes s = ["60"]).
    { destruct Hvalues as [H|[H|H]]; rewrite H in Hhead; by try discriminate Hhead. }
    exists "60". unfold on_chain. rewrite Hw, Hp, Hpts.
    split; [by right|]. split; [|by right].
    apply Forall_app. split; [|by repeat econstructor].
    destruct (wallets s) as [|first rest] eqn:Hws; [constructor|].
    destruct Hsel as [Hnil|Hone]; [done|congruence|].
    rewrite Hpts in Hone. injection Hone as <-. exact Hall.
Qed.

Lemma dispatch_one_chain (L : Libs) (p : Page) (e : event) :
  offered (state (world p)) e = true ->
  (pathTypes (state (world p)) = [] \/ pathTypes (state (world p)) = ["501"]
   \/ pathTypes (state (world p)) = ["60"]) ->
  one_chain (state (world p)) -> one_chain (state (world (dispatch L p e))).
Proof.
  intros Ho Hvalues Hc.
  destruct e as [ | |value|generateMnemonic| | | | | |index|index|index|index];
    cbn [offered] in Ho; step_event.
  - apply one_chain_no_wallet. cbn [state wallets].
    apply andb_true_iff in Ho as [Ho _]. by apply length_zero_nil.
  - apply one_chain_no_wallet. cbn [state wallets].
    apply andb_true_iff in Ho as [Ho _]. by apply length_zero_nil.
  - by apply (one_chain_frame (state (world p))).
  - destruct (chosen_phrase _ _ _) as [phrase|];
      [|by apply (one_chain_frame (state (world p)))].
    destruct (derive _ _ _ _) as [wallet|] eqn:Hd;
      [|by apply (one_chain_frame (state (world p)))].
    by apply (one_chain_append (state (world p)) _ wallet phrase L).
  - by apply (one_chain_frame (state (world p))).
  - exact Hc.
  - by apply (one_chain_frame (state (world p))).
  - destruct (derive _ _ _ _) as [wallet|] eqn:Hd;
      [|by apply (one_chain_frame (state (world p)))].
    by apply (one_chain_append (state (world p)) _ wallet
                (JS.join " " (mnemonicWords (state (world p)))) L).
  - by apply one_chain_no_wallet.
  - destruct Hc as (pathType & Hsupported & Hall & Hsel).
    exists pathType. cbn [state wallets pathTypes].
    split; [exact Hsupported|]. split; [by apply Forall_delete|].
    intros Hleft.
    assert (Hlisted : wallets (state (world p)) <> []).
    { intros Hnil. rewrite Hnil in Hleft. by destruct index. }
    destruct (Hsel Hlisted) as [-> | ->]; [left; by destruct index|].
    destruct index as [|index]; [by left|right; by destruct index].
  - destruct (wallets _ !! index); step_event; exact Hc.
  - destruct (wallets _ !! index); step_event; exact Hc.
  - by apply (one_chain_frame (state (world p))).
Qed.

(** X20: on a page that started fresh and was driven through the controls its
    renders offered, the listed wallets all lie on one of the two supported
    chains (the path of each is the path of that chain's path type at some
    account index), and the chain selection is either empty or that chain: the
    heading never names a chain other than the one the listed wallets were
    derived for. *)
Theorem listed_wallets_lie_on_one_chain
    (L : Libs) (es : list event) (clip : string) (api : clipboard_api) :
  offered_all L es (mkPage fresh_world clip api) = true ->
  let s := state (world (events L es (mkPage fresh_world clip api))) in
  exists pathType,
    (pathType = "501" \/ pathType = "60")
    /\ Forall (fun wallet =>
                 exists accountIndex,
                   path wallet = derivation_path (Some pathType) accountIndex)
              (wallets s)
    /\ (wallets s <> [] -> pathTypes s = [] \/ pathTypes s = [pathType]).
Proof.
  intros Ho. cbv zeta.
  assert (H : forall es p,
             offered_all L es p = true ->
             (pathTypes (state (world p)) = [] \/ pathTypes (state (world p)) = ["501"]
              \/ pathTypes (state (world p)) = ["60"]) ->
             one_chain (state (world p)) ->
             one_chain (state (world (events L es p)))).
  { clear. unfold events. induction es as [|e es IH]; intros p Ho Hvalues Hc; [exact Hc|].
    cbn [offered_all] in Ho. apply andb_true_iff in Ho as [Ho Hos].
    cbn [fold_left]. apply IH; [exact Hos|by apply dispatch_chain|].
    by apply dispatch_one_chain. }
  apply (H es _ Ho); [by left|by apply one_chain_no_wallet].
Qed.

(** X20, witness: the short visit with the published packages, on the Solana
    chain. *)
Lemma listed_wallets_lie_on_one_chain_witness :
  offered_all published first_visit (mkPage fresh_world "" Granted) = true
  /\ exists pathType,
       (pathType = "501" \/ pathType = "60")
       /\ Forall (fun wallet =>
                    exists accountIndex,
                      path wallet = derivation_path (Some pathType) accountIndex)
                 (wallets (state (world (events published first_visit
                                                (mkPage fresh_world "" Granted)))))
       /\ (wallets (state (world (events published first_visit
                                         (mkPage fresh_world "" Granted)))) <> [] ->
           pathTypes (state (world (events published first_visit
                                           (mkPage fresh_world "" Granted)))) = []
           \/ pathTypes (state (world (events published first_visit
                                              (mkPage fresh_world "" Granted))))
              = [pathType]).
Proof.
  split; [exact first_visit_offered|].
  exact (listed_wallets_lie_on_one_chain published first_visit "" Granted
           first_visit_offered).
Defined.

(** *** The entries of the store *)

Lemma dispatch_store_frame (L : Libs) (p : Page) (e : event) (key : string) :
  key <> "wallets" -> key <> "mnemonics" -> key <> "paths" -> key <> "pathTypes" ->
  localStorage (world (dispatch L p e)) !! key = localStorage (world p) !! key.
Proof.
  intros Hw Hm Hp Ht.
  destruct e as [ | |value|generateMnemonic| | | | | |index|index|index|index]; step_event;
    try reflexivity.
  - destruct (chosen_phrase _ _ _); [|reflexivity].
    destruct (derive _ _ _ _); [|reflexivity].
    cbn [localStorage]. by rewrite !lookup_insert_ne.
  - destruct (derive _ _ _ _); [|reflexivity].
    cbn [localStorage]. by rewrite !lookup_insert_ne.
  - cbn [localStorage]. by rewrite !lookup_delete_ne.
  - cbn [localStorage]. by rewrite !lookup_insert_ne.
  - destruct (wallets _ !! index); step_event; reflexivity.
  - destruct (wallets _ !! index); step_event; reflexivity.
Qed.

(** X21: whatever is clicked or typed, the page writes and removes no entry of
    the store other than its own four: ["wallets"], ["mnemonics"], ["paths"]
    and ["pathTypes"]. *)
Theorem events_touch_only_their_entries
    (L : Libs) (es : list event) (p : Page) (key : string) :
  key <> "wallets" -> key <> "mnemonics" -> key <> "paths" -> key <> "pathTypes" ->
  localStorage (world (events L es p)) !! key = localStorage (world p) !! key.
Proof.
  intros Hw Hm Hp Ht. unfold events.
  revert p; induction es as [|e es IH]; intros p; [reflexivity|].
  cbn [fold_left]. rewrite IH. by apply dispatch_store_frame.
Qed.

(** X21, witness: the theme entry of another component, across a visit that
    ends with the wallets cleared. *)
Lemma events_touch_only_their_entries_witness :
  ("theme" <> "wallets" /\ "theme" <> "mnemonics" /\ "theme" <> "paths"
   /\ "theme" <> "pathTypes")
  /\ localStorage (world (events published (first_visit ++ [ConfirmDelete 0; ConfirmClear])
                                 themed_page)) !! "theme"
     = localStorage (world themed_page) !! "theme".
Proof.
  assert (H1 : "theme" <> "wallets") by discriminate.
  assert (H2 : "theme" <> "mnemonics") by discriminate.
  assert (H3 : "theme" <> "paths") by discriminate.
  assert (H4 : "theme" <> "pathTypes") by discriminate.
  split; [split; [exact H1|split; [exact H2|split; [exact H3|exact H4]]]|].
  exact (events_touch_only_their_entries published
           (first_visit ++ [ConfirmDelete 0; ConfirmClear]) themed_page "theme" H1 H2 H3 H4).
Defined.

(** X22: the ["pathTypes"] entry, which the add handler writes, is read by
    nothing: a page load gives the same state whatever that entry holds, and
    whether it is there or not. *)
Theorem pathTypes_entry_is_never_read (store : gmap string json) (value : json) :
  option_map state (mount (<["pathTypes" := value]> store)) = option_map state (mount store)
  /\ option_map state (mount (delete "pathTypes" store)) = option_map state (mount store).
Proof.
  unfold mount, useEffect_load. cbn [localStorage].
  rewrite !lookup_insert_ne, !lookup_delete_ne by done.
  split.
  - destruct (store !! "wallets") as [storedWallets|]; [|reflexivity].
    destruct (store !! "mnemonics") as [storedMnemonic|]; [|reflexivity].
    destruct (store !! "paths") as [storedPathTypes|]; [|reflexivity].
    destruct (strings_of_JSON storedMnemonic); [|reflexivity].
    destruct (wallets_of_JSON storedWallets); [|reflexivity].
    destruct (strings_of_JSON storedPathTypes); reflexivity.
  - destruct (store !! "wallets") as [storedWallets|]; [|reflexivity].
    destruct (store !! "mnemonics") as [storedMnemonic|]; [|reflexivity].
    destruct (store !! "paths") as [storedPathTypes|]; [|reflexivity].
    destruct (strings_of_JSON storedMnemonic); [|reflexivity].
    destruct (wallets_of_JSON storedWallets); [|reflexivity].
    destruct (strings_of_JSON storedPathTypes); reflexivity.
Qed.

(** *** Copying *)

(** X23: a private key that the card shows as bullets (as many bullets as the
    wallet's phrase has UTF-16 code units) is copied in clear by a click on
    the bullets: the clipboard receives the private key itself when the page may
    write to it. The click shows "Copied to clipboard!" also when the write is
    refused; where the browser offers no clipboard at all the handler stops
    before the notification. In no case does the click change the state or the
    store. *)
Theorem hidden_private_key_is_still_copied
    (L : Libs) (p : Page) (index : nat) (wallet : Wallet) :
  wallets (state (world p)) !! index = Some wallet ->
  default false (visiblePrivateKeys (state (world p)) !! index) = false ->
  let p' := dispatch L p (ClickPrivateKey index) in
  privateKeyText (state (world p)) index wallet = Bullets (JS.length (mnemonic wallet))
  /\ clipboard p'
     = match navigator_clipboard p with
       | Granted => privateKey wallet
       | Denied | Unavailable => clipboard p
       end
  /\ toasts (world p')
     = match navigator_clipboard p with
       | Granted | Denied => toasts (world p) ++ [toast_success "Copied to clipboard!"]
       | Unavailable => toasts (world p)
       end
  /\ state (world p') = state (world p)
  /\ localStorage (world p') = localStorage (world p).
Proof.
  intros Hwallet Hhidden. cbv zeta. unfold privateKeyText. rewrite Hhidden.
  cbn [dispatch]. rewrite Hwallet.
  rewrite copyToClipboard_state, copyToClipboard_localStorage.
  unfold copyToClipboard, navigator_clipboard_writeText.
  destruct (navigator_clipboard p); repeat split.
Qed.

(** X23, witness: the first card of the registry of three wallets, on a page
    that may not write to the clipboard. *)
Lemma hidden_private_key_is_still_copied_witness :
  (wallets (state (world three_wallets_page)) !! 0
   = Some (mkWallet "A" "a" "abandon about" "m/44'/501'/0'/0'")
   /\ default false (visiblePrivateKeys (state (world three_wallets_page)) !! 0) = false)
  /\ privateKeyText (state (world three_wallets_page)) 0
                    (mkWallet "A" "a" "abandon about" "m/44'/501'/0'/0'")
     = Bullets (JS.length (mnemonic (mkWallet "A" "a" "abandon about" "m/44'/501'/0'/0'")))
  /\ clipboard (dispatch published three_wallets_page (ClickPrivateKey 0))
     = match navigator_clipboard three_wallets_page with
       | Granted => privateKey (mkWallet "A" "a" "abandon about" "m/44'/501'/0'/0'")
       | Denied | Unavailable => clipboard three_wallets_page
       end
  /\ toasts (world (dispatch published three_wallets_page (ClickPrivateKey 0)))
     = match navigator_clipboard three_wallets_page with
       | Granted | Denied =>
           toasts (world three_wallets_page) ++ [toast_success "Copied to clipboard!"]
       | Unavailable => toasts (world three_wallets_page)
       end
  /\ state (world (dispatch published three_wallets_page (ClickPrivateKey 0)))
     = state (world three_wallets_page)
  /\ localStorage (world (dispatch published three_wallets_page (ClickPrivateKey 0)))
     = localStorage (world three_wallets_page).
Proof.
  split; [split; reflexivity|].
  exact (hidden_private_key_is_still_copied published three_wallets_page 0
           (mkWallet "A" "a" "abandon about" "m/44'/501'/0'/0'") eq_refl eq_refl).
Defined.

(** X24: the first wallet of a page, generated with a blank phrase box: the
    header of the phrase panel and then the panel itself are offered, and a
    click on the open panel copies exactly the phrase the generator drew,
    which is the phrase the wallet carries: splitting it into words and
    joining the words again loses nothing. *)
Theorem phrase_panel_copies_the_generated_phrase
    (L : Libs) (p : Page) (generateMnemonic : string) (wallet : Wallet) :
  JS.trim (mnemonicInput (state (world p))) = "" ->
  wallets (state (world p)) = [] ->
  showMnemonic (state (world p)) = false ->
  navigator_clipboard p = Granted ->
  derive L (head (pathTypes (state (world p)))) generateMnemonic 0 = Some wallet ->
  let clicks := [ClickGenerate generateMnemonic; ClickPhraseHeader; ClickPhrase] in
  offered_all L clicks p = true
  /\ clipboard (events L clicks p) = generateMnemonic
  /\ mnemonic wallet = generateMnemonic
  /\ wallets (state (world (events L clicks p))) = [wallet].
Proof.
  intros Hblank Hnone Hclosed Hgranted Hd. cbv zeta.
  assert (Hchain : pathTypes (state (world p)) <> []).
  { intros Hnil. rewrite Hnil in Hd. cbn [head] in Hd. by rewrite derive_undefined in Hd. }
  assert (Hgen : handleGenerateWallet L generateMnemonic (world p)
                 = mkWorld (appended (state (world p)) wallet (JS.split " " generateMnemonic))
                           (<["paths" := JSON_of_strings (pathTypes (state (world p)))]>
                              (<["mnemonics" := JSON_of_strings (JS.split " " generateMnemonic)]>
                                 (localStorage (world p))))
                           (toasts (world p)
                            ++ [toast_success "Wallet generated successfully!"])).
  { rewrite handleGenerateWallet_eq. unfold chosen_phrase. cbv zeta.
    rewrite Hblank, Hnone. cbn [JS.truthy_string length]. by rewrite Hd. }
  split; [|split; [|split]].
  - cbn [offered_all dispatch on_world world]. rewrite Hgen, onClick_showMnemonic_eq.
    cbv zeta. cbn [offered state appended wallets showMnemonic mnemonicWords].
    rewrite Hnone, Hclosed.
    destruct (pathTypes (state (world p))); [done|]. reflexivity.
  - unfold events. cbn [fold_left dispatch on_world world].
    unfold copyToClipboard, navigator_clipboard_writeText.
    cbn [on_world navigator_clipboard world clipboard]. rewrite Hgranted. cbn [clipboard].
    rewrite Hgen, onClick_showMnemonic_eq. cbv zeta.
    cbn [state appended mnemonicWords].
    by rewrite join_split.
  - by apply derive_Some in Hd as [-> _].
  - unfold events. cbn [fold_left dispatch]. rewrite copyToClipboard_state.
    cbn [on_world world]. rewrite Hgen, onClick_showMnemonic_eq. cbv zeta.
    cbn [state appended wallets].
    by rewrite Hnone.
Qed.

(** X24, witness: the page right after the Solana button, the canonical phrase
    drawn. *)
Lemma phrase_panel_copies_the_generated_phrase_witness :
  (JS.trim (mnemonicInput (state (world solana_page))) = ""
   /\ wallets (state (world solana_page)) = []
   /\ showMnemonic (state (world solana_page)) = false
   /\ navigator_clipboard solana_page = Granted
   /\ derive published (head (pathTypes (state (world solana_page)))) abandon 0
      = Some (solana_wallet abandon 0))
  /\ offered_all published [ClickGenerate abandon; ClickPhraseHeader; ClickPhrase] solana_page
     = true
  /\ clipboard (events published [ClickGenerate abandon; ClickPhraseHeader; ClickPhrase]
                       solana_page)
     = abandon
  /\ mnemonic (solana_wallet abandon 0) = abandon
  /\ wallets (state (world (events published
                                   [ClickGenerate abandon; ClickPhraseHeader; ClickPhrase]
                                   solana_page)))
     = [solana_wallet abandon 0].
Proof.
  assert (Hd : derive published (head (pathTypes (state (world solana_page)))) abandon 0
               = Some (solana_wallet abandon 0))
    by exact (derive_solana_published abandon 0 eq_refl).
  split; [split; [reflexivity|split; [reflexivity|split; [reflexivity|
            split; [reflexivity|exact Hd]]]]|].
  exact (phrase_panel_copies_the_generated_phrase published solana_page abandon
           (solana_wallet abandon 0) eq_refl eq_refl eq_refl eq_refl Hd).
Defined.

(** ** The published packages on the Solana chain *)

(** *** Decimal digits *)

Lemma parseInt_string_of_uint (d : Decimal.uint) (acc : nat) :
  fold_left (fun acc c => (10 * acc + Z.of_nat (nat_of_ascii c - 48))%Z)
            (list_ascii_of_string (NilEmpty.string_of_uint d)) (Z.of_nat acc)
  = Z.of_nat (Nat.of_uint_acc d acc).
Proof.
  revert acc; induction d as [|d IH|d IH|d IH|d IH|d IH|d IH|d IH|d IH|d IH|d IH];
    intros acc; [reflexivity|..];
    cbn [NilEmpty.string_of_uint list_ascii_of_string fold_left Nat.of_uint_acc];
    rewrite <- IH; f_equal; rewrite Nat.tail_mul_spec;
    change (nat_of_ascii _ - 48) with 0 || change (nat_of_ascii _ - 48) with 1
    || change (nat_of_ascii _ - 48) with 2 || change (nat_of_ascii _ - 48) with 3
    || change (nat_of_ascii _ - 48) with 4 || change (nat_of_ascii _ - 48) with 5
    || change (nat_of_ascii _ - 48) with 6 || change (nat_of_ascii _ - 48) with 7
    || change (nat_of_ascii _ - 48) with 8 || change (nat_of_ascii _ - 48) with 9;
    lia.
Qed.

(** [parseInt] reads back the decimal digits of a number. *)
Lemma parseInt_string_of_number (n : nat) :
  JS.parseInt (JS.string_of_number n) = Z.of_nat n.
Proof.
  unfold JS.parseInt, JS.string_of_number.
  etransitivity; [exact (parseInt_string_of_uint (Nat.to_uint n) 0)|].
  change (Nat.of_uint_acc (Nat.to_uint n) 0) with (Nat.of_uint (Nat.to_uint n)).
  by rewrite DecimalNat.Unsigned.of_to.
Qed.

(** A string of decimal digits. *)
Lemma digits_string_of_uint (d : Decimal.uint) :
  forallb JS.is_digit (list_ascii_of_string (NilEmpty.string_of_uint d)) = true.
Proof.
  induction d as [|d IH|d IH|d IH|d IH|d IH|d IH|d IH|d IH|d IH|d IH];
    [reflexivity|..]; cbn [NilEmpty.string_of_uint list_ascii_of_string forallb];
    rewrite IH; reflexivity.
Qed.

Lemma string_of_number_not_empty (n : nat) : JS.string_of_number n <> "".
Proof.
  unfold JS.string_of_number. intros H.
  assert (Hnil : Nat.to_uint n = Decimal.Nil) by (by destruct (Nat.to_uint n)).
  apply (f_equal Nat.of_uint) in Hnil. rewrite DecimalNat.Unsigned.of_to in Hnil.
  cbn in Hnil. by subst n.
Qed.

Lemma is_digit_not_slash (c : ascii) : JS.is_digit c = true -> Ascii.eqb c "/" = false.
Proof. destruct c as [[] [] [] [] [] [] [] []]; by vm_compute. Qed.

Lemma is_digit_not_quote (c : ascii) : JS.is_digit c = true -> Ascii.eqb c "'" = false.
Proof. destruct c as [[] [] [] [] [] [] [] []]; by vm_compute. Qed.

(** The last segment of a derivation path, [<digits>']: it holds no
    separator, the package's pattern accepts it, and without its apostrophe
    it is the digits. *)
Lemma split_digits (ds : string) :
  forallb JS.is_digit (list_ascii_of_string ds) = true ->
  JS.split "/" (ds +:+ "'") = [ds +:+ "'"].
Proof.
  induction ds as [|c ds IH]; [reflexivity|].
  cbn [list_ascii_of_string forallb]. intros [Hc Hds]%andb_true_iff.
  change (String c ds +:+ "'") with (String c (ds +:+ "'")).
  cbn [JS.split]. rewrite (is_digit_not_slash c Hc), (IH Hds). reflexivity.
Qed.

Lemma hardened_segment_digits (ds : string) :
  ds <> "" -> forallb JS.is_digit (list_ascii_of_string ds) = true ->
  hardened_segment (ds +:+ "'") = true.
Proof.
  induction ds as [|c ds IH]; [done|]. intros _.
  cbn [list_ascii_of_string forallb]. intros [Hc Hds]%andb_true_iff.
  destruct ds as [|c' ds].
  - cbn. exact Hc.
  - specialize (IH ltac:(discriminate) Hds).
    change (String c (String c' ds) +:+ "'") with (String c (String c' (ds +:+ "'"))).
    change (String c' ds +:+ "'") with (String c' (ds +:+ "'")) in IH.
    assert (Hc' : JS.is_digit c' = true).
    { cbn [list_ascii_of_string forallb] in Hds. by apply andb_true_iff in Hds as [? _]. }
    destruct c' as [[] [] [] [] [] [] [] []]; try discriminate Hc';
      cbn [hardened_segment] in IH |- *; rewrite Hc; exact IH.
Qed.

Lemma replaceDerive_digits (ds : string) :
  forallb JS.is_digit (list_ascii_of_string ds) = true ->
  replaceDerive (ds +:+ "'") = ds.
Proof.
  induction ds as [|c ds IH]; [reflexivity|].
  cbn [list_ascii_of_string forallb]. intros [Hc Hds]%andb_true_iff.
  change (String c ds +:+ "'") with (String c (ds +:+ "'")).
  cbn [replaceDerive]. rewrite (is_digit_not_quote c Hc), (IH Hds). reflexivity.
Qed.

(** The Solana path of every account index below [2^31] is one the package
    derives along. *)
Lemma solana_path_derivable (accountIndex : nat) :
  (Z.of_nat accountIndex < 2 ^ 31)%Z ->
  derivable (derivation_path (Some "501") accountIndex) = true.
Proof.
  intros Hbound.
  pose proof (digits_string_of_uint (Nat.to_uint accountIndex)) as Hdigits.
  fold (JS.string_of_number accountIndex) in Hdigits.
  unfold derivable, isValidPath, derivation_path.
  change ("m/44'/" +:+ JS.string_of_optional (Some "501") +:+ "'/0'/"
          +:+ JS.string_of_number accountIndex +:+ "'")
    with (String "m" (String "/" (String "4" (String "4" (String "'" (String "/"
          (String "5" (String "0" (String "1" (String "'" (String "/"
          (String "0" (String "'" (String "/"
          (JS.string_of_number accountIndex +:+ "'"))))))))))))))).
  cbn [JS.split Ascii.eqb Bool.eqb]. rewrite (split_digits _ Hdigits).
  cbn [tl forallb map String.eqb Ascii.eqb Bool.eqb andb].
  rewrite (hardened_segment_digits _ (string_of_number_not_empty accountIndex) Hdigits).
  rewrite (replaceDerive_digits _ Hdigits), parseInt_string_of_number.
  apply andb_true_iff. split; [reflexivity|].
  apply andb_true_iff. split; [reflexivity|].
  apply andb_true_iff. split; [reflexivity|].
  apply andb_true_iff. split; [reflexivity|].
  apply andb_true_iff. split; [|reflexivity].
  apply Z.leb_le. unfold HARDENED_OFFSET. lia.
Qed.

(** The page after the Solana button and one click on generate that drew
    the canonical phrase. *)
Lemma generated_page_world :
  world (events published [ClickSolana; ClickGenerate abandon] fresh_page)
  = mkWorld (mkState (JS.split " " abandon) ["501"] [solana_wallet abandon 0] false ""
                     [false] [false] false)
            (<["paths" := JSON_of_strings ["501"]]>
               (<["mnemonics" := JSON_of_strings (JS.split " " abandon)]> ∅))
            [toast_success "Wallet selected. Please generate a wallet to continue.";
             toast_success "Wallet generated successfully!"].
Proof.
  unfold events, fresh_page, fresh_world.
  cbn [fold_left dispatch on_world world].
  run_handlers. reflexivity.
Qed.

(** X25: with the packages as published and the Solana chain selected, the add
    button succeeds whatever the phrase words are and whatever the Unicode
    normalisation makes of them, as long as fewer than [2^31] wallets are
    listed: bip39 derives a seed from any text without validating it, the path
    is one ed25519-hd-key accepts, and every 32-byte key is an Ed25519 seed.
    The wallet appended carries the joined words and the path of the next
    account index. *)
Theorem solana_add_always_succeeds
    (validate : string -> bool) (normalize : string -> string) (w : World) :
  head (pathTypes (state w)) = Some "501" ->
  (Z.of_nat (length (wallets (state w))) < 2 ^ 31)%Z ->
  let phrase := JS.join " " (mnemonicWords (state w)) in
  let wallet := solana_wallet_NFKD normalize phrase (length (wallets (state w))) in
  wallets (state (handleAddWallet (packages validate normalize) w))
  = wallets (state w) ++ [wallet]
  /\ mnemonic wallet = phrase
  /\ path wallet = derivation_path (Some "501") (length (wallets (state w)))
  /\ toasts (handleAddWallet (packages validate normalize) w)
     = toasts w ++ [toast_success "Wallet generated successfully!"].
Proof.
  intros Hchain Hbound. cbv zeta.
  rewrite handleAddWallet_eq. cbv zeta. rewrite Hchain.
  rewrite (derive_solana validate normalize _ _ (solana_path_derivable _ Hbound)).
  repeat split.
Qed.

(** X25, witness: the page after the Solana button and one click on generate,
    where the add button is offered. *)
Lemma solana_add_always_succeeds_witness :
  let w := world (events published [ClickSolana; ClickGenerate abandon] fresh_page) in
  (head (pathTypes (state w)) = Some "501"
   /\ (Z.of_nat (length (wallets (state w))) < 2 ^ 31)%Z)
  /\ wallets (state (handleAddWallet (packages no_typed_phrase NFKD_ascii) w))
     = wallets (state w)
       ++ [solana_wallet_NFKD NFKD_ascii (JS.join " " (mnemonicWords (state w)))
                              (length (wallets (state w)))]
  /\ mnemonic (solana_wallet_NFKD NFKD_ascii (JS.join " " (mnemonicWords (state w)))
                                  (length (wallets (state w))))
     = JS.join " " (mnemonicWords (state w))
  /\ path (solana_wallet_NFKD NFKD_ascii (JS.join " " (mnemonicWords (state w)))
                              (length (wallets (state w))))
     = derivation_path (Some "501") (length (wallets (state w)))
  /\ toasts (handleAddWallet (packages no_typed_phrase NFKD_ascii) w)
     = toasts w ++ [toast_success "Wallet generated successfully!"].
Proof.
  cbv zeta.
  assert (H1 : head (pathTypes (state (world (events published
                                                     [ClickSolana; ClickGenerate abandon]
                                                     fresh_page)))) = Some "501")
    by (by rewrite generated_page_world).
  assert (H2 : (Z.of_nat (length (wallets (state (world (events published
                                                                [ClickSolana;
                                                                 ClickGenerate abandon]
                                                                fresh_page)))))
                < 2 ^ 31)%Z)
    by (by rewrite generated_page_world).
  split; [split; [exact H1|exact H2]|].
  exact (solana_add_always_succeeds no_typed_phrase NFKD_ascii _ H1 H2).
Defined.

(** * The registry operations on the page

    The handlers behind generate, add and remove have one call site each,
    inside a part of the page that is rendered under a condition: generate
    while no wallet is listed and a chain is selected, add while a wallet is
    listed, remove on the card of a listed wallet.  The properties below are
    about the operations as the page offers them. *)

(** ** C4: adding before any phrase exists *)







(** ** C5: removing past the end *)



(** ** C6: failures *)



(** ** C7: two wallets on the Ed25519 chain *)




